(** * Homology-model alignment core of protwis (build_homology_models.py)

    A shallow embedding of the pure core of
    [build_gpcr/management/commands/build_homology_models.py]:
    generic-number arithmetic ([GPCRDBParsingPDB.gn_num_extract],
    [gn_indecer]), the reference/template merge of
    [HomologyModeling.run_main_alignment], the similarity ranking of
    [create_ordered_similarity_table], the coordinate-array post-processing
    and window fetch of [GPCRDBParsingPDB], and the bulge resolver
    [Bulges.bulge_in_reference].

    Python values are modelled as the code uses them: [str] as [string],
    [int] as [Z], [OrderedDict] as an insertion-ordered association list,
    exceptions as the [Raise] outcome of a [result]. *)

From Stdlib Require Import ZArith Ascii String List Lia Permutation Sorted.
From stdpp Require Import base tactics option list strings pretty.

Local Open Scope string_scope.
Local Open Scope Z_scope.

#[local] Set Warnings "-clear-no-such-hyp".

(** ** Python outcomes *)

(** The exceptions this module can raise. *)
Inductive exn : Type :=
  | KeyError
  | IndexError
  | ValueError
  | AttributeError
  | UnboundLocalError
  | FileNotFoundError.

(** The outcome of a Python call: a value or a raised exception. *)
Inductive result (A : Type) : Type :=
  | Ok (a : A)
  | Raise (e : exn).
Arguments Ok {A} a.
Arguments Raise {A} e.

#[global] Instance result_ret : MRet result := λ A a, Ok a.
#[global] Instance result_bind : MBind result := λ A B k r,
  match r with
  | Ok a => k a
  | Raise e => Raise e
  end.

#[global] Instance result_fmap : FMap result := λ A B f r,
  match r with
  | Ok a => Ok (f a)
  | Raise e => Raise e
  end.

Definition is_ok {A : Type} (r : result A) : bool :=
  match r with Ok _ => true | Raise _ => false end.

(** ** Python string primitives *)

Module PyStr.

Definition is_digit (c : ascii) : bool :=
  let n := nat_of_ascii c in (48 <=? n)%nat && (n <=? 57)%nat.

(** Value of an ASCII decimal digit. *)
Definition digit_val (c : ascii) : option Z :=
  if is_digit c then Some (Z.of_nat (nat_of_ascii c) - 48) else None.

(** ASCII white space as [int()] and [\s] see it: TAB, LF, VT, FF, CR,
    FS, GS, RS, US and SPACE. *)
Definition is_space (c : ascii) : bool :=
  let n := nat_of_ascii c in
  ((9 <=? n)%nat && (n <=? 13)%nat) || ((28 <=? n)%nat && (n <=? 32)%nat).

Fixpoint lstrip (s : string) : string :=
  match s with
  | String c s' => if is_space c then lstrip s' else s
  | EmptyString => EmptyString
  end.

Fixpoint rstrip (s : string) : string :=
  match s with
  | String c s' =>
      match rstrip s' with
      | EmptyString => if is_space c then EmptyString else String c EmptyString
      | r => String c r
      end
  | EmptyString => EmptyString
  end.

(** Digits after a first digit: further digits, each optionally preceded
    by one underscore. *)
Fixpoint int_digits (acc : Z) (s : string) : option Z :=
  match s with
  | EmptyString => Some acc
  | String c s' =>
      match digit_val c with
      | Some d => int_digits (acc * 10 + d) s'
      | None =>
          if Ascii.eqb c "_" then
            match s' with
            | String c' s'' =>
                match digit_val c' with
                | Some d => int_digits (acc * 10 + d) s''
                | None => None
                end
            | EmptyString => None
            end
          else None
      end
  end.

Definition int_unsigned (s : string) : option Z :=
  match s with
  | String c s' =>
      match digit_val c with
      | Some d => int_digits d s'
      | None => None
      end
  | EmptyString => None
  end.

(** [int(s)] in base ten on an ASCII string; [None] is [ValueError]. *)
Definition int (s : string) : option Z :=
  match rstrip (lstrip s) with
  | String c s' =>
      if Ascii.eqb c "-" then Z.opp <$> int_unsigned s'
      else if Ascii.eqb c "+" then int_unsigned s'
      else int_unsigned (String c s')
  | EmptyString => None
  end.

(** [str(n)] of an [int]. *)
Definition str (n : Z) : string := pretty n.

Fixpoint is_prefix (p s : string) : bool :=
  match p, s with
  | EmptyString, _ => true
  | String a p', String b s' => Ascii.eqb a b && is_prefix p' s'
  | String _ _, EmptyString => false
  end.

(** Left-to-right scan of [s.split(sep)] for a non-empty [sep]: [skip]
    counts the characters of a matched separator still to be passed,
    [cur] is the field read so far. *)
Fixpoint split_go (sep : string) (skip : nat) (cur : string) (s : string)
  : list string :=
  match s with
  | EmptyString => [cur]
  | String c s' =>
      match skip with
      | S k => split_go sep k cur s'
      | O =>
          if is_prefix sep s
          then cur :: split_go sep (String.length sep - 1) EmptyString s'
          else split_go sep O (cur +:+ String c EmptyString) s'
      end
  end.

(** [s.split(sep)]; an empty separator raises [ValueError]. *)
Definition split (s sep : string) : result (list string) :=
  match sep with
  | EmptyString => Raise ValueError
  | _ => Ok (split_go sep O EmptyString s)
  end.

(** [s.replace(a, b)] for one-character [a] and [b]. *)
Fixpoint replace (a b : ascii) (s : string) : string :=
  match s with
  | EmptyString => EmptyString
  | String c s' => String (if Ascii.eqb c a then b else c) (replace a b s')
  end.

(** [s[:n]]. *)
Definition take (n : nat) (s : string) : string := substring 0 n s.

End PyStr.

(** ** Generic-number arithmetic ([GPCRDBParsingPDB]) *)

(** What [gn_num_extract] returns: the pair [(int, int)] of segment and
    position, or the sentinel pair [('/', '/')]. *)
Inductive gn_split : Type :=
  | GnSplit (tm num : Z)
  | GnSentinel.

(** [gn_num_extract(gn, delimiter)]: every exception of the [try] body
    (empty separator, a missing second field, a field [int] rejects) is
    caught by the bare [except] and gives the sentinel pair. *)
Definition gn_num_extract (gn delimiter : string) : gn_split :=
  match PyStr.split gn delimiter with
  | Ok (f0 :: f1 :: _) =>
      match PyStr.int f0, PyStr.int f1 with
      | Some tm, Some num => GnSplit tm num
      | _, _ => GnSentinel
      end
  | _ => GnSentinel
  end.

(** [gn_indecer(gn, delimiter, direction)]. *)
Definition gn_indecer (gn delimiter : string) (direction : Z) : result string :=
  match gn_num_extract gn delimiter with
  | GnSplit tm num =>
      if (String.length (PyStr.str num) =? 2)%nat then
        Ok (PyStr.str tm +:+ delimiter +:+ PyStr.str (num + direction))
      else if (String.length (PyStr.str num) =? 3)%nat then
        let direction := if direction <? 0 then direction + 1 else direction in
        match PyStr.int (PyStr.take 2 (PyStr.str num)) with
        | Some anchor =>
            Ok (PyStr.str tm +:+ delimiter +:+ PyStr.str (anchor + direction))
        | None => Raise ValueError
        end
      else Ok "/"
  | GnSentinel => Ok "/"
  end.

(** A generic number written out from its segment, delimiter and position. *)
Definition gn_of (tm : Z) (delimiter : string) (num : Z) : string :=
  PyStr.str tm +:+ delimiter +:+ PyStr.str num.

(** Delimiters that cannot be mistaken for part of a number: non-empty and
    not starting with a digit or a minus sign. *)
Definition plain_delimiter (d : string) : bool :=
  match d with
  | String c _ => negb (PyStr.is_digit c) && negb (Ascii.eqb c "-")
  | EmptyString => false
  end.

(** ** Ordered dictionaries *)

(** [collections.OrderedDict] as an association list in insertion order:
    assigning to a key that is present replaces its value in place,
    assigning to a new key appends an entry. *)
Module ODict.
Section odict.
Context {K V : Type} `{EqDecision K}.

Fixpoint set (k : K) (v : V) (d : list (K * V)) : list (K * V) :=
  match d with
  | [] => [(k, v)]
  | (k', v') :: d' =>
      if decide (k' = k) then (k', v) :: d' else (k', v') :: set k v d'
  end.

Fixpoint get (k : K) (d : list (K * V)) : option V :=
  match d with
  | [] => None
  | (k', v') :: d' => if decide (k' = k) then Some v' else get k d'
  end.

Definition keys (d : list (K * V)) : list K := d.*1.
End odict.
End ODict.

(** ** Reference/template merge ([HomologyModeling.run_main_alignment]) *)

(** One aligned position of a protein, [position[0..2]]: the generic
    number used as dictionary key ([None] when the position carries none),
    whether field 1 differs from [False], and the residue code. *)
Record position : Type := Position {
  pos_gn : option string;
  pos_assigned : bool;
  pos_code : string
}.

(** The locals of [run_main_alignment] that the loop updates, with what
    [print] has written so far. *)
Record merge_state : Type := MergeState {
  reference_dict : list (option string * string);
  template_dict : list (option string * string);
  reference_string : string;
  template_string : string;
  matching_string : string;
  stdout : list string
}.

Definition merge_init : merge_state :=
  MergeState [] [] "" "" "" [].

(** The representation class returned by [run_main_alignment]. *)
Record AlignedReferenceAndTemplate : Type := Aligned {
  reference_id : string;
  template_id : string;
  aligned_reference_dict : list (option string * string);
  aligned_template_dict : list (option string * string);
  aligned_string : string
}.

(** Both mappings and the three strings receive one entry. *)
Definition emit (rk : option string) (rv : string) (tk : option string)
    (tv : string) (m : string) (st : merge_state) : merge_state :=
  {| reference_dict := ODict.set rk rv (reference_dict st);
     template_dict := ODict.set tk tv (template_dict st);
     reference_string := reference_string st +:+ rv;
     template_string := template_string st +:+ tv;
     matching_string := matching_string st +:+ m;
     stdout := stdout st |}.

(** The reference side alone receives an entry. *)
Definition emit_reference (rk : option string) (rv : string)
    (st : merge_state) : merge_state :=
  {| reference_dict := ODict.set rk rv (reference_dict st);
     template_dict := template_dict st;
     reference_string := reference_string st +:+ rv;
     template_string := template_string st;
     matching_string := matching_string st;
     stdout := stdout st |}.

(** The template side and the classification receive an entry. *)
Definition emit_template (tk : option string) (tv : string) (m : string)
    (st : merge_state) : merge_state :=
  {| reference_dict := reference_dict st;
     template_dict := ODict.set tk tv (template_dict st);
     reference_string := reference_string st;
     template_string := template_string st +:+ tv;
     matching_string := matching_string st +:+ m;
     stdout := stdout st |}.

Definition print (line : string) (st : merge_state) : merge_state :=
  {| reference_dict := reference_dict st;
     template_dict := template_dict st;
     reference_string := reference_string st;
     template_string := template_string st;
     matching_string := matching_string st;
     stdout := (stdout st ++ [line])%list |}.

Definition misaligned_message : string := "Error: Generic numbers don't align".

(** The body of the inner loop, for one pair
    [(ref_position, temp_position)]. *)
Definition merge_position (st : merge_state) (rt : position * position)
    : merge_state :=
  let (r, t) := rt in
  if pos_assigned r && pos_assigned t then
    if decide (pos_gn r = pos_gn t) then
      emit (pos_gn r) (pos_code r) (pos_gn t) (pos_code t)
        (if decide (pos_code r = pos_code t) then pos_code r else ".") st
    else print misaligned_message st
  else if pos_assigned r && negb (pos_assigned t) then
    let st := emit_reference (pos_gn r) (pos_code r) st in
    if decide (pos_code t = "-") then emit_template (pos_gn t) "-" "-" st
    else if decide (pos_code t = "_") then emit_template (pos_gn t) "x" "x" st
    else st
  else if bool_decide (pos_code r = "-") && pos_assigned t then
    emit (pos_gn r) "-" (pos_gn t) (pos_code t) "-" st
  else if bool_decide (pos_code r = "-") && bool_decide (pos_code t = "-") then
    emit (pos_gn r) "-" (pos_gn t) "-" "-" st
  else st.

(** Key of the boundary entry that closes segment number [n]. *)
Definition end_key (n : Z) : option string :=
  Some ("TM" +:+ PyStr.str n +:+ "_end").

(** The body of the outer loop, for one pair [(ref_segment, temp_segment)];
    the state carries [segment_count]. *)
Definition merge_segment (acc : Z * merge_state)
    (seg : list position * list position) : Z * merge_state :=
  let segment_count := acc.1 + 1 in
  let st := foldl merge_position acc.2 (zip seg.1 seg.2) in
  (segment_count,
   emit (end_key segment_count) "/" (end_key segment_count) "/" "/" st).

(** The two loops of [run_main_alignment] over [ref] and [temp], the
    aligned residue lists of the reference and of the main template. *)
Definition merge_alignment (ref temp : list (list position)) : merge_state :=
  (foldl merge_segment (0, merge_init) (zip ref temp)).2.

(** [run_main_alignment] from the alignment engine's output on: the
    merged alignment, and what was printed. *)
Definition run_main_alignment (self_reference_id self_main_pdb_id : string)
    (ref temp : list (list position))
    : AlignedReferenceAndTemplate * list string :=
  let st := merge_alignment ref temp in
  (Aligned self_reference_id self_main_pdb_id
     (reference_dict st) (template_dict st) (matching_string st),
   stdout st).

(** ** Similarity ranking ([HomologyModeling.create_ordered_similarity_table]) *)

Module PyList.
Section sorted.
Context {A : Type} (key : A → Z).

(** [x] goes behind the entries with a larger key and before the first
    entry whose key is not larger. *)
Fixpoint insert_reverse (x : A) (l : list A) : list A :=
  match l with
  | [] => [x]
  | y :: l' =>
      if key x <? key y then y :: insert_reverse x l' else x :: y :: l'
  end.

(** [sorted(l, key=key, reverse=True)]: descending by key, entries with
    equal keys in their order in [l]. *)
Fixpoint sorted_reverse (l : list A) : list A :=
  match l with
  | [] => []
  | x :: l' => insert_reverse x (sorted_reverse l')
  end.
End sorted.
End PyList.

Section SimilarityTable.
Context {Protein Structure : Type} `{EqDecision Structure}.

(** [int(p.similarity)] of a protein of the pairwise alignment. *)
Variable similarity : Protein → Z.
(** The structures the query of line 307 returns for a protein, in the
    query's order. *)
Variable matches : Protein → list Structure.

(** The last loop: one table entry per ranked protein, keyed by the first
    structure of its query. *)
Definition similarity_table_step (acc : result (list (Structure * Z)))
    (i : Protein * Z) : result (list (Structure * Z)) :=
  similarity_table_all ← acc;
  match matches i.1 with
  | s :: _ => Ok (ODict.set s i.2 similarity_table_all)
  | [] => Raise IndexError
  end.

(** The structure a protein is entered under: [list(matches)[0]]. *)
Definition table_key (p : Protein) : option Structure := head (matches p).

(** The table entry of a ranked protein. *)
Definition table_entry (i : Protein * Z) : option (Structure * Z) :=
  s ← table_key i.1; Some (s, i.2).

(** [create_ordered_similarity_table], from the proteins of the pairwise
    alignment ([alignment_all.proteins]) on. *)
Definition create_ordered_similarity_table (proteins : list Protein)
    : result (list (Structure * Z)) :=
  let sim_table_all_temp := (λ p, (p, similarity p)) <$> drop 1 proteins in
  let sim_table_order := PyList.sorted_reverse snd sim_table_all_temp in
  foldl similarity_table_step (Ok []) sim_table_order.
End SimilarityTable.

(** ** Regular expressions of the coordinate parser *)

Module Re.

(** The constructs the parser's patterns are made of. *)
Inductive regex : Type :=
  | Eps
  | Chr (p : ascii → bool)
  | Seq (r1 r2 : regex)
  | Opt (r : regex)
  | Star (r : regex).

(** The greedy repetition of a matcher [step]: as many iterations as
    [fuel] allows, each consuming input, then the continuation [k]; when a
    longer run leads nowhere, a shorter one is tried. *)
Fixpoint star_with {A : Type}
    (step : string → (string → option A) → option A)
    (k : string → option A) (fuel : nat) (s : string) : option A :=
  match fuel with
  | O => k s
  | S fuel' =>
      match step s (λ s',
              if (String.length s' <? String.length s)%nat
              then star_with step k fuel' s' else None) with
      | Some x => Some x
      | None => k s
      end
  end.

(** Backtracking match of [r] at the head of [s]; [k] continues on the
    rest. A repetition gets the length of the input as fuel, which it
    cannot use up: every iteration consumes a character. *)
Fixpoint run {A : Type} (r : regex) (s : string) (k : string → option A)
  : option A :=
  match r with
  | Eps => k s
  | Chr p =>
      match s with
      | String c s' => if p c then k s' else None
      | EmptyString => None
      end
  | Seq r1 r2 => run r1 s (λ s', run r2 s' k)
  | Opt r1 =>
      match run r1 s k with
      | Some x => Some x
      | None => k s
      end
  | Star r1 => star_with (run r1) k (String.length s) s
  end.

(** The least number of characters a match of [r] consumes. *)
Fixpoint min_len (r : regex) : nat :=
  match r with
  | Eps => 0
  | Chr _ => 1
  | Seq r1 r2 => min_len r1 + min_len r2
  | Opt _ => 0
  | Star _ => 0
  end.

(** The text consumed between [s] and its suffix [s']. *)
Definition consumed (s s' : string) : string :=
  substring 0 (String.length s - String.length s') s.

(** A pattern that is a sequence of capture groups; the result lists
    [group(1)], [group(2)], ... *)
Fixpoint run_groups (gs : list regex) (s : string) (acc : list string)
  : option (list string) :=
  match gs with
  | [] => Some (rev acc)
  | g :: gs' => run g s (λ s', run_groups gs' s' (consumed s s' :: acc))
  end.

(** [pattern.match(s)]. *)
Definition rmatch (gs : list regex) (s : string) : option (list string) :=
  run_groups gs s [].

(** [re.search(pattern, s)]: the first start offset with a match. *)
Fixpoint search (gs : list regex) (s : string) : option (list string) :=
  match rmatch gs s with
  | Some g => Some g
  | None =>
      match s with
      | String _ s' => search gs s'
      | EmptyString => None
      end
  end.

(** [m.group(i)], for [i] from 1. *)
Definition group (i : nat) (m : list string) : string :=
  nth (i - 1) m EmptyString.

Definition plus (r : regex) : regex := Seq r (Star r).

(** The characters of [s], literally. *)
Fixpoint lit (s : string) : regex :=
  match s with
  | EmptyString => Eps
  | String c s' => Seq (Chr (Ascii.eqb c)) (lit s')
  end.

Definition space : regex := Chr PyStr.is_space.
Definition nonspace : regex := Chr (λ c, negb (PyStr.is_space c)).
Definition digit : regex := Chr PyStr.is_digit.
(** [.]: any character but a line feed. *)
Definition any : regex := Chr (λ c, negb (Ascii.eqb c "010")).
Definition dash : regex := Chr (Ascii.eqb "-").

(** [[0-9\s+-.]]: digits, white space and the range from [+] to [.]. *)
Definition coord_class : regex :=
  Chr (λ c, PyStr.is_digit c || PyStr.is_space c
            || ((43 <=? nat_of_ascii c)%nat && (nat_of_ascii c <=? 46)%nat)).

(** [[0-9\s.-]]. *)
Definition frag_class : regex :=
  Chr (λ c, PyStr.is_digit c || PyStr.is_space c
            || Ascii.eqb c "." || Ascii.eqb c "-").

(** [ATOM\s+\d+\s+]. *)
Definition atom_serial : regex :=
  Seq (lit "ATOM") (Seq (plus space) (Seq (plus digit) (plus space))).

(** [\S{3,4}]. *)
Definition resname34 : regex :=
  Seq nonspace (Seq nonspace (Seq nonspace (Opt nonspace))).

(** Optional white space, [\S{3,4}], white space, one [\S], optional
    white space: the residue-name and chain fields. *)
Definition resname_chain : regex :=
  Seq (Star space) (Seq resname34 (Seq (plus space) (Seq nonspace (Star space)))).

(** The pattern of line 459, searched in the first line. Its four
    groups: the record up to the chain field; dashes and digits (the
    residue number); a run of [coord_class]; one [\S]. *)
Definition first_line_pattern : list regex :=
  [ Seq atom_serial (Seq (plus nonspace) resname_chain);
    Seq (Star dash) (plus digit);
    plus coord_class;
    nonspace ].

(** The patterns [res0], [res1] and [resx] of lines 464-466. Their six
    groups: [atom_serial]; the atom name [\S+]; [resname_chain]; the
    residue number [resnum]; a run of [coord_class]; one [\S]. *)
Definition residue_pattern (resnum : regex) : list regex :=
  [ atom_serial; plus nonspace; resname_chain; resnum;
    plus coord_class; nonspace ].

(** The fourth group of [res0] and [res1]: [res_num] as [format]
    writes it. *)
Definition number (n : Z) : regex := lit (PyStr.str n).

(** [\d.\d{2}]. *)
Definition decimal2 : regex := Seq digit (Seq any (Seq digit digit)).

(** The pattern of line 486 for the alpha-carbon record. Its nine
    groups: [atom_serial]; the name CA; white space; [\S{3}]; the chain
    field; a run of [frag_class]; [decimal2] and white space; dashes and
    [decimal2] (the generic-number fragment); white space and one [\S]. *)
Definition ca_pattern : list regex :=
  [ atom_serial; lit "CA"; plus space;
    Seq nonspace (Seq nonspace nonspace);
    Seq (plus space) (Seq nonspace (Star space));
    plus frag_class;
    Seq decimal2 (plus space);
    Seq (Star dash) decimal2;
    Seq (plus space) nonspace ].

End Re.

(** ** Coordinate parser ([GPCRDBParsingPDB]) *)

(** A residue's atom records: atom name to record line. *)
Abbreviation atom_block := (list (string * string)).

(** Keys of the coordinate array: a raw residue number ([int]) or a
    generic number read from the alpha-carbon record ([str]). *)
Inductive reskey : Type :=
  | KInt (n : Z)
  | KStr (s : string).

#[global] Instance reskey_eq_dec : EqDecision reskey.
Proof. solve_decision. Defined.

(** The locals of the first loop of [pdb_array_creator]. *)
Record parse_state : Type := ParseState {
  res_num : Z;
  pdb_array : list (Z * atom_block);
  atom_lines : atom_block
}.

(** The body of the first loop, for one line. *)
Definition pdb_line_step (acc : result parse_state) (line : string)
    : result parse_state :=
  st ← acc;
  match Re.rmatch (Re.residue_pattern (Re.number (res_num st))) line with
  | Some res0_line =>
      Ok (ParseState (res_num st) (pdb_array st)
            (ODict.set (Re.group 2 res0_line) line (atom_lines st)))
  | None =>
      match Re.rmatch (Re.residue_pattern (Re.number (res_num st + 1))) line with
      | Some res1_line =>
          Ok (ParseState (res_num st + 1)
                (ODict.set (res_num st) (atom_lines st) (pdb_array st))
                (ODict.set (Re.group 2 res1_line) line []))
      | None =>
          match Re.rmatch (Re.residue_pattern (Re.plus Re.digit)) line with
          | Some resx_line =>
              match PyStr.int (Re.group 4 resx_line) with
              | Some n =>
                  Ok (ParseState n (pdb_array st)
                        (ODict.set (Re.group 2 resx_line) line []))
              | None => Raise ValueError
              end
          | None => Ok st
          end
      end
  end.

(** The body of the second loop of [pdb_array_creator], for one residue:
    the key under which its block goes to [out_array]. *)
Definition out_key (key : Z) (value : atom_block) : result reskey :=
  match ODict.get "CA" value with
  | None => Raise KeyError
  | Some ca =>
      match Re.rmatch Re.ca_pattern ca with
      | Some res =>
          if bool_decide (ca ≠ "") then
            match Re.group 8 res with
            | String c rest =>
                if Ascii.eqb c "-"
                then Ok (KStr (rest +:+ PyStr.str 1))
                else Ok (KStr (Re.group 8 res))
            | EmptyString => Raise IndexError
            end
          else Ok (KInt key)
      | None => Ok (KInt key)
      end
  end.

Definition out_array_step (acc : result (list (reskey * atom_block)))
    (entry : Z * atom_block) : result (list (reskey * atom_block)) :=
  out_array ← acc;
  k ← out_key entry.1 entry.2;
  Ok (ODict.set k entry.2 out_array).

(** The second loop of [pdb_array_creator] (lines 484-497). *)
Definition rekey_residues (pdb_array : list (Z * atom_block))
    : result (list (reskey * atom_block)) :=
  foldl out_array_step (Ok []) pdb_array.

(** [pdb_array_creator], from the lines [readlines] returned on. *)
Definition pdb_array_of_lines (lines : list string)
    : result (list (reskey * atom_block)) :=
  match lines with
  | [] => Raise IndexError
  | line0 :: _ =>
      match Re.search Re.first_line_pattern line0 with
      | None => Raise AttributeError
      | Some m =>
          match PyStr.int (Re.group 2 m) with
          | None => Raise ValueError
          | Some n =>
              st ← foldl pdb_line_step (Ok (ParseState n [] [])) lines;
              rekey_residues
                (ODict.set (res_num st) (atom_lines st) (pdb_array st))
          end
      end
  end.

Section CoordinateFiles.
(** The coordinate-file store: the lines of a file, [None] when there is
    no such file. *)
Variable files : string → option (list string).

Definition pdb_array_creator (filename : string)
    : result (list (reskey * atom_block)) :=
  match files filename with
  | None => Raise FileNotFoundError
  | Some lines => pdb_array_of_lines lines
  end.

Definition fetch_step (pdb_array : list (reskey * atom_block))
    (acc : result (list (reskey * atom_block))) (gn : string)
    : result (list (reskey * atom_block)) :=
  output ← acc;
  match ODict.get (KStr (PyStr.replace "x" "." gn)) pdb_array with
  | Some block => Ok (ODict.set (KStr (PyStr.replace "x" "." gn)) block output)
  | None => Raise KeyError
  end.

(** The loop of [fetch_lines_from_pdb] over a parsed coordinate array. *)
Definition fetch_from_array (pdb_array : list (reskey * atom_block))
    (generic_numbers : list string) : result (list (reskey * atom_block)) :=
  foldl (fetch_step pdb_array) (Ok []) generic_numbers.

Definition pdb_filename (pdb preferred_chain path : string) : string :=
  (if bool_decide (path = "default") then "./structure/PDB/" else path)
  +:+ pdb +:+ "_" +:+ preferred_chain +:+ "_GPCRDB.pdb".

(** [fetch_lines_from_pdb(pdb, preferred_chain, generic_numbers, path)],
    with [pdb] already written out by [str]. *)
Definition fetch_lines_from_pdb (pdb preferred_chain : string)
    (generic_numbers : list string) (path : string)
    : result (list (reskey * atom_block)) :=
  pdb_array ← pdb_array_creator (pdb_filename pdb preferred_chain path);
  fetch_from_array pdb_array generic_numbers.

(** ** Bulge resolver ([Bulges.bulge_in_reference]) *)

Context {Structure Protein : Type} `{EqDecision Protein}.

(** [Protein.objects.get(id=structure.protein.parent.id)]. *)
Variable parent_protein : Structure → Protein.
(** The proteins of the residues that
    [Residue.objects.filter(generic_number__label=gn)] returns. *)
Variable residue_proteins : string → list Protein.
(** [str(structure)] and [str(structure.preferred_chain)]. *)
Variable structure_str : Structure → string.
Variable preferred_chain_str : Structure → string.

(** The attribute [self.template] of a [Bulges] object: not yet set, or
    set to [None] or to a structure. *)
Inductive template_attr : Type :=
  | Unset
  | SetTo (t : option Structure).

(** The first loop: a table structure enters [bulge_templates] once for
    every matching residue of its parent protein. *)
Definition bulge_templates (gn : string)
    (similarity_table : list (Structure * Z)) : list Structure :=
  structure ← ODict.keys similarity_table;
  match_protein ← residue_proteins gn;
  if decide (match_protein = parent_protein structure)
  then [structure] else [].

(** The five-position window around [gn]. *)
Definition window (gn : string) : result (list string) :=
  m2 ← gn_indecer gn "x" (-2);
  m1 ← gn_indecer gn "x" (-1);
  p1 ← gn_indecer gn "x" 1;
  p2 ← gn_indecer gn "x" 2;
  Ok [m2; m1; gn; p1; p2].

(** The [try] body of the second loop for one candidate. *)
Definition try_template (gn : string) (temp : Structure)
    : result (list (reskey * atom_block)) :=
  match preferred_chain_str temp with
  | String c _ =>
      w ← window gn;
      fetch_lines_from_pdb (structure_str temp) (String c EmptyString) w
        "default"
  | EmptyString => Raise IndexError
  end.

(** The second loop: [alt_bulge] stays unbound ([None] here) until a
    fetch returns; an exception sets [self.template] to [None] and the
    loop goes on; a fetch that returns ends the loop. *)
Fixpoint probe (gn : string) (temps : list Structure) (self_template : template_attr)
    : option (list (reskey * atom_block)) * template_attr :=
  match temps with
  | [] => (None, self_template)
  | temp :: temps' =>
      match try_template gn temp with
      | Ok alt_bulge => (Some alt_bulge, SetTo (Some temp))
      | Raise _ => probe gn temps' (SetTo None)
      end
  end.

(** [bulge_in_reference(gn, similarity_table)] on a fresh [Bulges]
    object: what the call returns or raises, and [self.template]
    afterwards. Reading the unbound [alt_bulge] raises
    [UnboundLocalError]; an empty mapping is falsy. *)
Definition bulge_in_reference (gn : string)
    (similarity_table : list (Structure * Z))
    : result (option (list (reskey * atom_block))) * template_attr :=
  let (alt_bulge, self_template) :=
    probe gn (bulge_templates gn similarity_table) Unset in
  match alt_bulge with
  | None => (Raise UnboundLocalError, self_template)
  | Some [] => (Ok None, self_template)
  | Some found => (Ok (Some found), self_template)
  end.

(** Lines 268-270 of [run_non_conserved_switcher]: the record appended
    to [ref_bulge_list] for a reference-side bulge at [gn]. *)
Definition resolve_reference_bulge (gn : string)
    (similarity_table_all : list (Structure * Z))
    : result (string * option Structure) :=
  let (bulge_template, self_template) :=
    bulge_in_reference gn similarity_table_all in
  _ ← bulge_template;
  match self_template with
  | SetTo t => Ok (gn, t)
  | Unset => Raise AttributeError
  end.
End CoordinateFiles.

(** ** Residue names ([GPCRDBParsingPDB.AA_trans], [extract_AA_from_pdb_line]) *)

(** The dictionary literal [code_table] of [AA_trans]. *)
Definition code_table : list (string * string) :=
  [ ("GLY", "G"); ("ALA", "A"); ("VAL", "V"); ("LEU", "L"); ("ILE", "I");
    ("MET", "M"); ("PHE", "F"); ("TRP", "W"); ("PRO", "P"); ("SER", "S");
    ("THR", "T"); ("CYS", "C"); ("TYR", "Y"); ("ASN", "N"); ("GLN", "Q");
    ("ASP", "D"); ("GLU", "E"); ("LYS", "K"); ("ARG", "R"); ("HIS", "H") ].

(** [s[1:]]. *)
Definition tail_from_1 (s : string) : string :=
  match s with
  | String _ s' => s'
  | EmptyString => EmptyString
  end.

(** [AA_trans(residue_name)]. The function takes no [self]: it is the
    function as the class holds it, applied to the name. *)
Definition AA_trans (residue_name : string) : string :=
  match ODict.get residue_name code_table with
  | Some code => code
  | None =>
      if (String.length residue_name =? 4)%nat then
        match ODict.get (tail_from_1 residue_name) code_table with
        | Some code => code
        | None => "?"
        end
      else "?"
  end.

(** The pattern of line 428. Its six groups: the record up to the white
    space after the atom name; the residue name [\S{3,4}]; the chain
    field; dashes and digits (the residue number); a run of
    [Re.coord_class]; one [\S]. *)
Definition aa_line_pattern : list Re.regex :=
  [ Re.Seq Re.atom_serial (Re.Seq (Re.plus Re.nonspace) (Re.Star Re.space));
    Re.resname34;
    Re.Seq (Re.plus Re.space) (Re.Seq Re.nonspace (Re.Star Re.space));
    Re.Seq (Re.Star Re.dash) (Re.plus Re.digit);
    Re.plus Re.coord_class;
    Re.nonspace ].

(** [extract_AA_from_pdb_line(pdb_line)]: [search] gives [None] on a line
    without match, and [None.group] raises [AttributeError]. *)
Definition extract_AA_from_pdb_line (pdb_line : string) : result string :=
  match Re.search aa_line_pattern pdb_line with
  | Some m => Ok (Re.group 2 m)
  | None => Raise AttributeError
  end.

(** ** Statistics ([CreateStatistics]) *)

(** A [CreateStatistics] object, with values of type [V] as information. *)
Record CreateStatistics (V : Type) : Type := Statistics {
  reference : string;
  info_dict : list (string * V)
}.
Arguments Statistics {V} reference info_dict.
Arguments reference {V} c.
Arguments info_dict {V} c.

(** [CreateStatistics(reference)]. *)
Definition new_statistics {V : Type} (reference : string) : CreateStatistics V :=
  Statistics reference [].

(** [self.add_info(info_name, info)]: the object after the call. *)
Definition add_info {V : Type} (self : CreateStatistics V) (info_name : string)
    (info : V) : CreateStatistics V :=
  Statistics (reference self) (ODict.set info_name info (info_dict self)).

(** ** Main template ([HomologyModeling.select_main_template]) *)

Section MainTemplate.
Context {Protein Structure : Type} `{EqDecision Structure}.

Variable similarity : Protein → Z.
Variable matches : Protein → list Structure.
(** [structure.pdb_code.index], [structure.preferred_chain] and the
    sequence of [Protein.objects.get(id=structure.protein.parent.id)]. *)
Variable pdb_code_index : Structure → string.
Variable preferred_chain : Structure → string.
Variable parent_sequence : Structure → string.

(** The attributes of [self] that [select_main_template] sets. *)
Record main_template : Type := MainTemplate {
  similarity_table : list (Structure * Z);
  main_pdb_id : string;
  main_template_sequence : string;
  main_template_preferred_chain : string;
  statistics : CreateStatistics string
}.

(** The chain kept for the main template: the first character of a
    preferred chain of more than one character, else the chain as it is. *)
Definition main_chain (chain : string) : result string :=
  if (1 <? String.length chain)%nat then
    match chain with
    | String c _ => Ok (String c EmptyString)
    | EmptyString => Raise IndexError
    end
  else Ok chain.

(** [select_main_template(alignment)], from the proteins of the pairwise
    alignment on; the argument [alignment] is not used by the code. It
    returns the main structure; the attributes set on [self] come with it. *)
Definition select_main_template (self_statistics : CreateStatistics string)
    (proteins : list Protein) : result (Structure * main_template) :=
  table ← create_ordered_similarity_table similarity matches proteins;
  match table with
  | [] => Raise IndexError
  | (main_structure, _) :: _ =>
      chain ← main_chain (preferred_chain main_structure);
      Ok (main_structure,
          MainTemplate table (pdb_code_index main_structure)
            (parent_sequence main_structure) chain
            (add_info
               (add_info self_statistics "main_template"
                  (pdb_code_index main_structure))
               "preferred_chain" chain))
  end.
End MainTemplate.

(** ** Bulges and constrictions ([HomologyModeling.run_non_conserved_switcher]) *)

(** [parse.gn_indecer(gn, 'x', direction)] on a dictionary key: for the
    key [None] the [split] inside [gn_num_extract] raises, the bare
    [except] gives the sentinel pair, and the result is the sentinel. *)
Definition key_indecer (gn : option string) (direction : Z) : result string :=
  match gn with
  | Some s => gn_indecer s "x" direction
  | None => Ok "/"
  end.

(** The key as a string when [len(str(gn_num))==3] holds for it, that is
    when its position parses and is written with three characters. *)
Definition bulge_position (gn : option string) : option string :=
  match gn with
  | Some s =>
      match gn_num_extract s "x" with
      | GnSplit _ gn_num =>
          if (String.length (PyStr.str gn_num) =? 3)%nat then Some s else None
      | GnSentinel => None
      end
  | None => None
  end.

(** [d[k]] on a mapping of the merged alignment. *)
Definition lookup (d : list (option string * string)) (k : option string)
    : result string :=
  match ODict.get k d with
  | Some v => Ok v
  | None => Raise KeyError
  end.

(** [v not in ['-','/']]. *)
Definition is_residue (v : string) : bool :=
  negb (bool_decide (v = "-") || bool_decide (v = "/")).

(** The condition of lines 251 and 263 on the mapping [d]:
    [d[own] == '-'], and the entries of [d] one step before and one step
    after [gn] both hold residues. The conjunction stops at its first
    false part, so a later lookup is not made. *)
Definition gap_between_residues (d : list (option string * string))
    (own gn : option string) : result bool :=
  v ← lookup d own;
  if bool_decide (v = "-") then
    before ← key_indecer gn (-1);
    v_before ← lookup d (Some before);
    if is_residue v_before then
      after ← key_indecer gn 1;
      v_after ← lookup d (Some after);
      Ok (is_residue v_after)
    else Ok false
  else Ok false.

(** The entry a constriction is recorded with: the two flanking generic
    numbers joined by a dash, and the two flanking residues joined by a
    dash. *)
Definition constriction_record (d : list (option string * string))
    (gn : option string) : result (string * string) :=
  before ← key_indecer gn (-1);
  after ← key_indecer gn 1;
  v_before ← lookup d (Some before);
  v_after ← lookup d (Some after);
  Ok (before +:+ "-" +:+ after, v_before +:+ "-" +:+ v_after).

Section Switcher.
Variable files : string → option (list string).
Context {Structure Protein : Type} `{EqDecision Protein}.
Variable parent_protein : Structure → Protein.
Variable residue_proteins : string → list Protein.
Variable structure_str : Structure → string.
Variable preferred_chain_str : Structure → string.

(** The four lists of [run_non_conserved_switcher]; each entry stands for
    a one-entry dictionary. *)
Record switch_lists : Type := SwitchLists {
  ref_bulge_list : list (string * option Structure);
  temp_bulge_list : list (string * string);
  ref_const_list : list (string * string);
  temp_const_list : list (string * string)
}.

Definition no_switches : switch_lists := SwitchLists [] [] [] [].

(** The body of the first loop, for one triple
    [(ref_res, temp_res, aligned_res)]. *)
Definition switcher_step (alignment_input : AlignedReferenceAndTemplate)
    (switch_bulges switch_constrictions : bool)
    (similarity_table_all : list (Structure * Z))
    (acc : result switch_lists)
    (item : option string * option string * ascii) : result switch_lists :=
  lists ← acc;
  let '(ref_res, temp_res, aligned_res) := item in
  let gn := ref_res in
  if Ascii.eqb aligned_res "-" then
    in_reference ← gap_between_residues
                     (aligned_reference_dict alignment_input) ref_res gn;
    if (in_reference : bool) then
      match bulge_position gn with
      | Some bulge =>
          if switch_bulges then
            v ← lookup (aligned_template_dict alignment_input) temp_res;
            Ok (SwitchLists (ref_bulge_list lists)
                  (temp_bulge_list lists ++ [(bulge, v)])
                  (ref_const_list lists) (temp_const_list lists))
          else Ok lists
      | None =>
          if switch_constrictions then
            entry ← constriction_record
                      (aligned_reference_dict alignment_input) gn;
            Ok (SwitchLists (ref_bulge_list lists) (temp_bulge_list lists)
                  (ref_const_list lists ++ [entry]) (temp_const_list lists))
          else Ok lists
      end
    else
      in_template ← gap_between_residues
                      (aligned_template_dict alignment_input) temp_res gn;
      if (in_template : bool) then
        match bulge_position gn with
        | Some bulge =>
            if switch_bulges then
              entry ← resolve_reference_bulge files parent_protein
                        residue_proteins structure_str preferred_chain_str
                        bulge similarity_table_all;
              Ok (SwitchLists (ref_bulge_list lists ++ [entry])
                    (temp_bulge_list lists) (ref_const_list lists)
                    (temp_const_list lists))
            else Ok lists
        | None =>
            if switch_constrictions then
              entry ← constriction_record
                        (aligned_template_dict alignment_input) gn;
              Ok (SwitchLists (ref_bulge_list lists) (temp_bulge_list lists)
                    (ref_const_list lists) (temp_const_list lists ++ [entry]))
            else Ok lists
        end
      else Ok lists
  else Ok lists.

(** The triples the loops run over: the keys of the two mappings and the
    characters of the classification string, as far as the shortest
    goes. *)
Definition switcher_items (alignment_input : AlignedReferenceAndTemplate)
    : list (option string * option string * ascii) :=
  zip (zip (ODict.keys (aligned_reference_dict alignment_input))
         (ODict.keys (aligned_template_dict alignment_input)))
    (list_ascii_of_string (aligned_string alignment_input)).

(** The second loop: [ref_length] and [non_cons_count]. *)
Definition count_step (acc : nat * nat)
    (item : option string * option string * ascii) : nat * nat :=
  let '(ref_res, _, aligned_res) := item in
  let ref_length :=
    if bool_decide (ref_res ≠ Some "-") && bool_decide (ref_res ≠ Some "/")
    then S acc.1 else acc.1 in
  (ref_length, if Ascii.eqb aligned_res "." then S acc.2 else acc.2).

(** [run_non_conserved_switcher(alignment_input, switch_bulges,
    switch_constrictions)]. The code returns nothing; what is given here
    are its local lists and counters when it ends. The similarity table
    over both states is passed as the outcome of the call that builds it,
    which is made only when a switch is on. *)
Definition run_non_conserved_switcher
    (alignment_input : AlignedReferenceAndTemplate)
    (switch_bulges switch_constrictions : bool)
    (similarity_table_all : result (list (Structure * Z)))
    : result (switch_lists * (nat * nat)) :=
  lists ← (if switch_bulges || switch_constrictions then
             table ← similarity_table_all;
             foldl (switcher_step alignment_input switch_bulges
                      switch_constrictions table)
               (Ok no_switches) (switcher_items alignment_input)
           else Ok no_switches);
  Ok (lists, foldl count_step (0%nat, 0%nat) (switcher_items alignment_input)).
End Switcher.

(** ** Vocabulary of the statements *)

(** Every character of [s] satisfies [P]. *)
Fixpoint all_chars (P : ascii → bool) (s : string) : bool :=
  match s with
  | EmptyString => true
  | String c s' => P c && all_chars P s'
  end.

(** The decimal digits of a natural number, none for zero. *)
Definition digits (x : N) : string := pretty_N_go x "".

(** The dictionary keys of all positions of an aligned residue list. *)
Definition position_keys (a : list (list position)) : list (option string) :=
  pos_gn <$> concat a.

(** A key of the form the boundary entries use. *)
Definition is_end_key (k : option string) : Prop := ∃ n : Z, k = end_key n.

(** An assigned position holds a one-character residue code. *)
Definition assigned_code_ok (p : position) : Prop :=
  pos_assigned p = true → String.length (pos_code p) = 1%nat.

(** An unassigned position holds the gap code or the too-short code. *)
Definition unassigned_code_ok (p : position) : Prop :=
  pos_assigned p = false → pos_code p = "-" ∨ pos_code p = "_".

(** What a position pair adds to the state [st], giving [st']: an entry
    [rv] under [rk] in the reference mapping, an entry [tv] under [tk] in
    the template mapping, and the characters [rv], [tv] and [m] at the end
    of the reference, template and classification strings. *)
Definition emits (st st' : merge_state) (rk : option string) (rv : string)
    (tk : option string) (tv m : string) : Prop :=
  ODict.get rk (reference_dict st') = Some rv
  ∧ ODict.get tk (template_dict st') = Some tv
  ∧ reference_string st' = reference_string st +:+ rv
  ∧ template_string st' = template_string st +:+ tv
  ∧ matching_string st' = matching_string st +:+ m.

(** The two mappings and the classification string have one length. *)
Definition lengths_agree (st : merge_state) : Prop :=
  length (reference_dict st) = length (template_dict st)
  ∧ length (template_dict st) = String.length (matching_string st).

(** The key a requested generic number is looked up and stored under. *)
Definition fetch_key (gn : string) : reskey := KStr (PyStr.replace "x" "." gn).

(** The texts a pattern construct matches. *)
Inductive re_matches : Re.regex → string → Prop :=
  | re_matches_eps : re_matches Re.Eps ""
  | re_matches_chr (p : ascii → bool) (c : ascii) :
      p c = true → re_matches (Re.Chr p) (String c "")
  | re_matches_seq (r1 r2 : Re.regex) (t1 t2 : string) :
      re_matches r1 t1 → re_matches r2 t2 →
      re_matches (Re.Seq r1 r2) (t1 +:+ t2)
  | re_matches_opt_none (r : Re.regex) : re_matches (Re.Opt r) ""
  | re_matches_opt_some (r : Re.regex) (t : string) :
      re_matches r t → re_matches (Re.Opt r) t
  | re_matches_star_nil (r : Re.regex) : re_matches (Re.Star r) ""
  | re_matches_star_cons (r : Re.regex) (t1 t2 : string) :
      re_matches r t1 → re_matches (Re.Star r) t2 →
      re_matches (Re.Star r) (t1 +:+ t2).

(** What the first loop keeps true of its state: every record held, in
    the current block or in a stored one, is a line that was read, under
    an atom name without white space. *)
Definition records_from (lines : list string) (block : atom_block) : Prop :=
  ∀ atom line, (atom, line) ∈ block →
    line ∈ lines ∧ atom ≠ ""
    ∧ all_chars (λ c, negb (PyStr.is_space c)) atom = true.

(** The number of records in the four lists of the switcher. *)
Definition records_total {Structure : Type}
    (lists : @switch_lists Structure) : nat :=
  (length (ref_bulge_list lists) + length (temp_bulge_list lists)
   + length (ref_const_list lists) + length (temp_const_list lists))%nat.

(** The number of gap characters of a classification string. *)
Fixpoint gap_count (s : string) : nat :=
  match s with
  | EmptyString => 0
  | String c s' => if Ascii.eqb c "-" then S (gap_count s') else gap_count s'
  end.

(** ** Sample inputs *)

(** Scores with ties: protein 0 is the reference, which the ranking
    skips. *)
Definition sample_similarity (p : nat) : Z :=
  match p with
  | 1%nat => 70 | 2%nat => 85 | 3%nat => 70 | 4%nat => 85 | _ => 100
  end.

Definition sample_matches (p : nat) : list string :=
  match p with
  | 1%nat => ["2RH1"] | 2%nat => ["4EIY"; "3EML"] | 3%nat => ["3PBL"]
  | 4%nat => ["1U19"] | _ => ["0000"]
  end.

(** A record line as [readlines] returns it, with its line feed. *)
Definition record (s : string) : string := s +:+ String "010" "".

(** Two residues of a coordinate file; the alpha-carbon records carry the
    generic numbers 1.50 and, negated, the bulge 1.50. *)
Definition sample_lines : list string :=
  [ record "ATOM      1  N   MET A   1      27.340  24.430   2.614  1.00  0.00           N";
    record "ATOM      2  CA  MET A   1      26.266  25.413   2.842  1.00  1.50           C";
    record "ATOM      3  C   MET A   1      26.913  26.639   3.531  1.00  0.00           C";
    record "ATOM      4  N   LEU A   2      26.335  27.770   3.258  1.00  0.00           N";
    record "ATOM      5  CA  LEU A   2      26.850  29.021   3.898  1.00 -1.50           C" ].

(** The same residues, the second without its alpha-carbon record. *)
Definition sample_lines_no_ca : list string :=
  [ record "ATOM      1  N   MET A   1      27.340  24.430   2.614  1.00  0.00           N";
    record "ATOM      2  CA  MET A   1      26.266  25.413   2.842  1.00  1.50           C";
    record "ATOM      3  C   MET A   1      26.913  26.639   3.531  1.00  0.00           C";
    record "ATOM      4  N   LEU A   2      26.335  27.770   3.258  1.00  0.00           N";
    record "ATOM      6  C   LEU A   2      28.306  28.835   4.293  1.00  0.00           C" ].

(** The same residues, the second with an alpha-carbon record that holds
    no generic-number fragment. *)
Definition sample_lines_plain_ca : list string :=
  [ record "ATOM      1  N   MET A   1      27.340  24.430   2.614  1.00  0.00           N";
    record "ATOM      2  CA  MET A   1      26.266  25.413   2.842  1.00  1.50           C";
    record "ATOM      4  N   LEU A   2      26.335  27.770   3.258  1.00  0.00           N";
    record "ATOM      5  CA  LEU A   2      26.850  29.021   3.898" ].

(** A store with one coordinate file, of structure 4EIY and chain A. *)
Definition sample_files (filename : string) : option (list string) :=
  if bool_decide (filename = "./structure/PDB/4EIY_A_GPCRDB.pdb")
  then Some sample_lines else None.

(** Two candidate structures; only the second has a coordinate file with
    the window around the bulge 1x501. *)
Definition sample_table : list (string * Z) := [("2RH1", 85); ("4EIY", 70)].

Definition sample_window_lines : list string :=
  [ record "ATOM      1  CA  MET A   1      27.340  24.430   2.614  1.00  1.48           C";
    record "ATOM      2  CA  LEU A   2      26.266  25.413   2.842  1.00  1.49           C";
    record "ATOM      3  CA  ALA A   3      26.913  26.639   3.531  1.00  1.50           C";
    record "ATOM      4  CA  GLY A   4      26.335  27.770   3.258  1.00 -1.50           C";
    record "ATOM      5  CA  SER A   5      26.850  29.021   3.898  1.00  1.51           C";
    record "ATOM      6  CA  VAL A   6      28.306  28.835   4.293  1.00  1.52           C" ].

Definition sample_window_files (filename : string) : option (list string) :=
  if bool_decide (filename = "./structure/PDB/4EIY_A_GPCRDB.pdb")
  then Some sample_window_lines
  else if bool_decide (filename = "./structure/PDB/2RH1_A_GPCRDB.pdb")
  then Some sample_lines
  else None.

(** Every candidate's parent protein has a residue labelled with the
    bulge. *)
Definition sample_parent (structure : string) : string := structure.
Definition sample_residue_proteins (gn : string) : list string :=
  ["2RH1"; "4EIY"].
Definition sample_chain (structure : string) : string := "A".

(** A store in which every name gives the file whose second residue
    has no alpha-carbon record. *)
Definition sample_files_no_ca (filename : string) : option (list string) :=
  Some sample_lines_no_ca.

(** A merged alignment whose template has a gap in the first column of
    the segment, and one whose template has a gap in the second of three
    columns. *)
Definition sample_edge_gap : AlignedReferenceAndTemplate :=
  (run_main_alignment "gp139_human" "4EIY"
     [[Position (Some "1x30") true "A"; Position (Some "1x31") true "L"]]
     [[Position (Some "1x30") false "-"; Position (Some "1x31") true "L"]]).1.

Definition sample_inner_gap : AlignedReferenceAndTemplate :=
  (run_main_alignment "gp139_human" "4EIY"
     [[Position (Some "1x30") true "A"; Position (Some "1x31") true "L";
       Position (Some "1x32") true "V"]]
     [[Position (Some "1x30") true "A"; Position (Some "1x31") false "-";
       Position (Some "1x32") true "I"]]).1.

(** A merged alignment whose reference has a residue at the bulge 1x501
    that the template lacks. *)
Definition sample_reference_bulge : AlignedReferenceAndTemplate :=
  (run_main_alignment "gp139_human" "4EIY"
     [[Position (Some "1x50") true "A"; Position (Some "1x501") true "G";
       Position (Some "1x51") true "V"]]
     [[Position (Some "1x50") true "A"; Position (Some "1x501") false "-";
       Position (Some "1x51") true "I"]]).1.

(** A merged alignment without gap. *)
Definition sample_no_gap : AlignedReferenceAndTemplate :=
  (run_main_alignment "gp139_human" "4EIY"
     [[Position (Some "1x30") true "A"; Position (Some "1x31") true "L"]]
     [[Position (Some "1x30") true "A"; Position (Some "1x31") true "V"]]).1.

(** A merged alignment whose template has a residue at the bulge 1x501
    that the reference lacks. *)
Definition sample_template_bulge : AlignedReferenceAndTemplate :=
  (run_main_alignment "gp139_human" "4EIY"
     [[Position (Some "1x50") true "A"; Position (Some "1x501") false "-";
       Position (Some "1x51") true "V"]]
     [[Position (Some "1x50") true "A"; Position (Some "1x501") true "G";
       Position (Some "1x51") true "I"]]).1.

(** Two residues as the first loop stores them, the second with an
    alpha-carbon record that holds no generic-number fragment. *)
Definition sample_plain_ca_array : list (Z * atom_block) :=
  [(1, [("N", "ATOM      1  N   MET A   1      27.340  24.430   2.614  1.00  0.00           N");
        ("CA", "ATOM      2  CA  MET A   1      26.266  25.413   2.842  1.00  1.50           C")]);
   (2, [("N", "ATOM      4  N   LEU A   2      26.335  27.770   3.258  1.00  0.00           N");
        ("CA", "ATOM      5  CA  LEU A   2      26.850  29.021   3.898")])].


(** * Properties *)

(** ** Strings and decimal numerals *)

Lemma str_app_cons (c : ascii) (s1 s2 : string) :
  String c s1 +:+ s2 = String c (s1 +:+ s2).
Proof. reflexivity. Qed.

Lemma str_app_nil_l (s : string) : "" +:+ s = s.
Proof. reflexivity. Qed.

Lemma str_app_nil_r (s : string) : s +:+ "" = s.
Proof.
  induction s as [|c s IH]; [done|]. by rewrite str_app_cons, IH.
Qed.

Lemma str_app_assoc (s1 s2 s3 : string) :
  (s1 +:+ s2) +:+ s3 = s1 +:+ s2 +:+ s3.
Proof.
  induction s1 as [|c s1 IH]; [done|]. by rewrite !str_app_cons, IH.
Qed.

Lemma str_length_app (s1 s2 : string) :
  String.length (s1 +:+ s2) = (String.length s1 + String.length s2)%nat.
Proof.
  induction s1 as [|c s1 IH]; [done|].
  rewrite str_app_cons. simpl. by rewrite IH.
Qed.

Lemma all_chars_app (P : ascii → bool) (s1 s2 : string) :
  all_chars P (s1 +:+ s2) = all_chars P s1 && all_chars P s2.
Proof.
  induction s1 as [|c s1 IH]; [done|].
  rewrite str_app_cons. simpl. by rewrite IH, andb_assoc.
Qed.

Lemma all_chars_impl (P Q : ascii → bool) (s : string) :
  (∀ c, P c = true → Q c = true) →
  all_chars P s = true → all_chars Q s = true.
Proof.
  intros HPQ. induction s as [|c s IH]; simpl; [done|].
  rewrite !andb_true_iff. intros [? ?]. auto.
Qed.

Lemma pretty_N_go_digits (x : N) (s : string) :
  pretty_N_go x s = digits x +:+ s.
Proof.
  revert s. induction (N.lt_wf_0 x) as [x _ IH]; intros s.
  destruct (decide (x = 0)%N) as [->|Hx].
  { by rewrite pretty_N_go_0. }
  assert (0 < x)%N as Hpos by lia.
  unfold digits. rewrite !(pretty_N_go_step x) by done.
  assert (x `div` 10 < x)%N as Hlt by (apply N.div_lt; lia).
  rewrite (IH _ Hlt (String _ s)), (IH _ Hlt (String _ "")).
  by rewrite str_app_assoc.
Qed.

Lemma digits_0 : digits 0 = "".
Proof. done. Qed.

Lemma digits_snoc (x : N) :
  (0 < x)%N →
  digits x = digits (x `div` 10) +:+ String (pretty_N_char (x `mod` 10)) "".
Proof.
  intros Hx. unfold digits at 1.
  by rewrite pretty_N_go_step, pretty_N_go_digits.
Qed.

Lemma is_digit_pretty_N_char (d : N) : PyStr.is_digit (pretty_N_char d) = true.
Proof. unfold pretty_N_char. by repeat case_match. Qed.

Lemma digit_val_pretty_N_char (d : N) :
  (d < 10)%N → PyStr.digit_val (pretty_N_char d) = Some (Z.of_N d).
Proof.
  intros Hd.
  assert (d = 0 ∨ d = 1 ∨ d = 2 ∨ d = 3 ∨ d = 4 ∨ d = 5 ∨ d = 6 ∨ d = 7
          ∨ d = 8 ∨ d = 9)%N as Hcases by lia.
  repeat (destruct Hcases as [->|Hcases]; [done|]). by subst.
Qed.

Lemma digits_all_digit (x : N) : all_chars PyStr.is_digit (digits x) = true.
Proof.
  induction (N.lt_wf_0 x) as [x _ IH].
  destruct (decide (x = 0)%N) as [->|Hx]; [done|].
  rewrite digits_snoc by lia. rewrite all_chars_app, IH by (apply N.div_lt; lia).
  simpl. by rewrite is_digit_pretty_N_char.
Qed.

Lemma digits_length_lower (k : nat) (x : N) :
  (10 ^ N.of_nat k ≤ x)%N → (k < String.length (digits x))%nat.
Proof.
  revert x. induction k as [|k IH]; intros x Hx.
  - rewrite digits_snoc by (simpl in Hx; lia). rewrite str_length_app. simpl. lia.
  - rewrite Nat2N.inj_succ, N.pow_succ_r' in Hx.
    assert (0 < 10 ^ N.of_nat k)%N by (apply N.neq_0_lt_0, N.pow_nonzero; lia).
    rewrite digits_snoc by lia. rewrite str_length_app. simpl.
    assert (k < String.length (digits (x `div` 10)))%nat; [|lia].
    apply IH, N.div_le_lower_bound; lia.
Qed.

Lemma digits_length_upper (k : nat) (x : N) :
  (x < 10 ^ N.of_nat k)%N → (String.length (digits x) ≤ k)%nat.
Proof.
  revert x. induction k as [|k IH]; intros x Hx.
  - simpl in Hx. assert (x = 0)%N as -> by lia. done.
  - destruct (decide (x = 0)%N) as [->|Hx0]; [simpl; lia|].
    rewrite Nat2N.inj_succ, N.pow_succ_r' in Hx.
    rewrite digits_snoc by lia. rewrite str_length_app. simpl.
    assert (String.length (digits (x `div` 10)) ≤ k)%nat; [|lia].
    apply IH, N.Div0.div_lt_upper_bound; lia.
Qed.

Lemma digits_length (k : nat) (x : N) :
  (10 ^ N.of_nat k ≤ x < 10 ^ N.of_nat (S k))%N →
  String.length (digits x) = S k.
Proof.
  intros [Hlo Hhi]. apply digits_length_lower in Hlo.
  apply digits_length_upper in Hhi. lia.
Qed.

Lemma str_0 : PyStr.str 0 = "0".
Proof. done. Qed.

Lemma str_pos (z : Z) : 0 < z → PyStr.str z = digits (Z.to_N z).
Proof. destruct z as [|p|p]; try lia. intros _. done. Qed.

Lemma str_neg (z : Z) :
  z < 0 → PyStr.str z = String "-" (digits (Z.to_N (- z))).
Proof. destruct z as [|p|p]; try lia. intros _. done. Qed.

Lemma lstrip_no_space (s : string) :
  all_chars (λ c, negb (PyStr.is_space c)) s = true → PyStr.lstrip s = s.
Proof.
  destruct s as [|c s]; simpl; [done|].
  rewrite andb_true_iff, negb_true_iff. by intros [-> _].
Qed.

Lemma rstrip_no_space (s : string) :
  all_chars (λ c, negb (PyStr.is_space c)) s = true → PyStr.rstrip s = s.
Proof.
  induction s as [|c s IH]; simpl; [done|].
  rewrite andb_true_iff, negb_true_iff. intros [Hc Hs].
  rewrite (IH Hs), Hc. by destruct s.
Qed.

Lemma is_digit_not_space (c : ascii) :
  PyStr.is_digit c = true → negb (PyStr.is_space c) = true.
Proof.
  unfold PyStr.is_digit, PyStr.is_space. cbv zeta.
  generalize (nat_of_ascii c). intros n.
  rewrite andb_true_iff, negb_true_iff, orb_false_iff, !andb_false_iff,
    !Nat.leb_le, !Nat.leb_gt. lia.
Qed.

Lemma int_digits_digits (x : N) (acc : Z) (s : string) :
  PyStr.int_digits acc (digits x +:+ s)
  = PyStr.int_digits
      (acc * 10 ^ Z.of_nat (String.length (digits x)) + Z.of_N x) s.
Proof.
  revert acc s. induction (N.lt_wf_0 x) as [x _ IH]; intros acc s.
  destruct (decide (x = 0)%N) as [->|Hx].
  { rewrite digits_0. simpl. f_equal. lia. }
  rewrite digits_snoc by lia.
  rewrite str_app_assoc, str_app_cons, str_app_nil_l.
  rewrite IH by (apply N.div_lt; lia).
  cbn [PyStr.int_digits].
  rewrite digit_val_pretty_N_char by (apply N.mod_lt; lia).
  f_equal. rewrite str_length_app. cbn [String.length].
  rewrite Nat2Z.inj_add, Z.pow_add_r by lia.
  pose proof (N.div_mod x 10 ltac:(lia)) as Hdm.
  change (10 ^ Z.of_nat 1) with 10. lia.
Qed.

Lemma int_unsigned_digits (x : N) :
  (0 < x)%N → PyStr.int_unsigned (digits x) = Some (Z.of_N x).
Proof.
  intros Hx.
  pose proof (digits_all_digit x) as Hall.
  pose proof (int_digits_digits x 0 "") as Hval.
  rewrite str_app_nil_r in Hval.
  pose proof (digits_length_lower 0 x ltac:(simpl; lia)) as Hlen.
  destruct (digits x) as [|c t] eqn:Hd; [simpl in Hlen; lia|].
  simpl in Hall. apply andb_true_iff in Hall as [Hc _].
  unfold PyStr.int_unsigned. cbn [PyStr.int_digits] in Hval.
  unfold PyStr.digit_val in *. rewrite Hc in *.
  rewrite Z.mul_0_l, Z.add_0_l in Hval. rewrite Hval. simpl. reflexivity.
Qed.

(** [int] reads back what [str] writes. *)
Lemma int_str (z : Z) : PyStr.int (PyStr.str z) = Some z.
Proof.
  destruct (Z.lt_trichotomy z 0) as [Hz|[->|Hz]]; [| done |].
  - rewrite str_neg by done. unfold PyStr.int.
    assert (all_chars (λ c, negb (PyStr.is_space c))
              (String "-" (digits (Z.to_N (- z)))) = true) as Hns.
    { simpl. eapply all_chars_impl; [apply is_digit_not_space|].
      apply digits_all_digit. }
    rewrite (lstrip_no_space _ Hns), (rstrip_no_space _ Hns).
    change (Ascii.eqb "-" "-") with true. cbv iota.
    rewrite int_unsigned_digits by lia. simpl. f_equal. lia.
  - rewrite str_pos by done. unfold PyStr.int.
    pose proof (digits_all_digit (Z.to_N z)) as Hall.
    assert (all_chars (λ c, negb (PyStr.is_space c)) (digits (Z.to_N z)) = true)
      as Hns by (eapply all_chars_impl; [apply is_digit_not_space|done]).
    rewrite (lstrip_no_space _ Hns), (rstrip_no_space _ Hns).
    pose proof (int_unsigned_digits (Z.to_N z) ltac:(lia)) as Hint.
    destruct (digits (Z.to_N z)) as [|c t] eqn:Hd; [done|].
    simpl in Hall. apply andb_true_iff in Hall as [Hc _].
    assert (Ascii.eqb c "-" = false) as ->.
    { apply Ascii.eqb_neq. intros ->. done. }
    assert (Ascii.eqb c "+" = false) as ->.
    { apply Ascii.eqb_neq. intros ->. done. }
    rewrite Hint. f_equal. lia.
Qed.

(** The characters of [str z] are digits and, for a negative [z], a
    leading minus sign. *)
Lemma str_chars (z : Z) :
  all_chars (λ c, PyStr.is_digit c || Ascii.eqb c "-") (PyStr.str z) = true.
Proof.
  assert (∀ x, all_chars (λ c, PyStr.is_digit c || Ascii.eqb c "-") (digits x)
               = true) as Hd.
  { intros x. eapply all_chars_impl; [|apply digits_all_digit].
    intros c ->. done. }
  destruct (Z.lt_trichotomy z 0) as [Hz|[->|Hz]]; [| done |].
  - rewrite str_neg by done. simpl. apply Hd.
  - rewrite str_pos by done. apply Hd.
Qed.

(** ** Splitting a written-out generic number *)

Lemma is_prefix_app (d s : string) : PyStr.is_prefix d (d +:+ s) = true.
Proof.
  induction d as [|c d IH]; [done|].
  rewrite str_app_cons. simpl. by rewrite Ascii.eqb_refl, IH.
Qed.

Lemma split_go_skip (sep t cur s : string) :
  PyStr.split_go sep (String.length t) cur (t +:+ s)
  = PyStr.split_go sep 0 cur s.
Proof.
  induction t as [|c t IH]; [done|]. rewrite str_app_cons. simpl. apply IH.
Qed.

(** A field none of whose characters starts the separator is read to its
    end. *)
Lemma split_go_field (c0 : ascii) (sep' fld cur s : string) :
  all_chars (λ c, negb (Ascii.eqb c0 c)) fld = true →
  PyStr.split_go (String c0 sep') 0 cur (fld +:+ s)
  = PyStr.split_go (String c0 sep') 0 (cur +:+ fld) s.
Proof.
  revert cur. induction fld as [|c fld IH]; intros cur Hfld.
  { by rewrite str_app_nil_l, str_app_nil_r. }
  simpl in Hfld. apply andb_true_iff in Hfld as [Hc Hfld].
  rewrite str_app_cons. cbn [PyStr.split_go PyStr.is_prefix].
  apply negb_true_iff in Hc. rewrite Hc. cbn [andb].
  rewrite IH by done. by rewrite str_app_assoc.
Qed.

(** A separator at the head of the input closes the current field. *)
Lemma split_go_separator (c0 : ascii) (sep' cur s : string) :
  PyStr.split_go (String c0 sep') 0 cur (String c0 sep' +:+ s)
  = cur :: PyStr.split_go (String c0 sep') 0 "" s.
Proof.
  assert (PyStr.is_prefix (String c0 sep') (String c0 (sep' +:+ s)) = true)
    as Hpre by apply (is_prefix_app (String c0 sep') s).
  rewrite str_app_cons. cbn [PyStr.split_go]. rewrite Hpre.
  cbn [String.length]. rewrite Nat.sub_succ, Nat.sub_0_r.
  by rewrite split_go_skip.
Qed.

Lemma split_two_fields (c0 : ascii) (sep' f0 f1 : string) :
  all_chars (λ c, negb (Ascii.eqb c0 c)) f0 = true →
  all_chars (λ c, negb (Ascii.eqb c0 c)) f1 = true →
  PyStr.split (f0 +:+ String c0 sep' +:+ f1) (String c0 sep') = Ok [f0; f1].
Proof.
  intros H0 H1. unfold PyStr.split. f_equal.
  rewrite split_go_field, str_app_nil_l by done.
  rewrite split_go_separator. f_equal.
  rewrite <-(str_app_nil_r f1), split_go_field by done.
  by rewrite str_app_nil_l, str_app_nil_r.
Qed.

Lemma str_no_delimiter (c0 : ascii) (z : Z) :
  negb (PyStr.is_digit c0) && negb (Ascii.eqb c0 "-") = true →
  all_chars (λ c, negb (Ascii.eqb c0 c)) (PyStr.str z) = true.
Proof.
  rewrite andb_true_iff, !negb_true_iff. intros [Hd Hm].
  eapply all_chars_impl; [|apply str_chars].
  intros c Hc. apply negb_true_iff, Ascii.eqb_neq. intros <-.
  rewrite Hd, Hm in Hc. done.
Qed.

(** [gn_num_extract] reads a written-out generic number back. *)
Lemma gn_num_extract_gn_of (tm num : Z) (d : string) :
  plain_delimiter d = true →
  gn_num_extract (gn_of tm d num) d = GnSplit tm num.
Proof.
  intros Hd. destruct d as [|c0 d']; [done|]. simpl in Hd.
  unfold gn_num_extract, gn_of.
  rewrite split_two_fields by (by apply str_no_delimiter).
  by rewrite !int_str.
Qed.

(** ** Generic-number arithmetic *)

(** Traces of the two functions on generic numbers and on the sentinel. *)
Example gn_indecer_canonical_forward : gn_indecer "1x50" "x" 1 = Ok "1x51".
Proof. vm_compute. reflexivity. Qed.

Example gn_indecer_bulge_backward : gn_indecer "34x501" "x" (-1) = Ok "34x50".
Proof. vm_compute. reflexivity. Qed.

Example gn_indecer_bulge_forward : gn_indecer "34x501" "x" 1 = Ok "34x51".
Proof. vm_compute. reflexivity. Qed.

Example gn_indecer_bulge_two_backward :
  gn_indecer "34x501" "x" (-2) = Ok "34x49".
Proof. vm_compute. reflexivity. Qed.

Example gn_indecer_boundary_marker : gn_indecer "/" "x" 1 = Ok "/".
Proof. vm_compute. reflexivity. Qed.

Example gn_indecer_one_digit : gn_indecer "1x5" "x" 1 = Ok "/".
Proof. vm_compute. reflexivity. Qed.

Example gn_num_extract_leading_zero : gn_num_extract "01x050" "x" = GnSplit 1 50.
Proof. vm_compute. reflexivity. Qed.

Example split_long_separator : PyStr.split "1xx2x" "xx" = Ok ["1"; "2x"].
Proof. vm_compute. reflexivity. Qed.

Example split_outer_separators : PyStr.split "x1x" "x" = Ok [""; "1"; ""].
Proof. vm_compute. reflexivity. Qed.

Example int_space_underscore : PyStr.int " 1_0 " = Some 10.
Proof. vm_compute. reflexivity. Qed.

Example int_double_underscore : PyStr.int "1__0" = None.
Proof. vm_compute. reflexivity. Qed.

Lemma str_length_digits (k : nat) (z : Z) :
  10 ^ Z.of_nat k ≤ z < 10 ^ Z.of_nat (S k) →
  String.length (PyStr.str z) = S k.
Proof.
  intros [Hlo Hhi].
  assert (0 < 10 ^ Z.of_nat k) by (apply Z.pow_pos_nonneg; lia).
  rewrite str_pos by lia. apply digits_length.
  rewrite <-(Z2N.id z) in Hlo, Hhi by lia.
  change 10 with (Z.of_N 10) in Hlo, Hhi.
  rewrite <-!nat_N_Z, <-!N2Z.inj_pow in Hlo, Hhi. lia.
Qed.

Lemma str_length_1 (z : Z) : 0 ≤ z < 10 → String.length (PyStr.str z) = 1%nat.
Proof.
  intros Hz. destruct (decide (z = 0)) as [->|]; [done|].
  apply (str_length_digits 0). simpl. lia.
Qed.

Lemma str_length_2 (z : Z) : 10 ≤ z ≤ 99 → String.length (PyStr.str z) = 2%nat.
Proof. intros Hz. apply (str_length_digits 1). simpl. lia. Qed.

Lemma str_length_3 (z : Z) :
  100 ≤ z ≤ 999 → String.length (PyStr.str z) = 3%nat.
Proof. intros Hz. apply (str_length_digits 2). simpl. lia. Qed.

Lemma str_length_ge_4 (z : Z) :
  1000 ≤ z ∨ z ≤ -1000 → (4 ≤ String.length (PyStr.str z))%nat.
Proof.
  intros [Hz|Hz].
  - rewrite str_pos by lia.
    pose proof (digits_length_lower 3 (Z.to_N z)) as Hlen.
    simpl in Hlen. lia.
  - rewrite str_neg by lia.
    pose proof (digits_length_lower 3 (Z.to_N (- z))) as Hlen.
    simpl in Hlen. simpl. lia.
Qed.

Lemma take_app_length (s1 s2 : string) :
  PyStr.take (String.length s1) (s1 +:+ s2) = s1.
Proof.
  unfold PyStr.take. induction s1 as [|c s1 IH].
  - simpl. by destruct s2.
  - rewrite str_app_cons. simpl. by rewrite IH.
Qed.

(** The first two digits of a three-digit position are its tens. *)
Lemma take_2_str (z : Z) :
  100 ≤ z ≤ 999 → PyStr.take 2 (PyStr.str z) = PyStr.str (z `div` 10).
Proof.
  intros Hz.
  assert (10 ≤ z `div` 10 ≤ 99) as Hq.
  { split; [apply Z.div_le_lower_bound; lia|].
    assert (z `div` 10 < 100); [apply Z.div_lt_upper_bound|]; lia. }
  pose proof (str_length_2 _ Hq) as Hlen.
  rewrite !str_pos in * by lia.
  rewrite (digits_snoc (Z.to_N z)) by lia.
  replace (Z.to_N z `div` 10)%N with (Z.to_N (z `div` 10))
    by (rewrite Z2N.inj_div by lia; done).
  rewrite <-Hlen at 1. apply take_app_length.
Qed.

Lemma gn_indecer_2digit (tm num dir : Z) (d : string) :
  plain_delimiter d = true → 10 ≤ num ≤ 99 →
  gn_indecer (gn_of tm d num) d dir = Ok (gn_of tm d (num + dir)).
Proof.
  intros Hd Hnum. unfold gn_indecer.
  rewrite gn_num_extract_gn_of by done.
  by rewrite str_length_2 by done.
Qed.

Lemma str_length_neg (z : Z) :
  z < 0 → String.length (PyStr.str z) = S (String.length (PyStr.str (- z))).
Proof. intros Hz. by rewrite str_neg, (str_pos (- z)) by lia. Qed.

(** A position written with three characters is a number from 100 to 999
    or a negative number from -99 to -10. *)
Lemma str_length_3_inv (z : Z) :
  String.length (PyStr.str z) = 3%nat → 100 ≤ z ≤ 999 ∨ -99 ≤ z ≤ -10.
Proof.
  intros Hlen.
  destruct (decide (1000 ≤ z ∨ z ≤ -1000)) as [Hbig|Hsmall].
  { apply str_length_ge_4 in Hbig. lia. }
  destruct (decide (0 ≤ z < 10)) as [H1|?].
  { apply str_length_1 in H1. lia. }
  destruct (decide (10 ≤ z ≤ 99)) as [H2|?].
  { apply str_length_2 in H2. lia. }
  destruct (decide (-9 ≤ z ≤ -1)) as [H1|?].
  { rewrite str_length_neg, str_length_1 in Hlen by lia. lia. }
  destruct (decide (-999 ≤ z ≤ -100)) as [H3|?].
  { rewrite str_length_neg, str_length_3 in Hlen by lia. lia. }
  lia.
Qed.

Lemma take_2_str_neg (z : Z) :
  -99 ≤ z ≤ -10 → PyStr.take 2 (PyStr.str z) = PyStr.str (- ((- z) `div` 10)).
Proof.
  intros Hz.
  assert (1 ≤ (- z) `div` 10 ≤ 9) as Hq.
  { split; [apply Z.div_le_lower_bound; lia|].
    assert ((- z) `div` 10 < 10); [apply Z.div_lt_upper_bound|]; lia. }
  pose proof (str_length_1 ((- z) `div` 10) ltac:(lia)) as Hlen.
  rewrite (str_neg z), (str_neg (- _)), Z.opp_involutive by lia.
  rewrite str_pos in Hlen by lia.
  rewrite (digits_snoc (Z.to_N (- z))) by lia.
  replace (Z.to_N (- z) `div` 10)%N with (Z.to_N ((- z) `div` 10))
    by (rewrite Z2N.inj_div by lia; done).
  change (PyStr.take 2 (String "-" ?s)) with (String "-" (PyStr.take 1 s)).
  f_equal. rewrite <-Hlen at 1. apply take_app_length.
Qed.

(** [gn_indecer] raises on no input: the two characters it hands to [int]
    always form a number. *)
Lemma gn_indecer_returns (gn d : string) (dir : Z) :
  ∃ s, gn_indecer gn d dir = Ok s.
Proof.
  unfold gn_indecer. destruct (gn_num_extract gn d) as [tm num|]; [|eauto].
  destruct (Nat.eqb_spec (String.length (PyStr.str num)) 2); [eauto|].
  destruct (Nat.eqb_spec (String.length (PyStr.str num)) 3) as [Hlen|];
    [|eauto].
  destruct (str_length_3_inv _ Hlen) as [Hnum|Hnum].
  - rewrite take_2_str, int_str by done. eauto.
  - rewrite take_2_str_neg, int_str by done. eauto.
Qed.

(** On the segment-boundary marker both functions give the sentinel. *)
Lemma gn_indecer_sentinel (d : string) (dir : Z) :
  gn_num_extract "/" d = GnSentinel ∧ gn_indecer "/" d dir = Ok "/".
Proof.
  assert (gn_num_extract "/" d = GnSentinel) as Hs.
  { unfold gn_num_extract, PyStr.split. destruct d as [|c d]; [done|].
    cbn [PyStr.split_go].
    by destruct (PyStr.is_prefix (String c d) "/"). }
  split; [done|]. unfold gn_indecer. by rewrite Hs.
Qed.

(** C5, as amended. For a generic number written with a delimiter that
    starts with neither a digit nor a minus sign, and with a position
    between 10 and 98, stepping forward by one with [gn_indecer] and then
    backward by one with the same delimiter gives the generic number
    back. *)
Theorem gn_indecer_forth_back (tm num : Z) (d : string) :
  plain_delimiter d = true → 10 ≤ num ≤ 98 →
  (g ← gn_indecer (gn_of tm d num) d 1; gn_indecer g d (-1))
  = Ok (gn_of tm d num).
Proof.
  intros Hd Hnum.
  rewrite gn_indecer_2digit by (done || lia). simpl.
  rewrite gn_indecer_2digit by (done || lia).
  do 2 f_equal. lia.
Qed.

Lemma gn_indecer_forth_back_witness :
  (g ← gn_indecer (gn_of 3 "x" 50) "x" 1; gn_indecer g "x" (-1))
  = Ok (gn_of 3 "x" 50).
Proof. apply (gn_indecer_forth_back 3 50 "x"); [reflexivity|lia]. Defined.

(** C5 as stated fails at position 99: one step forward gives the
    three-digit position 100, and one step back from it gives position 10. *)
Lemma gn_indecer_forth_back_99 :
  gn_num_extract "1x99" "x" = GnSplit 1 99
  ∧ gn_indecer "1x99" "x" 1 = Ok "1x100"
  ∧ (g ← gn_indecer "1x99" "x" 1; gn_indecer g "x" (-1)) = Ok "1x10"
  ∧ (g ← gn_indecer "1x99" "x" 1; gn_indecer g "x" (-1)) ≠ Ok "1x99".
Proof. split_and!; [by vm_compute..|]. vm_compute. discriminate. Qed.

(** With a delimiter other than the one the generic number is written
    with, both steps give the sentinel. *)
Example gn_indecer_other_delimiter :
  (g ← gn_indecer "1x50" "." 1; gn_indecer g "." (-1)) = Ok "/".
Proof. vm_compute. reflexivity. Qed.

(** C6. For a three-digit position, one step backward with [gn_indecer]
    gives the generic number of the same segment whose position is made of
    the first two digits. *)
Theorem gn_indecer_bulge_back (tm num : Z) (d : string) :
  plain_delimiter d = true → 100 ≤ num ≤ 999 →
  PyStr.take 2 (PyStr.str num) = PyStr.str (num `div` 10)
  ∧ gn_indecer (gn_of tm d num) d (-1) = Ok (gn_of tm d (num `div` 10)).
Proof.
  intros Hd Hnum. split; [by apply take_2_str|].
  unfold gn_indecer. rewrite gn_num_extract_gn_of by done.
  rewrite str_length_3 by done. simpl.
  rewrite take_2_str, int_str by done.
  by rewrite Z.add_0_r.
Qed.

Lemma gn_indecer_bulge_back_witness :
  PyStr.take 2 (PyStr.str 501) = PyStr.str (501 `div` 10)
  ∧ gn_indecer (gn_of 34 "x" 501) "x" (-1) = Ok (gn_of 34 "x" (501 `div` 10)).
Proof. apply (gn_indecer_bulge_back 34 501 "x"); [reflexivity|lia]. Defined.

(** C10, as amended. When segment and position parse as integers and the
    position is a one-digit number that is not negative, or has four or
    more digits, [gn_indecer] returns the sentinel for every direction. *)
Theorem gn_indecer_other_lengths (gn d : string) (tm num dir : Z) :
  gn_num_extract gn d = GnSplit tm num →
  0 ≤ num < 10 ∨ 1000 ≤ num ∨ num ≤ -1000 →
  gn_indecer gn d dir = Ok "/".
Proof.
  intros Hsplit Hnum. unfold gn_indecer. rewrite Hsplit.
  assert (String.length (PyStr.str num) = 1%nat
          ∨ (4 ≤ String.length (PyStr.str num))%nat) as Hlen.
  { destruct Hnum as [?|?]; [left; by apply str_length_1|].
    right. by apply str_length_ge_4. }
  destruct (Nat.eqb_spec (String.length (PyStr.str num)) 2); [lia|].
  destruct (Nat.eqb_spec (String.length (PyStr.str num)) 3); [lia|].
  done.
Qed.

Lemma gn_indecer_other_lengths_witness :
  gn_num_extract "1x5" "x" = GnSplit 1 5 ∧ gn_indecer "1x5" "x" 1 = Ok "/".
Proof.
  split; [reflexivity|].
  apply (gn_indecer_other_lengths "1x5" "x" 1 5 1); [reflexivity|lia].
Defined.

(** C10 as stated fails for a one-digit negative position: the sign counts
    in the length the code tests, and the position is stepped. *)
Lemma gn_indecer_negative_digit :
  gn_num_extract "1x-5" "x" = GnSplit 1 (-5)
  ∧ gn_indecer "1x-5" "x" 1 = Ok "1x-4"
  ∧ gn_indecer "1x-5" "x" 1 ≠ Ok "/".
Proof. split_and!; [by vm_compute..|]. vm_compute. discriminate. Qed.

(** ** Ordered dictionaries *)

Section odict_facts.
Context {K V : Type} `{EqDecision K}.
Implicit Types (k : K) (v : V) (d : list (K * V)).

Lemma odict_keys_set k v d k' :
  k' ∈ ODict.keys (ODict.set k v d) ↔ k' = k ∨ k' ∈ ODict.keys d.
Proof.
  unfold ODict.keys. induction d as [|[k0 v0] d IH]; simpl.
  - rewrite list_elem_of_singleton, elem_of_nil. naive_solver.
  - destruct (decide (k0 = k)) as [->|Hne]; simpl.
    + rewrite !elem_of_cons. naive_solver.
    + rewrite !elem_of_cons, IH. naive_solver.
Qed.

Lemma odict_length_set_fresh k v d :
  k ∉ ODict.keys d → length (ODict.set k v d) = S (length d).
Proof.
  unfold ODict.keys. induction d as [|[k0 v0] d IH]; simpl; [done|].
  rewrite not_elem_of_cons. intros [Hne Hd].
  destruct (decide (k0 = k)) as [->|_]; [done|]. simpl. by rewrite IH.
Qed.

Lemma odict_get_set_eq k v d : ODict.get k (ODict.set k v d) = Some v.
Proof.
  induction d as [|[k0 v0] d IH]; simpl.
  - by rewrite decide_True.
  - destruct (decide (k0 = k)) as [->|Hne]; simpl.
    + by rewrite decide_True.
    + by rewrite decide_False.
Qed.

Lemma odict_get_set_ne k k' v d :
  k ≠ k' → ODict.get k' (ODict.set k v d) = ODict.get k' d.
Proof.
  intros Hne. induction d as [|[k0 v0] d IH]; simpl.
  - by rewrite decide_False.
  - destruct (decide (k0 = k)) as [->|Hne0]; simpl.
    + by rewrite !decide_False.
    + destruct (decide (k0 = k')); [done|apply IH].
Qed.

Lemma odict_get_None k d : ODict.get k d = None ↔ k ∉ ODict.keys d.
Proof.
  unfold ODict.keys. induction d as [|[k0 v0] d IH]; simpl.
  - split; [intros _; apply not_elem_of_nil|done].
  - rewrite not_elem_of_cons. destruct (decide (k0 = k)) as [->|Hne].
    + split; [done|]. intros [? _]. done.
    + rewrite IH. naive_solver.
Qed.

(** Assigning to fresh keys appends the entries in order. *)
Lemma odict_set_fresh k v d :
  k ∉ ODict.keys d → ODict.set k v d = (d ++ [(k, v)])%list.
Proof.
  unfold ODict.keys. induction d as [|[k0 v0] d IH]; simpl; [done|].
  rewrite not_elem_of_cons. intros [Hne Hd].
  rewrite decide_False by done. by rewrite IH.
Qed.
End odict_facts.

(** ** The merge of reference and template *)

Lemma merge_position_matched (st : merge_state) (r t : position) :
  pos_assigned r = true → pos_assigned t = true → pos_gn r = pos_gn t →
  merge_position st (r, t)
  = emit (pos_gn r) (pos_code r) (pos_gn t) (pos_code t)
      (if decide (pos_code r = pos_code t) then pos_code r else ".") st.
Proof. intros Hr Ht Hgn. unfold merge_position. by rewrite Hr, Ht, decide_True. Qed.

Lemma merge_position_misaligned (st : merge_state) (r t : position) :
  pos_assigned r = true → pos_assigned t = true → pos_gn r ≠ pos_gn t →
  merge_position st (r, t) = print misaligned_message st.
Proof. intros Hr Ht Hgn. unfold merge_position. by rewrite Hr, Ht, decide_False. Qed.

Lemma merge_position_template_gap (st : merge_state) (r t : position) :
  pos_assigned r = true → pos_assigned t = false → pos_code t = "-" →
  merge_position st (r, t)
  = emit (pos_gn r) (pos_code r) (pos_gn t) "-" "-" st.
Proof. intros Hr Ht Hc. unfold merge_position. by rewrite Hr, Ht, Hc. Qed.

Lemma merge_position_template_short (st : merge_state) (r t : position) :
  pos_assigned r = true → pos_assigned t = false → pos_code t = "_" →
  merge_position st (r, t)
  = emit (pos_gn r) (pos_code r) (pos_gn t) "x" "x" st.
Proof. intros Hr Ht Hc. unfold merge_position. by rewrite Hr, Ht, Hc. Qed.

Lemma merge_position_reference_gap (st : merge_state) (r t : position) :
  pos_assigned r = false → pos_code r = "-" → pos_assigned t = true →
  merge_position st (r, t)
  = emit (pos_gn r) "-" (pos_gn t) (pos_code t) "-" st.
Proof. intros Hr Hc Ht. unfold merge_position. by rewrite Hr, Ht, Hc. Qed.

Lemma merge_position_both_gap (st : merge_state) (r t : position) :
  pos_assigned r = false → pos_assigned t = false →
  pos_code r = "-" → pos_code t = "-" →
  merge_position st (r, t) = emit (pos_gn r) "-" (pos_gn t) "-" "-" st.
Proof. intros Hr Ht Hcr Hct. unfold merge_position. by rewrite Hr, Ht, Hcr, Hct. Qed.

Lemma emit_emits (rk tk : option string) (rv tv m : string)
    (st : merge_state) :
  emits st (emit rk rv tk tv m st) rk rv tk tv m.
Proof. unfold emits, emit. simpl. by rewrite !odict_get_set_eq. Qed.

(** C4, as amended. The four emitting cases of the merge of one position
    pair. Both assigned with one generic number: both sides receive their
    residue codes, the classification the shared code or a dot. Reference
    assigned and template not: the template side and the classification
    receive a dash for a gap code and an x for a too-short code. Reference
    holding a gap and template assigned, or neither assigned and both
    holding a gap: the classification receives a dash. *)
Theorem merge_position_cases (st : merge_state) (r t : position) :
  (pos_assigned r = true → pos_assigned t = true → pos_gn r = pos_gn t →
   emits st (merge_position st (r, t)) (pos_gn r) (pos_code r)
     (pos_gn t) (pos_code t)
     (if decide (pos_code r = pos_code t) then pos_code r else "."))
  ∧ (pos_assigned r = true → pos_assigned t = false → pos_code t = "-" →
     emits st (merge_position st (r, t)) (pos_gn r) (pos_code r)
       (pos_gn t) "-" "-")
  ∧ (pos_assigned r = true → pos_assigned t = false → pos_code t = "_" →
     emits st (merge_position st (r, t)) (pos_gn r) (pos_code r)
       (pos_gn t) "x" "x")
  ∧ (pos_assigned r = false → pos_code r = "-" → pos_assigned t = true →
     emits st (merge_position st (r, t)) (pos_gn r) "-"
       (pos_gn t) (pos_code t) "-")
  ∧ (pos_assigned r = false → pos_assigned t = false →
     pos_code r = "-" → pos_code t = "-" →
     emits st (merge_position st (r, t)) (pos_gn r) "-" (pos_gn t) "-" "-").
Proof.
  split_and!; intros.
  - rewrite merge_position_matched by done. apply emit_emits.
  - rewrite merge_position_template_gap by done. apply emit_emits.
  - rewrite merge_position_template_short by done. apply emit_emits.
  - rewrite merge_position_reference_gap by done. apply emit_emits.
  - rewrite merge_position_both_gap by done. apply emit_emits.
Qed.

(** The spec's scenario: both sides assigned 3x50, codes L and V. *)
Lemma merge_position_cases_witness :
  emits merge_init
    (merge_position merge_init
       (Position (Some "3x50") true "L", Position (Some "3x50") true "V"))
    (Some "3x50") "L" (Some "3x50") "V" ".".
Proof.
  apply (merge_position_cases merge_init (Position (Some "3x50") true "L")
           (Position (Some "3x50") true "V")); reflexivity.
Defined.

(** The spec's scenario: reference L at 3x50 against a template gap. *)
Example merge_position_gap_scenario :
  emits merge_init
    (merge_position merge_init
       (Position (Some "3x50") true "L", Position (Some "3x50") false "-"))
    (Some "3x50") "L" (Some "3x50") "-" "-".
Proof. vm_compute. by split_and!. Qed.

(** C4 as stated fails when neither side is assigned and the codes are
    not both gaps: two too-short positions emit no classification. *)
Lemma merge_position_both_short :
  pos_assigned (Position (Some "1x30") false "_") = false
  ∧ merge_position merge_init
      (Position (Some "1x30") false "_", Position (Some "1x30") false "_")
    = merge_init
  ∧ matching_string
      (merge_position merge_init
         (Position (Some "1x30") false "_", Position (Some "1x30") false "_"))
    ≠ matching_string merge_init +:+ "-".
Proof. split_and!; [done..|]. vm_compute. discriminate. Qed.

(** C9, as amended. When both positions are assigned and their generic
    numbers differ, the merge prints its diagnostic and goes on: neither
    mapping and none of the strings receives an entry for the pair. *)
Theorem merge_position_disagree (st : merge_state) (r t : position) :
  pos_assigned r = true → pos_assigned t = true → pos_gn r ≠ pos_gn t →
  let st' := merge_position st (r, t) in
  reference_dict st' = reference_dict st
  ∧ template_dict st' = template_dict st
  ∧ reference_string st' = reference_string st
  ∧ template_string st' = template_string st
  ∧ matching_string st' = matching_string st
  ∧ stdout st' = (stdout st ++ [misaligned_message])%list.
Proof.
  intros Hr Ht Hgn. cbv zeta. by rewrite merge_position_misaligned.
Qed.

Lemma merge_position_disagree_witness :
  let st' := merge_position merge_init
               (Position (Some "3x50") true "L", Position (Some "3x51") true "V") in
  reference_dict st' = reference_dict merge_init
  ∧ template_dict st' = template_dict merge_init
  ∧ reference_string st' = reference_string merge_init
  ∧ template_string st' = template_string merge_init
  ∧ matching_string st' = matching_string merge_init
  ∧ stdout st' = (stdout merge_init ++ [misaligned_message])%list.
Proof.
  apply (merge_position_disagree merge_init (Position (Some "3x50") true "L")
           (Position (Some "3x51") true "V")); [reflexivity..|discriminate].
Defined.

(** C9 as stated fails: on a pair of assigned positions with different
    generic numbers [run_main_alignment] returns a merged alignment that
    holds neither generic number, only the boundary entry. *)
Lemma run_main_alignment_drops_disagreement :
  run_main_alignment "gp139_human" "4EIY"
    [[Position (Some "3x50") true "L"]] [[Position (Some "3x51") true "V"]]
  = (Aligned "gp139_human" "4EIY"
       [(Some "TM1_end", "/")] [(Some "TM1_end", "/")] "/",
     [misaligned_message]).
Proof. vm_compute. reflexivity. Qed.

(** *** Lengths of the merged alignment *)

Lemma emit_lengths (rk tk : option string) (rv tv m : string)
    (st : merge_state) :
  rk ∉ ODict.keys (reference_dict st) → tk ∉ ODict.keys (template_dict st) →
  String.length m = 1%nat → lengths_agree st →
  lengths_agree (emit rk rv tk tv m st).
Proof.
  intros Hrk Htk Hm [Hrt Htm]. unfold lengths_agree, emit. simpl.
  rewrite !odict_length_set_fresh, str_length_app by done. lia.
Qed.

(** One position pair keeps the lengths equal, and adds no keys but its
    own. *)
Lemma merge_position_lengths (st : merge_state) (r t : position) :
  pos_gn r ∉ ODict.keys (reference_dict st) →
  pos_gn t ∉ ODict.keys (template_dict st) →
  assigned_code_ok r → unassigned_code_ok t → lengths_agree st →
  lengths_agree (merge_position st (r, t))
  ∧ (∀ k, k ∈ ODict.keys (reference_dict (merge_position st (r, t))) →
       k = pos_gn r ∨ k ∈ ODict.keys (reference_dict st))
  ∧ (∀ k, k ∈ ODict.keys (template_dict (merge_position st (r, t))) →
       k = pos_gn t ∨ k ∈ ODict.keys (template_dict st)).
Proof.
  intros Hrk Htk Hrc Htc Hst.
  assert (∀ rv tv m, String.length m = 1%nat →
    lengths_agree (emit (pos_gn r) rv (pos_gn t) tv m st)
    ∧ (∀ k, k ∈ ODict.keys (reference_dict (emit (pos_gn r) rv (pos_gn t) tv m st)) →
         k = pos_gn r ∨ k ∈ ODict.keys (reference_dict st))
    ∧ (∀ k, k ∈ ODict.keys (template_dict (emit (pos_gn r) rv (pos_gn t) tv m st)) →
         k = pos_gn t ∨ k ∈ ODict.keys (template_dict st))) as Hemit.
  { intros rv tv m Hm. split; [by apply emit_lengths|].
    simpl. split; intros k; by rewrite odict_keys_set. }
  destruct (pos_assigned r) eqn:Hr, (pos_assigned t) eqn:Ht.
  - destruct (decide (pos_gn r = pos_gn t)) as [Hgn|Hgn].
    + rewrite merge_position_matched by done. apply Hemit.
      case_decide; [by apply Hrc|done].
    + rewrite merge_position_misaligned by done. simpl. auto.
  - destruct (Htc Ht) as [Hc|Hc].
    + rewrite merge_position_template_gap by done. by apply Hemit.
    + rewrite merge_position_template_short by done. by apply Hemit.
  - destruct (decide (pos_code r = "-")) as [Hc|Hc].
    + rewrite merge_position_reference_gap by done. by apply Hemit.
    + unfold merge_position. rewrite Hr, Ht. simpl.
      rewrite bool_decide_eq_false_2 by done. simpl. auto.
  - destruct (decide (pos_code r = "-")) as [Hcr|Hcr];
      [destruct (decide (pos_code t = "-")) as [Hct|Hct]|].
    + rewrite merge_position_both_gap by done. by apply Hemit.
    + unfold merge_position. rewrite Hr, Ht. simpl.
      rewrite (bool_decide_eq_false_2 (pos_code t = "-")) by done.
      rewrite andb_false_r. auto.
    + unfold merge_position. rewrite Hr, Ht. simpl.
      rewrite bool_decide_eq_false_2 by done. simpl. auto.
Qed.

(** The inner loop over one segment. *)
Lemma merge_positions_lengths (rs ts : list position) (st : merge_state) :
  NoDup (pos_gn <$> rs) → NoDup (pos_gn <$> ts) →
  (∀ k, k ∈ ODict.keys (reference_dict st) → k ∉ pos_gn <$> rs) →
  (∀ k, k ∈ ODict.keys (template_dict st) → k ∉ pos_gn <$> ts) →
  Forall assigned_code_ok rs → Forall unassigned_code_ok ts →
  lengths_agree st →
  lengths_agree (foldl merge_position st (zip rs ts))
  ∧ (∀ k, k ∈ ODict.keys (reference_dict (foldl merge_position st (zip rs ts))) →
       k ∈ ODict.keys (reference_dict st) ∨ k ∈ pos_gn <$> rs)
  ∧ (∀ k, k ∈ ODict.keys (template_dict (foldl merge_position st (zip rs ts))) →
       k ∈ ODict.keys (template_dict st) ∨ k ∈ pos_gn <$> ts).
Proof.
  revert ts st. induction rs as [|r rs IH]; intros ts st; [simpl; auto|].
  destruct ts as [|t ts]; [simpl; auto|].
  rewrite !fmap_cons, !NoDup_cons, !Forall_cons.
  intros [Hr Hrs] [Ht Hts] Hrfresh Htfresh [Hrc Hrcs] [Htc Htcs] Hst.
  destruct (merge_position_lengths st r t) as (Hst1 & Hk1 & Hk2); try done.
  { intros Hin. apply (Hrfresh _ Hin), elem_of_cons; auto. }
  { intros Hin. apply (Htfresh _ Hin), elem_of_cons; auto. }
  simpl. destruct (IH ts (merge_position st (r, t))) as (Hst2 & Hk3 & Hk4);
    try done.
  { intros k Hk Hin. destruct (Hk1 _ Hk) as [->|Hold]; [done|].
    apply (Hrfresh _ Hold), elem_of_cons; auto. }
  { intros k Hk Hin. destruct (Hk2 _ Hk) as [->|Hold]; [done|].
    apply (Htfresh _ Hold), elem_of_cons; auto. }
  split_and!; [done|..]; intros k Hk; rewrite elem_of_cons.
  - destruct (Hk3 _ Hk) as [Hk'|?]; [|by auto].
    destruct (Hk1 _ Hk'); auto.
  - destruct (Hk4 _ Hk) as [Hk'|?]; [|by auto].
    destruct (Hk2 _ Hk'); auto.
Qed.

Lemma str_app_inv_r (s1 s2 t : string) : s1 +:+ t = s2 +:+ t → s1 = s2.
Proof.
  revert s2. induction s1 as [|c1 s1 IH]; intros [|c2 s2] Heq; [done|..].
  - apply (f_equal String.length) in Heq.
    rewrite str_app_nil_l, str_app_cons in Heq. simpl in Heq.
    rewrite str_length_app in Heq. lia.
  - apply (f_equal String.length) in Heq.
    rewrite str_app_nil_l, str_app_cons in Heq. simpl in Heq.
    rewrite str_length_app in Heq. lia.
  - rewrite !str_app_cons in Heq. injection Heq as -> Heq.
    by rewrite (IH _ Heq).
Qed.

(** Different segments have different boundary keys. *)
Lemma end_key_inj (n m : Z) : end_key n = end_key m → n = m.
Proof.
  unfold end_key. intros [= Heq]. rewrite !str_app_nil_l in Heq.
  apply str_app_inv_r in Heq. by apply (inj pretty) in Heq.
Qed.

Lemma position_keys_cons (rs : list position) (a : list (list position)) :
  position_keys (rs :: a) = ((pos_gn <$> rs) ++ position_keys a)%list.
Proof. unfold position_keys. simpl. by rewrite fmap_app. Qed.

(** The outer loop over the segments. *)
Lemma merge_segments_lengths (ref temp : list (list position)) (n : Z)
    (st : merge_state) :
  NoDup (position_keys ref) → NoDup (position_keys temp) →
  (∀ k, k ∈ position_keys ref → ¬ is_end_key k) →
  (∀ k, k ∈ position_keys temp → ¬ is_end_key k) →
  (∀ k, k ∈ ODict.keys (reference_dict st) →
     (k ∉ position_keys ref) ∧ (∀ m, n < m → k ≠ end_key m)) →
  (∀ k, k ∈ ODict.keys (template_dict st) →
     (k ∉ position_keys temp) ∧ (∀ m, n < m → k ≠ end_key m)) →
  Forall assigned_code_ok (concat ref) →
  Forall unassigned_code_ok (concat temp) →
  lengths_agree st →
  lengths_agree (foldl merge_segment (n, st) (zip ref temp)).2.
Proof.
  revert temp n st. induction ref as [|rs ref IH]; intros temp n st; [done|].
  destruct temp as [|ts temp]; [done|].
  rewrite !position_keys_cons, !NoDup_app. simpl concat. rewrite !Forall_app.
  intros (Hrs & Hrdisj & Href) (Hts & Htdisj & Htemp) Hrend Htend
    Hrfresh Htfresh [Hrc Hrcs] [Htc Htcs] Hst.
  destruct (merge_positions_lengths rs ts st) as (Hst1 & Hk1 & Hk2); try done.
  { intros k Hk Hin. apply (Hrfresh _ Hk), elem_of_app. auto. }
  { intros k Hk Hin. apply (Htfresh _ Hk), elem_of_app. auto. }
  simpl. unfold merge_segment at 2. simpl.
  set (st1 := foldl merge_position st (zip rs ts)) in *.
  assert (∀ k, k ∈ ODict.keys (reference_dict st1) →
            (k ∉ position_keys ref) ∧ (∀ m, n < m → k ≠ end_key m)) as Hr1.
  { intros k Hk. destruct (Hk1 _ Hk) as [Hold|Hnew].
    - destruct (Hrfresh _ Hold) as [Hnotin Hne]. split; [|done].
      intros Hin. apply Hnotin, elem_of_app. auto.
    - split; [by apply Hrdisj|]. intros m _ ->.
      apply (Hrend (end_key m)); [apply elem_of_app; auto|by exists m]. }
  assert (∀ k, k ∈ ODict.keys (template_dict st1) →
            (k ∉ position_keys temp) ∧ (∀ m, n < m → k ≠ end_key m)) as Ht1.
  { intros k Hk. destruct (Hk2 _ Hk) as [Hold|Hnew].
    - destruct (Htfresh _ Hold) as [Hnotin Hne]. split; [|done].
      intros Hin. apply Hnotin, elem_of_app. auto.
    - split; [by apply Htdisj|]. intros m _ ->.
      apply (Htend (end_key m)); [apply elem_of_app; auto|by exists m]. }
  apply IH; try done.
  - intros k Hk. apply Hrend, elem_of_app. auto.
  - intros k Hk. apply Htend, elem_of_app. auto.
  - intros k. simpl. rewrite odict_keys_set. intros [->|Hk].
    + split.
      * intros Hin. apply (Hrend (end_key (n + 1)));
          [apply elem_of_app; auto|by exists (n + 1)].
      * intros m Hm Heq. apply end_key_inj in Heq. lia.
    + destruct (Hr1 _ Hk) as [? Hne]. split; [done|].
      intros m Hm. apply Hne. lia.
  - intros k. simpl. rewrite odict_keys_set. intros [->|Hk].
    + split.
      * intros Hin. apply (Htend (end_key (n + 1)));
          [apply elem_of_app; auto|by exists (n + 1)].
      * intros m Hm Heq. apply end_key_inj in Heq. lia.
    + destruct (Ht1 _ Hk) as [? Hne]. split; [done|].
      intros m Hm. apply Hne. lia.
  - apply emit_lengths; [| |done|done].
    + intros Hk. destruct (Hr1 _ Hk) as [_ Hne]. by apply (Hne (n + 1)); [lia|].
    + intros Hk. destruct (Ht1 _ Hk) as [_ Hne]. by apply (Hne (n + 1)); [lia|].
Qed.

(** C1, as amended. When on each side the generic-number keys of the
    positions are pairwise distinct and none has the form of a boundary
    key, assigned reference positions hold one-character codes and
    unassigned template positions hold the gap or the too-short code, the
    merged alignment of [run_main_alignment] has as many reference entries
    as template entries as classification characters, boundary markers
    included. *)
Theorem run_main_alignment_lengths (reference_id main_pdb_id : string)
    (ref temp : list (list position)) :
  NoDup (position_keys ref) → NoDup (position_keys temp) →
  (∀ k, k ∈ position_keys ref → ¬ is_end_key k) →
  (∀ k, k ∈ position_keys temp → ¬ is_end_key k) →
  Forall assigned_code_ok (concat ref) →
  Forall unassigned_code_ok (concat temp) →
  let a := (run_main_alignment reference_id main_pdb_id ref temp).1 in
  length (aligned_reference_dict a) = length (aligned_template_dict a)
  ∧ length (aligned_template_dict a) = String.length (aligned_string a).
Proof.
  intros Hr Ht Hrend Htend Hrc Htc. cbv zeta. simpl.
  apply (merge_segments_lengths ref temp 0 merge_init); try done.
  - intros k Hk. by apply elem_of_nil in Hk.
  - intros k Hk. by apply elem_of_nil in Hk.
Qed.

Lemma not_end_key_None : ¬ is_end_key None.
Proof. intros [n Hn]. discriminate. Qed.

Lemma not_end_key_head (c : ascii) (s : string) :
  c ≠ "T"%char → ¬ is_end_key (Some (String c s)).
Proof. intros Hc [n Hn]. unfold end_key in Hn. by injection Hn. Qed.

Lemma run_main_alignment_lengths_witness :
  let a := (run_main_alignment "gp139_human" "4EIY"
              [[Position (Some "3x50") true "L"; Position (Some "3x51") true "A"];
               [Position (Some "4x50") false "-"]]
              [[Position (Some "3x50") false "-"; Position (Some "3x51") true "V"];
               [Position (Some "4x50") true "W"]]).1 in
  length (aligned_reference_dict a) = length (aligned_template_dict a)
  ∧ length (aligned_template_dict a) = String.length (aligned_string a).
Proof.
  apply (run_main_alignment_lengths "gp139_human" "4EIY").
  - apply (bool_decide_unpack _). vm_compute. reflexivity.
  - apply (bool_decide_unpack _). vm_compute. reflexivity.
  - intros k Hk. vm_compute in Hk.
    repeat (apply elem_of_cons in Hk as [->|Hk];
            [apply not_end_key_head; discriminate|]).
    by apply elem_of_nil in Hk.
  - intros k Hk. vm_compute in Hk.
    repeat (apply elem_of_cons in Hk as [->|Hk];
            [apply not_end_key_head; discriminate|]).
    by apply elem_of_nil in Hk.
  - simpl. repeat first [apply Forall_nil_2 | apply Forall_cons_2];
      intros Ha; reflexivity || discriminate Ha.
  - simpl. repeat first [apply Forall_nil_2 | apply Forall_cons_2];
      intros Ha; (left; reflexivity) || discriminate Ha.
Defined.

(** C1 as stated fails when a key occurs twice on one side: two gap
    columns that carry no generic number share the key [None], so each
    mapping holds two entries while the classification string holds three
    characters. *)
Lemma run_main_alignment_repeated_key :
  let a := (run_main_alignment "gp139_human" "4EIY"
              [[Position None false "-"; Position None false "-"]]
              [[Position None false "-"; Position None false "-"]]).1 in
  aligned_reference_dict a = [(None, "-"); (Some "TM1_end", "/")]
  ∧ aligned_template_dict a = [(None, "-"); (Some "TM1_end", "/")]
  ∧ aligned_string a = "--/"
  ∧ length (aligned_reference_dict a) ≠ String.length (aligned_string a).
Proof. vm_compute. split_and!; [reflexivity..|discriminate]. Qed.

(** ** The similarity ranking *)

Section sorted_facts.
Context {A : Type} (key : A → Z).
Implicit Types (x : A) (l : list A).

Lemma insert_reverse_perm x l : PyList.insert_reverse key x l ≡ₚ x :: l.
Proof.
  induction l as [|y l IH]; simpl; [done|].
  case_match; [|done]. rewrite IH. apply Permutation_swap.
Qed.

Lemma sorted_reverse_perm l : PyList.sorted_reverse key l ≡ₚ l.
Proof.
  induction l as [|x l IH]; simpl; [done|].
  by rewrite insert_reverse_perm, IH.
Qed.

Lemma insert_reverse_sorted x l :
  StronglySorted (λ a b, key b ≤ key a) l →
  StronglySorted (λ a b, key b ≤ key a) (PyList.insert_reverse key x l).
Proof.
  induction 1 as [|y l Hl IH Hy]; simpl; [repeat constructor|].
  destruct (Z.ltb_spec (key x) (key y)) as [Hlt|Hge].
  - constructor; [done|]. rewrite insert_reverse_perm.
    constructor; [lia|done].
  - constructor; [by constructor|]. constructor; [done|].
    eapply Forall_impl; [exact Hy|]. simpl. intros z Hz. lia.
Qed.

(** The result is in descending order of the key. *)
Lemma sorted_reverse_sorted l :
  StronglySorted (λ a b, key b ≤ key a) (PyList.sorted_reverse key l).
Proof.
  induction l as [|x l IH]; simpl; [constructor|].
  by apply insert_reverse_sorted.
Qed.

Lemma insert_reverse_filter (v : Z) x l :
  filter (λ a, key a = v) (PyList.insert_reverse key x l)
  = filter (λ a, key a = v) (x :: l).
Proof.
  induction l as [|y l IH]; simpl; [done|].
  destruct (Z.ltb_spec (key x) (key y)) as [Hlt|Hge]; [|done].
  rewrite (filter_cons _ y), IH, !filter_cons.
  repeat case_decide; try done. lia.
Qed.

(** The sort is stable: entries of one key keep their order. *)
Lemma sorted_reverse_stable (v : Z) l :
  filter (λ a, key a = v) (PyList.sorted_reverse key l)
  = filter (λ a, key a = v) l.
Proof.
  induction l as [|x l IH]; simpl; [done|].
  by rewrite insert_reverse_filter, !filter_cons, IH.
Qed.
End sorted_facts.

Section similarity_table_facts.
Context {Protein Structure : Type} `{EqDecision Structure}.
Variable similarity : Protein → Z.
Variable matches : Protein → list Structure.

#[local] Abbreviation tkey := (table_key matches).
#[local] Abbreviation tentry := (table_entry matches).
#[local] Abbreviation tstep := (similarity_table_step matches).

Lemma table_entry_snd (i : Protein * Z) (e : Structure * Z) :
  tentry i = Some e → tkey i.1 = Some e.1 ∧ e.2 = i.2.
Proof.
  unfold table_entry. destruct (tkey i.1) as [s|] eqn:Hs; [|done].
  simpl. by intros [= <-].
Qed.

(** With fresh keys the last loop appends the entries in order. *)
Lemma similarity_table_fold (l : list (Protein * Z))
    (acc : list (Structure * Z)) :
  Forall (λ i, is_Some (tentry i)) l →
  NoDup (ODict.keys acc ++ (omap tentry l).*1) →
  foldl tstep (Ok acc) l = Ok (acc ++ omap tentry l)%list.
Proof.
  revert acc. induction l as [|i l IH]; intros acc Hall Hnd.
  { csimpl. by rewrite app_nil_r. }
  apply Forall_cons in Hall as [[e He] Hall].
  change (foldl tstep (Ok acc) (i :: l))
    with (foldl tstep (tstep (Ok acc) i) l).
  csimpl in Hnd. rewrite He in Hnd. csimpl in Hnd.
  assert (tstep (Ok acc) i = Ok (acc ++ [e])%list) as ->.
  { unfold similarity_table_step. csimpl.
    unfold table_entry, table_key in He.
    destruct (matches i.1) as [|s ms]; [done|]. csimpl in He.
    injection He as <-. rewrite odict_set_fresh; [done|].
    apply NoDup_app in Hnd as (_ & Hdisj & _). intros Hin.
    apply (Hdisj _ Hin), elem_of_cons. auto. }
  rewrite IH; [|done|].
  - csimpl. rewrite He. csimpl. by rewrite <-app_assoc.
  - unfold ODict.keys in *. by rewrite fmap_app, <-app_assoc.
Qed.

Lemma omap_table_entry_keys (l : list (Protein * Z)) :
  Forall (λ i, is_Some (tentry i)) l →
  Some <$> (omap tentry l).*1 = tkey <$> l.*1.
Proof.
  induction 1 as [|i l [e He] Hl IH]; csimpl; [done|].
  rewrite He. csimpl. rewrite IH. f_equal.
  by apply table_entry_snd in He as [-> _].
Qed.

Lemma omap_table_entry_sorted (l : list (Protein * Z)) :
  StronglySorted (λ a b, b.2 ≤ a.2) l →
  StronglySorted (λ a b : Structure * Z, b.2 ≤ a.2) (omap tentry l).
Proof.
  induction 1 as [|i l Hl IH Hi]; csimpl; [constructor|].
  destruct (tentry i) as [e|] eqn:He; [|done].
  apply table_entry_snd in He as [_ He]. constructor; [done|].
  clear IH Hl. induction Hi as [|j l Hj Hl IH]; csimpl; [done|].
  destruct (tentry j) as [e'|] eqn:He'; [|done].
  apply table_entry_snd in He' as [_ He']. constructor; [|done]. lia.
Qed.

Lemma omap_table_entry_filter (v : Z) (l : list (Protein * Z)) :
  filter (λ e, e.2 = v) (omap tentry l)
  = omap tentry (filter (λ i, i.2 = v) l).
Proof.
  induction l as [|i l IH]; csimpl; [done|].
  rewrite filter_cons. destruct (tentry i) as [e|] eqn:He.
  - pose proof (table_entry_snd _ _ He) as [_ He2].
    rewrite filter_cons. rewrite He2.
    case_decide; csimpl; [by rewrite He, IH|done].
  - case_decide; csimpl; [by rewrite He|done].
Qed.

Lemma filter_scored (v : Z) (ps : list Protein) :
  filter (λ i : Protein * Z, i.2 = v) ((λ p, (p, similarity p)) <$> ps)
  = (λ p, (p, similarity p)) <$> filter (λ p, similarity p = v) ps.
Proof.
  induction ps as [|p ps IH]; csimpl; [done|].
  rewrite !filter_cons. csimpl. case_decide; csimpl; by rewrite IH.
Qed.

(** C8. When every ranked protein has a matching structure and no two
    of them are entered under the same structure, the similarity table
    is in descending order of the score, and the structures of one score
    stand in the order in which their scores were collected. *)
Theorem similarity_table_ordered (proteins : list Protein) :
  (∀ p, p ∈ drop 1 proteins → matches p ≠ []) →
  NoDup (tkey <$> drop 1 proteins) →
  ∃ table,
    create_ordered_similarity_table similarity matches proteins = Ok table
    ∧ StronglySorted (λ a b, b.2 ≤ a.2) table
    ∧ ∀ v : Z,
        Some <$> (filter (λ e, e.2 = v) table).*1
        = tkey <$> filter (λ p, similarity p = v) (drop 1 proteins).
Proof.
  intros Hmatch Hnd. unfold create_ordered_similarity_table.
  set (cand := drop 1 proteins) in *.
  set (tmp := (λ p, (p, similarity p)) <$> cand).
  set (order := PyList.sorted_reverse snd tmp).
  assert (∀ ps, Forall (λ p, matches p ≠ []) ps →
            Forall (λ i, is_Some (tentry i))
              ((λ p, (p, similarity p)) <$> ps)) as Hsome.
  { intros ps. induction 1 as [|p ps Hp Hps IH]; csimpl; constructor; [|done].
    unfold table_entry, table_key. csimpl.
    destruct (matches p); [done|]. csimpl. eauto. }
  assert (Forall (λ i, is_Some (tentry i)) tmp) as Htmp.
  { apply Hsome, Forall_forall. intros p Hp. by apply Hmatch. }
  assert (Forall (λ i, is_Some (tentry i)) order) as Horder.
  { unfold order. by rewrite sorted_reverse_perm. }
  exists (omap tentry order). split_and!.
  - rewrite similarity_table_fold; [done|done|]. csimpl.
    apply (NoDup_fmap_1 Some). rewrite omap_table_entry_keys by done.
    unfold order. rewrite sorted_reverse_perm. unfold tmp.
    rewrite <-!list_fmap_compose. exact Hnd.
  - apply omap_table_entry_sorted, sorted_reverse_sorted.
  - intros v. rewrite omap_table_entry_filter. unfold order.
    rewrite (sorted_reverse_stable snd). unfold tmp. rewrite filter_scored.
    rewrite omap_table_entry_keys.
    + rewrite <-!list_fmap_compose. reflexivity.
    + apply Hsome, Forall_forall. intros p Hp.
      apply Hmatch. by apply list_elem_of_filter in Hp as [_ ?].
Qed.
End similarity_table_facts.

Example similarity_table_sample :
  create_ordered_similarity_table sample_similarity sample_matches
    [0; 1; 2; 3; 4]%nat
  = Ok [("4EIY", 85); ("1U19", 85); ("2RH1", 70); ("3PBL", 70)].
Proof. vm_compute. reflexivity. Qed.

Lemma similarity_table_ordered_witness :
  ∃ table,
    create_ordered_similarity_table sample_similarity sample_matches
      [0; 1; 2; 3; 4]%nat = Ok table
    ∧ StronglySorted (λ a b, b.2 ≤ a.2) table
    ∧ ∀ v : Z,
        Some <$> (filter (λ e, e.2 = v) table).*1
        = table_key sample_matches
            <$> filter (λ p, sample_similarity p = v) (drop 1 [0; 1; 2; 3; 4]%nat).
Proof.
  apply (similarity_table_ordered sample_similarity sample_matches).
  - intros p Hp. simpl in Hp.
    repeat (apply elem_of_cons in Hp as [->|Hp]; [discriminate|]).
    by apply elem_of_nil in Hp.
  - apply (bool_decide_unpack _). vm_compute. reflexivity.
Defined.

(** ** The coordinate parser *)

Example pdb_array_sample :
  ODict.keys <$> pdb_array_of_lines sample_lines = Ok [KStr "1.50"; KStr "1.501"].
Proof. vm_compute. reflexivity. Qed.

Example pdb_array_sample_plain_ca :
  ODict.keys <$> pdb_array_of_lines sample_lines_plain_ca
  = Ok [KStr "1.50"; KInt 2].
Proof. vm_compute. reflexivity. Qed.

Example pdb_array_sample_no_ca :
  pdb_array_of_lines sample_lines_no_ca = Raise KeyError.
Proof. vm_compute. reflexivity. Qed.

(** A match hands to its continuation a rest that is shorter than the
    input by at least [Re.min_len]. *)
Lemma run_min_len {A : Type} (r : Re.regex) (s : string)
    (k : string → option A) (x : A) :
  Re.run r s k = Some x →
  ∃ s', k s' = Some x
        ∧ (String.length s' + Re.min_len r ≤ String.length s)%nat.
Proof.
  revert s k x. induction r as [|p|r1 IH1 r2 IH2|r1 IH1|r1 IH1]; intros s k x.
  - simpl. intros Hk. exists s. split; [done|lia].
  - simpl. destruct s as [|c s]; [done|]. destruct (p c); [|done].
    intros Hk. exists s. split; [done|simpl; lia].
  - simpl. intros Hrun.
    apply IH1 in Hrun as (s1 & Hrun & Hlen1).
    apply IH2 in Hrun as (s2 & Hk & Hlen2).
    exists s2. split; [done|lia].
  - simpl. destruct (Re.run r1 s k) as [y|] eqn:Hrun.
    + intros [= ->]. apply IH1 in Hrun as (s1 & Hk & Hlen).
      exists s1. split; [done|lia].
    + intros Hk. exists s. split; [done|lia].
  - simpl. generalize (String.length s) at 1. intros fuel. revert s.
    induction fuel as [|fuel IHfuel]; intros s; simpl.
    + intros Hk. exists s. split; [done|lia].
    + destruct (Re.run r1 s _) as [y|] eqn:Hrun.
      * intros [= ->]. apply IH1 in Hrun as (s1 & Hstar & Hlen).
        destruct (Nat.ltb_spec (String.length s1) (String.length s)); [|done].
        apply IHfuel in Hstar as (s2 & Hk & Hlen2).
        exists s2. split; [done|lia].
      * intros Hk. exists s. split; [done|lia].
Qed.

(** Matching depends on the continuation only through its values. *)
Lemma run_ext {A : Type} (r : Re.regex) (s : string)
    (k1 k2 : string → option A) :
  (∀ s', k1 s' = k2 s') → Re.run r s k1 = Re.run r s k2.
Proof.
  revert s k1 k2.
  induction r as [|p|r1 IH1 r2 IH2|r1 IH1|r1 IH1]; intros s k1 k2 Hk; simpl.
  - apply Hk.
  - destruct s as [|c s]; [done|]. destruct (p c); [apply Hk|done].
  - apply IH1. intros s'. by apply IH2.
  - by rewrite (IH1 s k1 k2), Hk.
  - generalize (String.length s). intros fuel. revert s.
    induction fuel as [|fuel IHfuel]; intros s; simpl; [apply Hk|].
    rewrite Hk. erewrite IH1; [done|]. intros s'. simpl.
    by rewrite IHfuel.
Qed.

Lemma run_none {A : Type} (r : Re.regex) (s : string)
    (k : string → option A) :
  (∀ s', k s' = None) → Re.run r s k = None.
Proof.
  revert s k.
  induction r as [|p|r1 IH1 r2 IH2|r1 IH1|r1 IH1]; intros s k Hk; simpl.
  - apply Hk.
  - destruct s as [|c s]; [done|]. by destruct (p c).
  - apply IH1. intros s'. by apply IH2.
  - by rewrite IH1, Hk.
  - generalize (String.length s). intros fuel. revert s.
    induction fuel as [|fuel IHfuel]; intros s; simpl; [apply Hk|].
    rewrite Hk, IH1; [done|]. intros s'. simpl.
    rewrite IHfuel. by destruct (_ <? _)%nat.
Qed.

(** The fuel of a repetition is never what ends it: any fuel that covers
    the input gives the result of the fuel [run] supplies. *)
Lemma star_fuel_enough {A : Type} (r : Re.regex) (k : string → option A)
    (fuel : nat) (s : string) :
  (String.length s ≤ fuel)%nat →
  Re.star_with (Re.run r) k fuel s
  = Re.star_with (Re.run r) k (String.length s) s.
Proof.
  assert (∀ fuel1 fuel2 s, (String.length s ≤ fuel1)%nat →
            (String.length s ≤ fuel2)%nat →
            Re.star_with (Re.run r) k fuel1 s
            = Re.star_with (Re.run r) k fuel2 s) as Hfuel.
  { clear fuel s. induction fuel1 as [|fuel1 IH]; intros fuel2 s H1 H2.
    - destruct fuel2 as [|fuel2]; [done|]. simpl.
      rewrite run_none; [done|]. intros s'.
      destruct (Nat.ltb_spec (String.length s') (String.length s)); [lia|done].
    - destruct fuel2 as [|fuel2]; simpl.
      + rewrite run_none; [done|]. intros s'.
        destruct (Nat.ltb_spec (String.length s') (String.length s)); [lia|done].
      + erewrite run_ext; [done|]. intros s'. simpl.
        destruct (Nat.ltb_spec (String.length s') (String.length s)); [|done].
        apply IH; lia. }
  intros Hs. by apply Hfuel.
Qed.

Lemma substring_length (n : nat) (s : string) :
  (n ≤ String.length s)%nat → String.length (substring 0 n s) = n.
Proof.
  revert n. induction s as [|c s IH]; intros [|n] Hn; simpl in *;
    [done|lia|done|].
  rewrite IH; lia.
Qed.

Lemma consumed_length (s s' : string) :
  String.length (Re.consumed s s')
  = (String.length s - String.length s')%nat.
Proof. unfold Re.consumed. apply substring_length. lia. Qed.

(** A match of a sequence of groups yields one text per group, each at
    least as long as its group must consume. *)
Lemma run_groups_min_len (gs : list Re.regex) (s : string)
    (acc res : list string) :
  Re.run_groups gs s acc = Some res →
  ∃ texts, res = (rev acc ++ texts)%list
           ∧ Forall2 (λ g t, (Re.min_len g ≤ String.length t)%nat) gs texts.
Proof.
  revert s acc. induction gs as [|g gs IH]; intros s acc; simpl.
  - intros [= <-]. exists []. by rewrite app_nil_r.
  - intros Hrun. apply run_min_len in Hrun as (s' & Hrun & Hlen).
    apply IH in Hrun as (texts & -> & Hall).
    exists (Re.consumed s s' :: texts). split.
    + simpl. by rewrite <-app_assoc.
    + constructor; [|done]. rewrite consumed_length. lia.
Qed.

(** The generic-number fragment of a matched alpha-carbon record is not
    empty. *)
Lemma ca_pattern_group_8 (ca : string) (res : list string) :
  Re.rmatch Re.ca_pattern ca = Some res → Re.group 8 res ≠ "".
Proof.
  unfold Re.rmatch. intros Hrun.
  apply run_groups_min_len in Hrun as (texts & -> & Hall).
  unfold Re.ca_pattern in Hall.
  do 7 (apply Forall2_cons_inv_l in Hall as (? & ? & _ & Hall & ->)).
  apply Forall2_cons_inv_l in Hall as (t8 & texts' & Ht8 & _ & ->).
  unfold Re.group. simpl in *. intros ->. simpl in Ht8. lia.
Qed.

(** The second loop raises nothing but the [KeyError] of a missing
    alpha-carbon record. *)
Lemma out_key_raises (key : Z) (value : atom_block) (e : exn) :
  out_key key value = Raise e → e = KeyError ∧ ODict.get "CA" value = None.
Proof.
  unfold out_key. destruct (ODict.get "CA" value) as [ca|]; [|by intros [= <-]].
  destruct (Re.rmatch Re.ca_pattern ca) as [res|] eqn:Hre; [|done].
  apply ca_pattern_group_8 in Hre.
  case_bool_decide; [|done].
  destruct (Re.group 8 res) as [|c rest]; [done|]. by destruct (Ascii.eqb c "-").
Qed.

Lemma out_array_fold_raise (e : exn) (pdb_array : list (Z * atom_block)) :
  foldl out_array_step (Raise e) pdb_array = Raise e.
Proof. induction pdb_array as [|entry pdb_array IH]; [done|apply IH]. Qed.

Lemma out_array_step_ok (acc : list (reskey * atom_block))
    (entry : Z * atom_block) :
  out_array_step (Ok acc) entry
  = k ← out_key entry.1 entry.2; Ok (ODict.set k entry.2 acc).
Proof. reflexivity. Qed.

(** A residue whose alpha-carbon record holds no generic-number fragment
    keeps its residue number as key. *)
Lemma out_key_unparsable (key : Z) (value : atom_block) (ca : string) :
  ODict.get "CA" value = Some ca → Re.rmatch Re.ca_pattern ca = None →
  out_key key value = Ok (KInt key).
Proof. intros Hca Hre. unfold out_key. by rewrite Hca, Hre. Qed.

(** A residue without alpha-carbon record makes the lookup of its key
    raise. *)
Lemma out_key_missing_ca (key : Z) (value : atom_block) :
  ODict.get "CA" value = None → out_key key value = Raise KeyError.
Proof. intros Hca. unfold out_key. by rewrite Hca. Qed.

(** A raw residue number appears as a key only for the residue that
    carries it. *)
Lemma out_key_int (key n : Z) (value : atom_block) :
  out_key key value = Ok (KInt n) → n = key.
Proof.
  unfold out_key. intros Hk. repeat case_match; by simplify_eq.
Qed.

(** Keys that no later residue is stored under keep their blocks. *)
Lemma out_array_fold_other (pdb_array : list (Z * atom_block))
    (acc out : list (reskey * atom_block)) (k : reskey) :
  foldl out_array_step (Ok acc) pdb_array = Ok out →
  (∀ entry, entry ∈ pdb_array → out_key entry.1 entry.2 ≠ Ok k) →
  ODict.get k out = ODict.get k acc.
Proof.
  revert acc. induction pdb_array as [|entry pdb_array IH]; intros acc Hfold Hk.
  { simpl in Hfold. by injection Hfold as <-. }
  change (foldl out_array_step (Ok acc) (entry :: pdb_array))
    with (foldl out_array_step (out_array_step (Ok acc) entry) pdb_array)
    in Hfold.
  rewrite out_array_step_ok in Hfold.
  destruct (out_key entry.1 entry.2) as [k0|e] eqn:Hk0; simpl in Hfold;
    [|by rewrite out_array_fold_raise in Hfold].
  rewrite (IH _ Hfold) by (intros e He; apply Hk, elem_of_cons; by right).
  apply odict_get_set_ne. intros ->.
  by apply (Hk entry); [apply elem_of_cons; left|].
Qed.

(** C7, where the code holds to it. When the second loop returns, a
    residue whose alpha-carbon record holds no generic-number fragment is
    found in the output under its own residue number, with its block. *)
Lemma rekey_residues_unparsable_ca (pdb_array : list (Z * atom_block))
    (out : list (reskey * atom_block)) (key : Z) (value : atom_block)
    (ca : string) :
  NoDup (ODict.keys pdb_array) →
  (key, value) ∈ pdb_array →
  ODict.get "CA" value = Some ca → Re.rmatch Re.ca_pattern ca = None →
  rekey_residues pdb_array = Ok out →
  ODict.get (KInt key) out = Some value.
Proof.
  unfold rekey_residues, ODict.keys. generalize (@nil (reskey * atom_block)).
  intros acc Hnd Hin Hca Hre. revert acc.
  induction pdb_array as [|entry pdb_array IH]; intros acc Hfold.
  { by apply elem_of_nil in Hin. }
  change (foldl out_array_step (Ok acc) (entry :: pdb_array))
    with (foldl out_array_step (out_array_step (Ok acc) entry) pdb_array)
    in Hfold.
  rewrite out_array_step_ok in Hfold.
  rewrite fmap_cons in Hnd. apply NoDup_cons in Hnd as [Hfresh Hnd].
  destruct (out_key entry.1 entry.2) as [k0|e] eqn:Hk0; simpl in Hfold;
    [|by rewrite out_array_fold_raise in Hfold].
  apply elem_of_cons in Hin as [<-|Hin]; [|by eapply IH].
  simpl in Hk0. rewrite (out_key_unparsable _ _ _ Hca Hre) in Hk0.
  injection Hk0 as <-.
  rewrite (out_array_fold_other _ _ _ _ Hfold); [apply odict_get_set_eq|].
  intros [key' value'] Hin' Hk'. simpl in *.
  apply out_key_int in Hk' as ->. apply Hfresh.
  by apply (list_elem_of_fmap_2 fst) in Hin'.
Qed.

(** C7, where the code departs from it. When some residue of the
    coordinate array has no alpha-carbon record, the second loop of
    [pdb_array_creator] raises [KeyError]: no output array is built, for
    that residue or for any other. *)
Theorem rekey_residues_missing_ca (pdb_array : list (Z * atom_block)) :
  (∃ entry, entry ∈ pdb_array ∧ ODict.get "CA" entry.2 = None) →
  rekey_residues pdb_array = Raise KeyError.
Proof.
  unfold rekey_residues. generalize (@nil (reskey * atom_block)).
  induction pdb_array as [|entry pdb_array IH]; intros acc (bad & Hin & Hca).
  { by apply elem_of_nil in Hin. }
  change (foldl out_array_step (Ok acc) (entry :: pdb_array))
    with (foldl out_array_step (out_array_step (Ok acc) entry) pdb_array).
  rewrite out_array_step_ok.
  destruct (out_key entry.1 entry.2) as [k|e] eqn:Hk; simpl.
  - apply IH. apply elem_of_cons in Hin as [->|Hin]; [|by eauto].
    by rewrite (out_key_missing_ca _ _ Hca) in Hk.
  - apply out_key_raises in Hk as [-> _]. apply out_array_fold_raise.
Qed.

Lemma rekey_residues_missing_ca_witness :
  rekey_residues
    [(1, [("N", "ATOM      1  N   MET A   1 "); ("CA", "ATOM      2  CA  MET A   1 ")]);
     (2, [("N", "ATOM      4  N   LEU A   2 ")])]
  = Raise KeyError.
Proof.
  apply rekey_residues_missing_ca.
  exists (2, [("N", "ATOM      4  N   LEU A   2 ")]). split; [|reflexivity].
  apply elem_of_cons. right. apply elem_of_cons. by left.
Defined.

(** When every residue has an alpha-carbon record the second loop
    returns. *)
Lemma rekey_residues_returns (pdb_array : list (Z * atom_block)) :
  (∀ entry, entry ∈ pdb_array → is_Some (ODict.get "CA" entry.2)) →
  ∃ out, rekey_residues pdb_array = Ok out.
Proof.
  unfold rekey_residues. generalize (@nil (reskey * atom_block)).
  induction pdb_array as [|entry pdb_array IH]; intros acc Hca; [by eexists|].
  change (foldl out_array_step (Ok acc) (entry :: pdb_array))
    with (foldl out_array_step (out_array_step (Ok acc) entry) pdb_array).
  rewrite out_array_step_ok.
  destruct (out_key entry.1 entry.2) as [k|e] eqn:Hk; simpl.
  - apply IH. intros e He. apply Hca, elem_of_cons. by right.
  - apply out_key_raises in Hk as [_ Hnone].
    destruct (Hca entry ltac:(apply elem_of_cons; by left)) as [ca Hsome].
    congruence.
Qed.

(** ** The window fetch *)

Section fetch_facts.
Variable files : string → option (list string).
Implicit Types (arr out : list (reskey * atom_block)) (gns : list string).

Lemma fetch_fold_raise arr gns (e : exn) :
  foldl (fetch_step arr) (Raise e) gns = Raise e.
Proof. induction gns as [|gn gns IH]; [done|apply IH]. Qed.

Lemma fetch_step_ok arr out (gn : string) :
  fetch_step arr (Ok out) gn
  = match ODict.get (fetch_key gn) arr with
    | Some block => Ok (ODict.set (fetch_key gn) block out)
    | None => Raise KeyError
    end.
Proof. reflexivity. Qed.

Lemma fetch_fold_missing arr gns out :
  (∃ gn, gn ∈ gns ∧ ODict.get (fetch_key gn) arr = None) →
  foldl (fetch_step arr) (Ok out) gns = Raise KeyError.
Proof.
  revert out. induction gns as [|gn gns IH]; intros out (bad & Hin & Hbad).
  { by apply elem_of_nil in Hin. }
  change (foldl (fetch_step arr) (Ok out) (gn :: gns))
    with (foldl (fetch_step arr) (fetch_step arr (Ok out) gn) gns).
  rewrite fetch_step_ok.
  destruct (ODict.get (fetch_key gn) arr) as [block|] eqn:Hget.
  - apply IH. apply elem_of_cons in Hin as [->|Hin]; [congruence|by eauto].
  - apply fetch_fold_raise.
Qed.

Lemma fetch_fold_ok arr gns out out' :
  foldl (fetch_step arr) (Ok out) gns = Ok out' →
  (∀ gn, gn ∈ gns →
     is_Some (ODict.get (fetch_key gn) arr)
     ∧ ODict.get (fetch_key gn) out' = ODict.get (fetch_key gn) arr)
  ∧ (∀ k, (∀ gn, gn ∈ gns → k ≠ fetch_key gn) →
       ODict.get k out' = ODict.get k out).
Proof.
  revert out. induction gns as [|gn gns IH]; intros out Hfold.
  { simpl in Hfold. injection Hfold as <-. split; [|done].
    intros gn Hin. by apply elem_of_nil in Hin. }
  change (foldl (fetch_step arr) (Ok out) (gn :: gns))
    with (foldl (fetch_step arr) (fetch_step arr (Ok out) gn) gns) in Hfold.
  rewrite fetch_step_ok in Hfold.
  destruct (ODict.get (fetch_key gn) arr) as [block|] eqn:Hget;
    [|by rewrite fetch_fold_raise in Hfold].
  destruct (IH _ Hfold) as [Hreq Hother]. split.
  - intros gn' Hin. apply elem_of_cons in Hin as [->|Hin]; [|by apply Hreq].
    split; [by rewrite Hget|].
    destruct (decide (fetch_key gn ∈ fetch_key <$> gns)) as [Hlater|Hlater].
    + apply list_elem_of_fmap in Hlater as (gn' & -> & Hin').
      by apply Hreq.
    + rewrite Hother, odict_get_set_eq; [done|].
      intros gn' Hin' Heq. apply Hlater. rewrite Heq.
      by apply list_elem_of_fmap_2.
  - intros k Hk. rewrite Hother.
    + apply odict_get_set_ne. intros Heq. apply (Hk gn); [|done].
      apply elem_of_cons. by left.
    + intros gn' Hin'. apply Hk, elem_of_cons. by right.
Qed.

Lemma replace_x_free (s : string) :
  all_chars (λ c, negb (Ascii.eqb c "x")) (PyStr.replace "x" "." s) = true.
Proof.
  induction s as [|c s IH]; simpl; [done|]. rewrite IH, andb_true_r.
  destruct (Ascii.eqb c "x") eqn:Hc; [done|by rewrite Hc].
Qed.

(** C3, as amended. Over a coordinate array that was parsed: when a
    requested generic number has no entry under its dotted key, the fetch
    raises [KeyError] and returns no mapping; and when the fetch returns,
    every requested number has an entry, the result holds the array's
    block under the dotted key of each, and every key of the result is the
    dotted form of a requested number, free of the character x. *)
Theorem fetch_lines_from_pdb_keys (pdb preferred_chain path : string) gns arr :
  pdb_array_creator files (pdb_filename pdb preferred_chain path) = Ok arr →
  ((∃ gn, gn ∈ gns ∧ ODict.get (fetch_key gn) arr = None) →
   fetch_lines_from_pdb files pdb preferred_chain gns path = Raise KeyError)
  ∧ (∀ out,
       fetch_lines_from_pdb files pdb preferred_chain gns path = Ok out →
       (∀ gn, gn ∈ gns →
          is_Some (ODict.get (fetch_key gn) arr)
          ∧ ODict.get (fetch_key gn) out = ODict.get (fetch_key gn) arr)
       ∧ (∀ k, k ∈ ODict.keys out →
            ∃ gn, gn ∈ gns ∧ k = KStr (PyStr.replace "x" "." gn)
                  ∧ all_chars (λ c, negb (Ascii.eqb c "x"))
                      (PyStr.replace "x" "." gn) = true)).
Proof.
  intros Harr. unfold fetch_lines_from_pdb. rewrite Harr. simpl.
  unfold fetch_from_array. split; [apply fetch_fold_missing|].
  intros out Hout. destruct (fetch_fold_ok _ _ _ _ Hout) as [Hreq Hother].
  split; [done|]. intros k Hk.
  destruct (decide (k ∈ fetch_key <$> gns)) as [Hin|Hnotin].
  - apply list_elem_of_fmap in Hin as (gn & -> & Hin).
    exists gn. split_and!; [done|done|apply replace_x_free].
  - apply odict_get_None in Hk; [done|]. rewrite Hother; [done|].
    intros gn Hin ->. apply Hnotin. by apply list_elem_of_fmap_2.
Qed.
End fetch_facts.

Lemma fetch_lines_from_pdb_keys_witness :
  fetch_lines_from_pdb sample_files "4EIY" "A" ["1x50"; "1x51"] "default"
  = Raise KeyError.
Proof.
  eapply (fetch_lines_from_pdb_keys sample_files "4EIY" "A" "default").
  - vm_compute. reflexivity.
  - exists "1x51". split; [|vm_compute; reflexivity].
    apply elem_of_cons. right. apply elem_of_cons. by left.
Defined.

(** C3 as stated fails: a requested generic number without counterpart in
    the coordinate array is not left out of the result, the whole fetch
    raises [KeyError]; a request whose numbers all have counterparts
    returns them under dotted keys. *)
Lemma fetch_lines_from_pdb_absent_key :
  ODict.keys <$> pdb_array_creator sample_files (pdb_filename "4EIY" "A" "default")
  = Ok [KStr "1.50"; KStr "1.501"]
  ∧ fetch_lines_from_pdb sample_files "4EIY" "A" ["1x50"; "1x51"] "default"
    = Raise KeyError
  ∧ ODict.keys <$> fetch_lines_from_pdb sample_files "4EIY" "A" ["1x50"; "1x501"] "default"
    = Ok [KStr "1.50"; KStr "1.501"].
Proof. split_and!; vm_compute; reflexivity. Qed.

(** ** The bulge resolver *)

Section bulge_facts.
Variable files : string → option (list string).
Context {Structure Protein : Type} `{EqDecision Protein}.
Variable parent_protein : Structure → Protein.
Variable residue_proteins : string → list Protein.
Variable structure_str : Structure → string.
Variable preferred_chain_str : Structure → string.

#[local] Abbreviation try_temp :=
  (try_template files structure_str preferred_chain_str).
#[local] Abbreviation probe_all :=
  (probe files structure_str preferred_chain_str).
#[local] Abbreviation candidates :=
  (bulge_templates parent_protein residue_proteins).
#[local] Abbreviation resolve :=
  (bulge_in_reference files parent_protein residue_proteins structure_str
     preferred_chain_str).

(** The candidates are the table's structures whose parent protein has a
    residue with the label, in the order of the table. *)
Lemma bulge_templates_rank_order (gn : string)
    (table : list (Structure * Z)) :
  NoDup (residue_proteins gn) →
  candidates gn table
  = filter (λ s, parent_protein s ∈ residue_proteins gn) (ODict.keys table).
Proof.
  intros Hnd. unfold bulge_templates, ODict.keys.
  induction table.*1 as [|s ss IH]; [done|].
  rewrite bind_cons, IH, filter_cons. f_equal. clear IH.
  assert (∀ ps : list Protein, NoDup ps →
    (ps ≫= λ m, if decide (m = parent_protein s) then [s] else [])
    = if decide (parent_protein s ∈ ps) then [s] else []) as Hps.
  { induction 1 as [|p ps Hp Hps IH]; [done|].
    rewrite bind_cons, IH. destruct (decide (p = parent_protein s)) as [->|].
    - rewrite decide_False by done. rewrite decide_True; [done|].
      apply elem_of_cons. by left.
    - simpl. destruct (decide (parent_protein s ∈ ps)).
      + rewrite decide_True; [done|]. apply elem_of_cons. by right.
      + rewrite decide_False; [done|]. rewrite elem_of_cons. naive_solver. }
  rewrite (Hps _ Hnd). by case_decide.
Qed.

(** When no candidate's fetch returns, [alt_bulge] stays unbound. *)
Lemma probe_none_succeeds (gn : string) (temps : list Structure)
    (attr : template_attr) :
  (∀ temp, temp ∈ temps → is_ok (try_temp gn temp) = false) →
  probe_all gn temps attr
  = (None, if decide (temps = []) then attr else SetTo None).
Proof.
  revert attr. induction temps as [|temp temps IH]; intros attr Hfail; [done|].
  simpl. pose proof (Hfail temp ltac:(apply elem_of_cons; by left)) as Ht.
  destruct (try_temp gn temp); [done|].
  rewrite IH by (intros t Hin; apply Hfail, elem_of_cons; by right).
  by destruct temps.
Qed.

(** The first candidate whose fetch returns is chosen; the candidates
    before it are tried and passed over, those after it are not tried. *)
Lemma probe_first_success (gn : string) (before after : list Structure)
    (temp : Structure) (found : list (reskey * atom_block))
    (attr : template_attr) :
  (∀ t, t ∈ before → is_ok (try_temp gn t) = false) →
  try_temp gn temp = Ok found →
  probe_all gn (before ++ temp :: after) attr
  = (Some found, SetTo (Some temp)).
Proof.
  revert attr. induction before as [|t before IH]; intros attr Hfail Hok.
  { simpl. by rewrite Hok. }
  simpl. pose proof (Hfail t ltac:(apply elem_of_cons; by left)) as Ht.
  destruct (try_temp gn t); [done|].
  apply IH; [|done]. intros t' Hin. apply Hfail, elem_of_cons. by right.
Qed.

(** C2, where the code holds to it: the first candidate in rank order
    whose window fetch returns becomes the sub-template. *)
Lemma bulge_in_reference_first_success (gn : string)
    (table : list (Structure * Z)) (before after : list Structure)
    (temp : Structure) (found : list (reskey * atom_block)) :
  candidates gn table = (before ++ temp :: after)%list →
  (∀ t, t ∈ before → is_ok (try_temp gn t) = false) →
  try_temp gn temp = Ok found → found ≠ [] →
  resolve gn table = (Ok (Some found), SetTo (Some temp)).
Proof.
  intros Hcand Hfail Hok Hne. unfold bulge_in_reference.
  rewrite Hcand, (probe_first_success _ _ _ _ found) by done.
  by destruct found.
Qed.

(** C2, where the code departs from it. When the window fetch succeeds
    for none of the candidates, [bulge_in_reference] does not return
    [None]: it raises [UnboundLocalError], and so does the step of
    [run_non_conserved_switcher] that calls it. *)
Theorem bulge_in_reference_none_succeeds (gn : string)
    (table : list (Structure * Z)) :
  (∀ temp, temp ∈ candidates gn table → is_ok (try_temp gn temp) = false) →
  (resolve gn table).1 = Raise UnboundLocalError
  ∧ resolve_reference_bulge files parent_protein residue_proteins
      structure_str preferred_chain_str gn table
    = Raise UnboundLocalError.
Proof.
  intros Hfail. unfold resolve_reference_bulge, bulge_in_reference.
  by rewrite probe_none_succeeds.
Qed.
End bulge_facts.

(** The first-ranked candidate lacks the window, the second has it. *)
Example bulge_in_reference_sample :
  let r := bulge_in_reference sample_window_files sample_parent
             sample_residue_proteins sample_parent sample_chain "1x501"
             sample_table in
  match r.1 with
  | Ok (Some found) =>
      ODict.keys found
      = [KStr "1.49"; KStr "1.50"; KStr "1.501"; KStr "1.51"; KStr "1.52"]
  | _ => False
  end
  ∧ r.2 = SetTo (Some "4EIY").
Proof. vm_compute. split; reflexivity. Qed.

Lemma bulge_in_reference_none_succeeds_witness :
  (bulge_in_reference sample_files sample_parent sample_residue_proteins
     sample_parent sample_chain "1x501" sample_table).1
  = Raise UnboundLocalError
  ∧ resolve_reference_bulge sample_files sample_parent sample_residue_proteins
      sample_parent sample_chain "1x501" sample_table
    = Raise UnboundLocalError.
Proof.
  apply (bulge_in_reference_none_succeeds sample_files sample_parent
           sample_residue_proteins sample_parent sample_chain).
  intros temp Htemp. vm_compute in Htemp.
  repeat (apply elem_of_cons in Htemp as [->|Htemp];
          [vm_compute; reflexivity|]).
  by apply elem_of_nil in Htemp.
Defined.


(** * Further properties *)

(** ** Generic numbers: fields, segments and steps *)

(** [gn_num_extract] reads the first two fields: it gives back segment and
    position of a written-out generic number, also when a further
    delimiter and any text follow. *)
Theorem gn_num_extract_two_fields (tm num : Z) (d rest : string) :
  plain_delimiter d = true →
  gn_num_extract (gn_of tm d num) d = GnSplit tm num
  ∧ gn_num_extract (gn_of tm d num +:+ d +:+ rest) d = GnSplit tm num.
Proof.
  intros Hd. split; [by apply gn_num_extract_gn_of|].
  destruct d as [|c0 d']; [done|]. simpl in Hd.
  unfold gn_num_extract, gn_of, PyStr.split.
  rewrite !str_app_assoc.
  rewrite split_go_field, str_app_nil_l by (by apply str_no_delimiter).
  rewrite split_go_separator.
  rewrite split_go_field, str_app_nil_l by (by apply str_no_delimiter).
  rewrite split_go_separator. by rewrite !int_str.
Qed.

Lemma gn_num_extract_two_fields_witness :
  gn_num_extract (gn_of 3 "x" 50) "x" = GnSplit 3 50
  ∧ gn_num_extract (gn_of 3 "x" 50 +:+ "x" +:+ "7a") "x" = GnSplit 3 50.
Proof. apply (gn_num_extract_two_fields 3 50 "x" "7a"). reflexivity. Defined.

(** [gn_indecer] raises on no input, and what it returns is the sentinel
    or a generic number of the segment it was given, written with the
    delimiter it was given. *)
Theorem gn_indecer_keeps_segment (gn d : string) (dir : Z) :
  gn_indecer gn d dir = Ok "/"
  ∨ ∃ tm num num',
      gn_num_extract gn d = GnSplit tm num
      ∧ gn_indecer gn d dir = Ok (gn_of tm d num').
Proof.
  unfold gn_indecer. destruct (gn_num_extract gn d) as [tm num|]; [|by left].
  destruct (Nat.eqb_spec (String.length (PyStr.str num)) 2); [by eauto 6|].
  destruct (Nat.eqb_spec (String.length (PyStr.str num)) 3) as [Hlen|];
    [|by left].
  right. destruct (str_length_3_inv _ Hlen) as [Hnum|Hnum].
  - rewrite take_2_str, int_str by done. by eauto 6.
  - rewrite take_2_str_neg, int_str by done. by eauto 6.
Qed.

(** From a three-digit position every step is counted from the anchor,
    the first two digits: a forward step of [dir] gives anchor plus [dir],
    a backward step gives one more than that. The step 0 gives the anchor,
    not the bulge itself. *)
Theorem gn_indecer_bulge_step (tm num dir : Z) (d : string) :
  plain_delimiter d = true → 100 ≤ num ≤ 999 →
  gn_indecer (gn_of tm d num) d dir
  = Ok (gn_of tm d (num `div` 10 + (if dir <? 0 then dir + 1 else dir))).
Proof.
  intros Hd Hnum. unfold gn_indecer. rewrite gn_num_extract_gn_of by done.
  rewrite str_length_3 by done. simpl.
  by rewrite take_2_str, int_str by done.
Qed.

Lemma gn_indecer_bulge_step_witness :
  gn_indecer (gn_of 34 "x" 501) "x" (-2)
  = Ok (gn_of 34 "x" (501 `div` 10 + (if -2 <? 0 then -2 + 1 else -2))).
Proof. apply (gn_indecer_bulge_step 34 501 (-2) "x"); [reflexivity|lia]. Defined.

(** Steps from a two-digit position add up as long as the position in
    between has two digits. *)
Theorem gn_indecer_steps_add (tm num a b : Z) (d : string) :
  plain_delimiter d = true → 10 ≤ num ≤ 99 → 10 ≤ num + a ≤ 99 →
  (g ← gn_indecer (gn_of tm d num) d a; gn_indecer g d b)
  = gn_indecer (gn_of tm d num) d (a + b).
Proof.
  intros Hd Hnum Hmid. rewrite !gn_indecer_2digit by done. simpl.
  rewrite gn_indecer_2digit by done. do 2 f_equal. lia.
Qed.

Lemma gn_indecer_steps_add_witness :
  (g ← gn_indecer (gn_of 3 "x" 50) "x" 2; gn_indecer g "x" (-5))
  = gn_indecer (gn_of 3 "x" 50) "x" (2 + -5).
Proof. apply (gn_indecer_steps_add 3 50 2 (-5) "x"); [reflexivity|lia..]. Defined.

Lemma split_no_separator (c0 : ascii) (sep' s : string) :
  all_chars (λ c, negb (Ascii.eqb c0 c)) s = true →
  PyStr.split s (String c0 sep') = Ok [s].
Proof.
  intros Hs. unfold PyStr.split. f_equal.
  rewrite <-(str_app_nil_r s) at 1. rewrite split_go_field by done.
  by rewrite str_app_nil_l.
Qed.

(** A string in which the delimiter cannot start, such as a boundary
    marker or a boundary key, has no second field: [gn_num_extract] gives
    the sentinel pair and [gn_indecer] the sentinel, for every direction.
    The same holds for the empty delimiter. *)
Theorem gn_indecer_without_delimiter (gn d : string) (dir : Z) :
  match d with
  | String c0 _ => all_chars (λ c, negb (Ascii.eqb c0 c)) gn = true
  | EmptyString => True
  end →
  gn_num_extract gn d = GnSentinel ∧ gn_indecer gn d dir = Ok "/".
Proof.
  intros Hd. assert (gn_num_extract gn d = GnSentinel) as Hs.
  { unfold gn_num_extract. destruct d as [|c0 d']; [done|].
    by rewrite split_no_separator. }
  split; [done|]. unfold gn_indecer. by rewrite Hs.
Qed.

Lemma gn_indecer_without_delimiter_witness :
  gn_num_extract "TM1_end" "x" = GnSentinel
  ∧ gn_indecer "TM1_end" "x" 1 = Ok "/".
Proof. apply (gn_indecer_without_delimiter "TM1_end" "x" 1). reflexivity. Defined.

(** ** Ordered dictionaries: membership and order *)

Section odict_more_facts.
Context {K V : Type} `{EqDecision K}.
Implicit Types (k : K) (v : V) (d : list (K * V)).

Lemma odict_get_Some_elem k v d :
  ODict.get k d = Some v → (k, v) ∈ d.
Proof.
  induction d as [|[k0 v0] d IH]; simpl; [done|].
  destruct (decide (k0 = k)) as [->|_].
  - intros [= ->]. apply elem_of_cons. by left.
  - intros Hget. apply elem_of_cons. right. by apply IH.
Qed.

Lemma odict_elem_of_set k v d (e : K * V) :
  e ∈ ODict.set k v d → e = (k, v) ∨ e ∈ d.
Proof.
  induction d as [|[k0 v0] d IH]; simpl.
  - rewrite list_elem_of_singleton. by left.
  - destruct (decide (k0 = k)) as [->|_]; rewrite !elem_of_cons;
      [naive_solver|]. intros [->|He]; [by auto|]. destruct (IH He); auto.
Qed.

Lemma odict_keys_set_present k v d :
  k ∈ ODict.keys d → ODict.keys (ODict.set k v d) = ODict.keys d.
Proof.
  unfold ODict.keys. induction d as [|[k0 v0] d IH]; simpl.
  - intros Hin. by apply elem_of_nil in Hin.
  - destruct (decide (k0 = k)) as [->|Hne]; [done|].
    rewrite elem_of_cons. intros [->|Hin]; [done|]. csimpl. f_equal.
    by apply IH.
Qed.

Lemma odict_set_set k v v' d :
  ODict.set k v' (ODict.set k v d) = ODict.set k v' d.
Proof.
  induction d as [|[k0 v0] d IH]; simpl.
  - by rewrite decide_True.
  - destruct (decide (k0 = k)) as [->|Hne]; simpl.
    + by rewrite decide_True.
    + by rewrite decide_False, IH.
Qed.
End odict_more_facts.

(** ** Statistics *)

(** After [add_info] the name holds the new information, every other name
    holds what it held, the reference is the same, and the names stand in
    the order of their first entry: a name that was present keeps its
    place, a new name goes to the end. *)
Theorem add_info_entries {V : Type} (self : CreateStatistics V)
    (info_name : string) (info : V) :
  ODict.get info_name (info_dict (add_info self info_name info)) = Some info
  ∧ (∀ other, other ≠ info_name →
       ODict.get other (info_dict (add_info self info_name info))
       = ODict.get other (info_dict self))
  ∧ reference (add_info self info_name info) = reference self
  ∧ ODict.keys (info_dict (add_info self info_name info))
    = if decide (info_name ∈ ODict.keys (info_dict self))
      then ODict.keys (info_dict self)
      else (ODict.keys (info_dict self) ++ [info_name])%list.
Proof.
  unfold add_info. simpl. split_and!.
  - apply odict_get_set_eq.
  - intros other Hne. by apply odict_get_set_ne.
  - done.
  - case_decide as Hin.
    + by apply odict_keys_set_present.
    + rewrite odict_set_fresh by done. unfold ODict.keys.
      by rewrite fmap_app.
Qed.

(** Information added twice under one name counts once: the second call
    alone gives the same object. *)
Theorem add_info_twice {V : Type} (self : CreateStatistics V)
    (info_name : string) (info info' : V) :
  add_info (add_info self info_name info) info_name info'
  = add_info self info_name info'.
Proof. unfold add_info. simpl. by rewrite odict_set_set. Qed.

(** ** Residue names *)

Lemma code_table_codes (name code : string) :
  ODict.get name code_table = Some code →
  String.length name = 3%nat ∧ String.length code = 1%nat ∧ code ≠ "?".
Proof.
  intros Hget. apply odict_get_Some_elem in Hget.
  assert (Forall (λ e : string * string,
            String.length e.1 = 3%nat ∧ String.length e.2 = 1%nat ∧ e.2 ≠ "?")
            code_table) as Hall.
  { unfold code_table. repeat (constructor; [by split_and!|]). constructor. }
  rewrite Forall_forall in Hall. exact (Hall _ Hget).
Qed.

Lemma AA_trans_length (residue_name : string) :
  String.length (AA_trans residue_name) = 1%nat.
Proof.
  unfold AA_trans.
  destruct (ODict.get residue_name code_table) as [code|] eqn:Hget.
  { by apply code_table_codes in Hget as (_ & Hlen & _). }
  destruct (_ =? _)%nat; [|done].
  destruct (ODict.get (tail_from_1 residue_name) code_table) as [code|]
    eqn:Hget'; [|done].
  by apply code_table_codes in Hget' as (_ & Hlen' & _).
Qed.

(** [AA_trans] returns one character for every name, and the question
    mark exactly for the names that are neither in the table nor four
    characters long with the last three in the table. *)
Theorem AA_trans_one_character (residue_name : string) :
  String.length (AA_trans residue_name) = 1%nat
  ∧ (AA_trans residue_name = "?"
     ↔ ODict.get residue_name code_table = None
       ∧ (String.length residue_name ≠ 4%nat
          ∨ ODict.get (tail_from_1 residue_name) code_table = None)).
Proof.
  unfold AA_trans.
  destruct (ODict.get residue_name code_table) as [code|] eqn:Hget.
  { apply code_table_codes in Hget as (_ & Hlen & Hq). naive_solver. }
  destruct (Nat.eqb_spec (String.length residue_name) 4) as [Hlen|Hlen];
    [|naive_solver].
  destruct (ODict.get (tail_from_1 residue_name) code_table) as [code|]
    eqn:Hget'; [|naive_solver].
  apply code_table_codes in Hget' as (_ & Hlen' & Hq). naive_solver.
Qed.

(** A character put before a three-letter name, such as an alternate
    location mark, does not change the translation. *)
Theorem AA_trans_four_characters (c : ascii) (name : string) :
  String.length name = 3%nat → AA_trans (String c name) = AA_trans name.
Proof.
  intros Hlen. unfold AA_trans.
  destruct (ODict.get (String c name) code_table) as [code|] eqn:Hget.
  { apply code_table_codes in Hget as (Hlen4 & _). simpl in Hlen4. lia. }
  simpl String.length. rewrite Hlen. simpl.
  destruct (ODict.get name code_table); [done|].
  by destruct (Nat.eqb_spec 3 4).
Qed.

Lemma AA_trans_four_characters_witness : AA_trans "ALEU" = AA_trans "LEU".
Proof. apply (AA_trans_four_characters "A" "LEU"). reflexivity. Defined.

(** No two names of the table share a code: on the twenty names the
    translation can be read backwards. *)
Theorem AA_trans_table_injective (name1 name2 : string) :
  name1 ∈ ODict.keys code_table → name2 ∈ ODict.keys code_table →
  AA_trans name1 = AA_trans name2 → name1 = name2.
Proof.
  intros H1 H2. unfold ODict.keys, code_table in H1, H2. simpl in H1, H2.
  repeat (apply elem_of_cons in H1 as [->|H1]);
    [..|by apply elem_of_nil in H1];
    repeat (apply elem_of_cons in H2 as [->|H2]);
    try (by apply elem_of_nil in H2); vm_compute; congruence.
Qed.

Lemma AA_trans_table_injective_witness : "LEU" = "LEU".
Proof.
  apply (AA_trans_table_injective "LEU" "LEU");
    [apply (bool_decide_unpack _); vm_compute; reflexivity..|reflexivity].
Defined.

(** ** The matcher against the texts of a pattern *)

(** What the matcher consumes before it goes on is a text of the
    pattern. *)
Lemma run_sound {A : Type} (r : Re.regex) (s : string)
    (k : string → option A) (x : A) :
  Re.run r s k = Some x →
  ∃ t s', s = t +:+ s' ∧ re_matches r t ∧ k s' = Some x.
Proof.
  revert s k x. induction r as [|p|r1 IH1 r2 IH2|r1 IH1|r1 IH1]; intros s k x.
  - simpl. intros Hk. exists "", s. split_and!; [done|constructor|done].
  - simpl. destruct s as [|c s]; [done|]. destruct (p c) eqn:Hp; [|done].
    intros Hk. exists (String c ""), s. split_and!; [done|by constructor|done].
  - simpl. intros Hrun.
    apply IH1 in Hrun as (t1 & s1 & -> & Hm1 & Hrun).
    apply IH2 in Hrun as (t2 & s2 & -> & Hm2 & Hk).
    exists (t1 +:+ t2), s2. split_and!; [|by constructor|done].
    by rewrite str_app_assoc.
  - simpl. destruct (Re.run r1 s k) as [y|] eqn:Hrun.
    + intros [= ->]. apply IH1 in Hrun as (t & s' & -> & Hm & Hk).
      exists t, s'. split_and!; [done|by constructor|done].
    + intros Hk. exists "", s. split_and!; [done|constructor|done].
  - simpl. generalize (String.length s) at 1. intros fuel. revert s.
    induction fuel as [|fuel IHfuel]; intros s; simpl.
    + intros Hk. exists "", s. split_and!; [done|constructor|done].
    + destruct (Re.run r1 s _) as [y|] eqn:Hrun.
      * intros [= ->]. apply IH1 in Hrun as (t1 & s1 & -> & Hm1 & Hstar).
        destruct (_ <? _)%nat; [|done].
        apply IHfuel in Hstar as (t2 & s2 & -> & Hm2 & Hk).
        exists (t1 +:+ t2), s2. split_and!; [|by constructor|done].
        by rewrite str_app_assoc.
      * intros Hk. exists "", s. split_and!; [done|constructor|done].
Qed.

Lemma consumed_app (t s' : string) : Re.consumed (t +:+ s') s' = t.
Proof.
  unfold Re.consumed. rewrite str_length_app.
  replace (String.length t + String.length s' - String.length s')%nat
    with (String.length t) by lia.
  apply take_app_length.
Qed.

(** The groups of a match hold texts of their patterns. *)
Lemma run_groups_sound (gs : list Re.regex) (s : string)
    (acc res : list string) :
  Re.run_groups gs s acc = Some res →
  ∃ texts, res = (rev acc ++ texts)%list ∧ Forall2 re_matches gs texts.
Proof.
  revert s acc. induction gs as [|g gs IH]; intros s acc; simpl.
  - intros [= <-]. exists []. by rewrite app_nil_r.
  - intros Hrun. apply run_sound in Hrun as (t & s' & -> & Hm & Hrun).
    apply IH in Hrun as (texts & -> & Hall). rewrite consumed_app.
    exists (t :: texts). split; [|by constructor].
    simpl. by rewrite <-app_assoc.
Qed.

(** A match found by [search] is a match at some offset. *)
Lemma search_sound (gs : list Re.regex) (s : string) (m : list string) :
  Re.search gs s = Some m → ∃ texts, m = texts ∧ Forall2 re_matches gs texts.
Proof.
  induction s as [|c s IH]; simpl.
  - destruct (Re.rmatch gs "") as [g|] eqn:Hm; [|done]. intros [= <-].
    apply run_groups_sound in Hm as (texts & -> & Hall). eauto.
  - destruct (Re.rmatch gs (String c s)) as [g|] eqn:Hm; [|done].
    intros [= <-]. apply run_groups_sound in Hm as (texts & -> & Hall). eauto.
Qed.

Lemma re_matches_chr_inv (p : ascii → bool) (t : string) :
  re_matches (Re.Chr p) t → ∃ c, t = String c "" ∧ p c = true.
Proof. inversion 1; subst. eauto. Qed.

Lemma re_matches_star_chr (p : ascii → bool) (t : string) :
  re_matches (Re.Star (Re.Chr p)) t → all_chars p t = true.
Proof.
  remember (Re.Star (Re.Chr p)) as r eqn:Hr. intros Hm.
  induction Hm as [| | | | | |r1 t1 t2 Hm1 _ Hm2 IH]; try done.
  injection Hr as ->. apply re_matches_chr_inv in Hm1 as (c & -> & Hc).
  rewrite str_app_cons, str_app_nil_l. simpl. by rewrite Hc, IH.
Qed.

(** A text of one or more characters of a class. *)
Lemma re_matches_plus_chr (p : ascii → bool) (t : string) :
  re_matches (Re.plus (Re.Chr p)) t → t ≠ "" ∧ all_chars p t = true.
Proof.
  unfold Re.plus. inversion 1 as [| |r1 r2 t1 t2 Hm1 Hm2| | | |]; subst.
  apply re_matches_chr_inv in Hm1 as (c & -> & Hc).
  apply re_matches_star_chr in Hm2.
  rewrite str_app_cons, str_app_nil_l. simpl. by rewrite Hc, Hm2.
Qed.

(** The residue-name field has three or four characters, none of them
    white space. *)
Lemma re_matches_resname34 (t : string) :
  re_matches Re.resname34 t →
  (String.length t = 3%nat ∨ String.length t = 4%nat)
  ∧ all_chars (λ c, negb (PyStr.is_space c)) t = true.
Proof.
  unfold Re.resname34, Re.nonspace.
  inversion 1 as [| |? ? ? u1 H1 Hm1| | | |]; subst.
  inversion Hm1 as [| |? ? ? u2 H2 Hm2| | | |]; subst.
  inversion Hm2 as [| |? ? ? u3 H3 Hm3| | | |]; subst.
  apply re_matches_chr_inv in H1 as (c1 & -> & Hc1).
  apply re_matches_chr_inv in H2 as (c2 & -> & Hc2).
  apply re_matches_chr_inv in H3 as (c3 & -> & Hc3).
  inversion Hm3 as [| | |?|? ? H4| |]; subst.
  - simpl. rewrite Hc1, Hc2, Hc3. by auto.
  - apply re_matches_chr_inv in H4 as (c4 & -> & Hc4).
    simpl. rewrite Hc1, Hc2, Hc3, Hc4. by auto.
Qed.

(** [int] accepts every text of one or more digits. *)
Lemma int_digits_some (t : string) (acc : Z) :
  all_chars PyStr.is_digit t = true → is_Some (PyStr.int_digits acc t).
Proof.
  revert acc. induction t as [|c t IH]; intros acc; simpl; [by eauto|].
  rewrite andb_true_iff. intros [Hc Ht].
  unfold PyStr.digit_val. rewrite Hc. by apply IH.
Qed.

Lemma int_of_digits (t : string) :
  t ≠ "" → all_chars PyStr.is_digit t = true → is_Some (PyStr.int t).
Proof.
  intros Hne Hall. unfold PyStr.int.
  assert (all_chars (λ c, negb (PyStr.is_space c)) t = true) as Hns
    by (eapply all_chars_impl; [apply is_digit_not_space|done]).
  rewrite (lstrip_no_space _ Hns), (rstrip_no_space _ Hns).
  destruct t as [|c t]; [done|]. simpl in Hall.
  apply andb_true_iff in Hall as [Hc Ht].
  assert (Ascii.eqb c "-" = false) as ->.
  { apply Ascii.eqb_neq. intros ->. done. }
  assert (Ascii.eqb c "+" = false) as ->.
  { apply Ascii.eqb_neq. intros ->. done. }
  unfold PyStr.int_unsigned, PyStr.digit_val. rewrite Hc.
  by apply int_digits_some.
Qed.

(** ** Residue names read from a record *)

(** [extract_AA_from_pdb_line] raises nothing but [AttributeError], and a
    name it returns has three or four characters, none of them white
    space; [AA_trans] turns it into one character. *)
Theorem extract_AA_from_pdb_line_name (pdb_line : string) :
  extract_AA_from_pdb_line pdb_line = Raise AttributeError
  ∨ ∃ name,
      extract_AA_from_pdb_line pdb_line = Ok name
      ∧ (String.length name = 3%nat ∨ String.length name = 4%nat)
      ∧ all_chars (λ c, negb (PyStr.is_space c)) name = true
      ∧ String.length (AA_trans name) = 1%nat.
Proof.
  unfold extract_AA_from_pdb_line.
  destruct (Re.search aa_line_pattern pdb_line) as [m|] eqn:Hm; [|by left].
  right. apply search_sound in Hm as (texts & -> & Hall).
  unfold aa_line_pattern in Hall.
  apply Forall2_cons_inv_l in Hall as (t1 & texts1 & _ & Hall & ->).
  apply Forall2_cons_inv_l in Hall as (t2 & texts2 & Ht2 & _ & ->).
  apply re_matches_resname34 in Ht2 as [Hlen Hns].
  exists t2. split_and!; [done..|]. apply AA_trans_length.
Qed.

Example extract_AA_from_pdb_line_sample :
  extract_AA_from_pdb_line
    "ATOM      2  CA  MET A   1      26.266  25.413   2.842  1.00  1.50           C"
  = Ok "MET"
  ∧ extract_AA_from_pdb_line
      "ATOM      2  CA AMET A   1      26.266  25.413   2.842  1.00  1.50           C"
    = Ok "AMET"
  ∧ extract_AA_from_pdb_line "HETATM 1 ZN" = Raise AttributeError.
Proof. split_and!; vm_compute; reflexivity. Qed.

(** ** The coordinate parser: exceptions and records *)

(** The second group of a matched record pattern, the atom name, is not
    empty and holds no white space; the fourth holds the text of the
    residue-number pattern. *)
Lemma residue_pattern_groups (resnum : Re.regex) (line : string)
    (m : list string) :
  Re.rmatch (Re.residue_pattern resnum) line = Some m →
  Re.group 2 m ≠ ""
  ∧ all_chars (λ c, negb (PyStr.is_space c)) (Re.group 2 m) = true
  ∧ re_matches resnum (Re.group 4 m).
Proof.
  unfold Re.rmatch. intros Hm.
  apply run_groups_sound in Hm as (texts & -> & Hall).
  unfold Re.residue_pattern in Hall.
  apply Forall2_cons_inv_l in Hall as (t1 & ? & _ & Hall & ->).
  apply Forall2_cons_inv_l in Hall as (t2 & ? & Ht2 & Hall & ->).
  apply Forall2_cons_inv_l in Hall as (t3 & ? & _ & Hall & ->).
  apply Forall2_cons_inv_l in Hall as (t4 & ? & Ht4 & _ & ->).
  apply re_matches_plus_chr in Ht2 as [Hne Hns]. by split_and!.
Qed.

Lemma pdb_line_step_ok (st : parse_state) (line : string) :
  pdb_line_step (Ok st) line
  = match Re.rmatch (Re.residue_pattern (Re.number (res_num st))) line with
    | Some res0_line =>
        Ok (ParseState (res_num st) (pdb_array st)
              (ODict.set (Re.group 2 res0_line) line (atom_lines st)))
    | None =>
        match Re.rmatch (Re.residue_pattern (Re.number (res_num st + 1))) line with
        | Some res1_line =>
            Ok (ParseState (res_num st + 1)
                  (ODict.set (res_num st) (atom_lines st) (pdb_array st))
                  (ODict.set (Re.group 2 res1_line) line []))
        | None =>
            match Re.rmatch (Re.residue_pattern (Re.plus Re.digit)) line with
            | Some resx_line =>
                match PyStr.int (Re.group 4 resx_line) with
                | Some n =>
                    Ok (ParseState n (pdb_array st)
                          (ODict.set (Re.group 2 resx_line) line []))
                | None => Raise ValueError
                end
            | None => Ok st
            end
        end
    end.
Proof. reflexivity. Qed.

Lemma records_from_set (lines : list string) (block : atom_block)
    (atom line : string) :
  records_from lines block → line ∈ lines → atom ≠ "" →
  all_chars (λ c, negb (PyStr.is_space c)) atom = true →
  records_from lines (ODict.set atom line block).
Proof.
  intros Hblock Hline Hne Hns a l Hin.
  apply odict_elem_of_set in Hin as [[= -> ->]|Hin]; [done|by apply Hblock].
Qed.

(** The body of the first loop raises nothing and keeps the records
    among the lines read. *)
Lemma pdb_line_step_records (lines : list string) (st : parse_state)
    (line : string) :
  line ∈ lines →
  records_from lines (atom_lines st) →
  (∀ entry, entry ∈ pdb_array st → records_from lines entry.2) →
  ∃ st', pdb_line_step (Ok st) line = Ok st'
         ∧ records_from lines (atom_lines st')
         ∧ (∀ entry, entry ∈ pdb_array st' → records_from lines entry.2).
Proof.
  intros Hline Hcur Hstored. rewrite pdb_line_step_ok.
  assert (records_from lines []) as Hnil.
  { intros a l Hin. by apply elem_of_nil in Hin. }
  generalize (Re.number (res_num st)) (Re.number (res_num st + 1)).
  intros r0 r1.
  destruct (Re.rmatch (Re.residue_pattern r0) line) as [m0|] eqn:H0.
  { apply residue_pattern_groups in H0 as (Hne & Hns & _).
    eexists. split_and!; [reflexivity| |exact Hstored].
    by apply records_from_set. }
  destruct (Re.rmatch (Re.residue_pattern r1) line) as [m1|] eqn:H1.
  { apply residue_pattern_groups in H1 as (Hne & Hns & _).
    eexists. split_and!; [reflexivity|by apply records_from_set|]. simpl.
    intros entry Hin. apply odict_elem_of_set in Hin as [->|Hin]; [exact Hcur|].
    by apply Hstored. }
  destruct (Re.rmatch (Re.residue_pattern (Re.plus Re.digit)) line)
    as [mx|] eqn:Hx; [|by eauto].
  apply residue_pattern_groups in Hx as (Hne & Hns & Hnum).
  apply re_matches_plus_chr in Hnum as [Hne4 Hdigits].
  destruct (int_of_digits _ Hne4 Hdigits) as [n ->].
  eexists. split_and!; [reflexivity|by apply records_from_set|exact Hstored].
Qed.

Lemma pdb_lines_records (lines rest : list string) (st : parse_state) :
  (∀ line, line ∈ rest → line ∈ lines) →
  records_from lines (atom_lines st) →
  (∀ entry, entry ∈ pdb_array st → records_from lines entry.2) →
  ∃ st', foldl pdb_line_step (Ok st) rest = Ok st'
         ∧ records_from lines (atom_lines st')
         ∧ (∀ entry, entry ∈ pdb_array st' → records_from lines entry.2).
Proof.
  revert st. induction rest as [|line rest IH]; intros st Hrest Hcur Hstored.
  { by eauto. }
  destruct (pdb_line_step_records lines st line) as (st1 & Hstep & Hcur1 & Hst1);
    [apply Hrest, elem_of_cons; by left|done..|].
  change (foldl pdb_line_step (Ok st) (line :: rest))
    with (foldl pdb_line_step (pdb_line_step (Ok st) line) rest).
  rewrite Hstep. apply IH; [|done..].
  intros l Hl. apply Hrest, elem_of_cons. by right.
Qed.

(** The second loop stores blocks it was given, and if it raises, some
    residue has no alpha-carbon record. *)
Lemma out_array_fold_blocks (pdb_array : list (Z * atom_block))
    (acc out : list (reskey * atom_block)) :
  foldl out_array_step (Ok acc) pdb_array = Ok out →
  ∀ e, e ∈ out → (∃ e', e' ∈ acc ∧ e'.2 = e.2)
                 ∨ (∃ e', e' ∈ pdb_array ∧ e'.2 = e.2).
Proof.
  revert acc. induction pdb_array as [|entry pdb_array IH]; intros acc Hfold e He.
  { simpl in Hfold. injection Hfold as <-. left. eauto. }
  change (foldl out_array_step (Ok acc) (entry :: pdb_array))
    with (foldl out_array_step (out_array_step (Ok acc) entry) pdb_array)
    in Hfold.
  rewrite out_array_step_ok in Hfold.
  destruct (out_key entry.1 entry.2) as [k0|err]; simpl in Hfold;
    [|by rewrite out_array_fold_raise in Hfold].
  destruct (IH _ Hfold e He) as [(e' & Hin & Heq)|(e' & Hin & Heq)].
  - apply odict_elem_of_set in Hin as [->|Hin].
    + right. exists entry. split; [apply elem_of_cons; by left|done].
    + left. eauto.
  - right. exists e'. split; [apply elem_of_cons; by right|done].
Qed.

Lemma out_array_fold_raises (pdb_array : list (Z * atom_block))
    (acc : list (reskey * atom_block)) (e : exn) :
  foldl out_array_step (Ok acc) pdb_array = Raise e →
  e = KeyError ∧ ∃ entry, entry ∈ pdb_array ∧ ODict.get "CA" entry.2 = None.
Proof.
  revert acc. induction pdb_array as [|entry pdb_array IH]; intros acc; [done|].
  change (foldl out_array_step (Ok acc) (entry :: pdb_array))
    with (foldl out_array_step (out_array_step (Ok acc) entry) pdb_array).
  rewrite out_array_step_ok.
  destruct (out_key entry.1 entry.2) as [k0|err] eqn:Hk; simpl.
  - intros Hfold. apply IH in Hfold as (-> & bad & Hin & Hca).
    split; [done|]. exists bad. split; [apply elem_of_cons; by right|done].
  - rewrite out_array_fold_raise. intros [= ->].
    apply out_key_raises in Hk as [-> Hca]. split; [done|].
    exists entry. split; [apply elem_of_cons; by left|done].
Qed.

(** What [pdb_array_creator] can raise, and when: [FileNotFoundError] for
    a file that is not there, [IndexError] for a file without lines,
    [AttributeError] for a first line in which the record pattern is not
    found, [ValueError] for a first record whose residue number [int]
    rejects, [KeyError] for a residue read without alpha-carbon record,
    and nothing else. The loop over the lines raises nothing. *)
Theorem pdb_array_creator_exceptions (files : string → option (list string))
    (filename : string) (e : exn) :
  pdb_array_creator files filename = Raise e →
  match e with
  | FileNotFoundError => files filename = None
  | IndexError => files filename = Some []
  | AttributeError =>
      ∃ line0 rest, files filename = Some (line0 :: rest)
                    ∧ Re.search Re.first_line_pattern line0 = None
  | ValueError =>
      ∃ line0 rest m, files filename = Some (line0 :: rest)
                      ∧ Re.search Re.first_line_pattern line0 = Some m
                      ∧ PyStr.int (Re.group 2 m) = None
  | KeyError =>
      ∃ lines n st, files filename = Some lines
        ∧ foldl pdb_line_step (Ok (ParseState n [] [])) lines = Ok st
        ∧ ∃ entry,
            entry ∈ ODict.set (res_num st) (atom_lines st) (pdb_array st)
            ∧ ODict.get "CA" entry.2 = None
  | UnboundLocalError => False
  end.
Proof.
  unfold pdb_array_creator.
  destruct (files filename) as [lines|]; [|by intros [= <-]].
  unfold pdb_array_of_lines. destruct lines as [|line0 rest]; [by intros [= <-]|].
  destruct (Re.search Re.first_line_pattern line0) as [m|] eqn:Hm;
    [|intros [= <-]; by eauto].
  destruct (PyStr.int (Re.group 2 m)) as [n|] eqn:Hn;
    [|intros [= <-]; by eauto 6].
  destruct (pdb_lines_records (line0 :: rest) (line0 :: rest)
              (ParseState n [] [])) as (st & Hloop & _); [done|..].
  { intros a l Hin. by apply elem_of_nil in Hin. }
  { intros entry Hin. by apply elem_of_nil in Hin. }
  rewrite Hloop. simpl. unfold rekey_residues. intros Hraise.
  apply out_array_fold_raises in Hraise as (-> & Hbad). by eauto 6.
Qed.

Lemma pdb_array_creator_exceptions_witness :
  ∃ lines n st, sample_files_no_ca "4EIY_A_GPCRDB.pdb" = Some lines
    ∧ foldl pdb_line_step (Ok (ParseState n [] [])) lines = Ok st
    ∧ ∃ entry,
        entry ∈ ODict.set (res_num st) (atom_lines st) (pdb_array st)
        ∧ ODict.get "CA" entry.2 = None.
Proof.
  apply (pdb_array_creator_exceptions sample_files_no_ca "4EIY_A_GPCRDB.pdb"
           KeyError).
  vm_compute. reflexivity.
Defined.

Lemma pdb_array_of_lines_records (lines : list string)
    (arr : list (reskey * atom_block)) :
  pdb_array_of_lines lines = Ok arr →
  ∀ entry, entry ∈ arr → records_from lines entry.2.
Proof.
  unfold pdb_array_of_lines. destruct lines as [|line0 rest]; [done|].
  destruct (Re.search Re.first_line_pattern line0) as [m|]; [|done].
  destruct (PyStr.int (Re.group 2 m)) as [n|]; [|done].
  destruct (pdb_lines_records (line0 :: rest) (line0 :: rest)
              (ParseState n [] [])) as (st & Hloop & Hcur & Hstored); [done|..].
  { intros a l Hin. by apply elem_of_nil in Hin. }
  { intros entry Hin. by apply elem_of_nil in Hin. }
  rewrite Hloop. simpl. unfold rekey_residues. intros Hout entry Hin.
  destruct (out_array_fold_blocks _ _ _ Hout entry Hin)
    as [(e' & He' & _)|(e' & He' & <-)]; [by apply elem_of_nil in He'|].
  apply odict_elem_of_set in He' as [->|He']; [done|by apply Hstored].
Qed.

Lemma fetch_fold_blocks (arr out0 out : list (reskey * atom_block))
    (gns : list string) :
  foldl (fetch_step arr) (Ok out0) gns = Ok out →
  ∀ e, e ∈ out → e ∈ out0 ∨ e ∈ arr.
Proof.
  revert out0. induction gns as [|gn gns IH]; intros out0 Hfold e He.
  { simpl in Hfold. injection Hfold as <-. by left. }
  change (foldl (fetch_step arr) (Ok out0) (gn :: gns))
    with (foldl (fetch_step arr) (fetch_step arr (Ok out0) gn) gns) in Hfold.
  rewrite fetch_step_ok in Hfold.
  destruct (ODict.get (fetch_key gn) arr) as [block|] eqn:Hget;
    [|by rewrite fetch_fold_raise in Hfold].
  destruct (IH _ Hfold e He) as [Hin|Hin]; [|by right].
  apply odict_elem_of_set in Hin as [->|Hin]; [|by left].
  right. by apply odict_get_Some_elem.
Qed.

(** The fetch invents nothing: every record it returns is a line of the
    structure's coordinate file, stored under an atom name that is not
    empty and holds no white space. *)
Theorem fetch_lines_from_pdb_records (files : string → option (list string))
    (pdb preferred_chain path : string) (generic_numbers lines : list string)
    (out : list (reskey * atom_block)) :
  files (pdb_filename pdb preferred_chain path) = Some lines →
  fetch_lines_from_pdb files pdb preferred_chain generic_numbers path = Ok out →
  ∀ entry atom line, entry ∈ out → (atom, line) ∈ entry.2 →
    line ∈ lines ∧ atom ≠ ""
    ∧ all_chars (λ c, negb (PyStr.is_space c)) atom = true.
Proof.
  intros Hfile. unfold fetch_lines_from_pdb, pdb_array_creator. rewrite Hfile.
  destruct (pdb_array_of_lines lines) as [arr|] eqn:Harr; [|done]. simpl.
  unfold fetch_from_array. intros Hout entry atom line Hin.
  destruct (fetch_fold_blocks _ _ _ _ Hout entry Hin) as [Hnil|Harr'];
    [by apply elem_of_nil in Hnil|].
  by apply (pdb_array_of_lines_records _ _ Harr).
Qed.

Lemma fetch_lines_from_pdb_records_witness :
  ∃ out,
    fetch_lines_from_pdb sample_files "4EIY" "A" ["1x50"] "default" = Ok out
    ∧ ∀ entry atom line, entry ∈ out → (atom, line) ∈ entry.2 →
        line ∈ sample_lines ∧ atom ≠ ""
        ∧ all_chars (λ c, negb (PyStr.is_space c)) atom = true.
Proof.
  eexists. split; [vm_compute; reflexivity|].
  apply (fetch_lines_from_pdb_records sample_files "4EIY" "A" "default"
           ["1x50"]); vm_compute; reflexivity.
Defined.

(** ** The main template *)

Lemma filter_head_split {A : Type} (P : A → Prop) `{∀ x, Decision (P x)}
    (l rest : list A) (x : A) :
  filter P l = x :: rest →
  ∃ before after, l = (before ++ x :: after)%list ∧ Forall (λ y, ¬ P y) before.
Proof.
  induction l as [|y l IH]; [done|]. rewrite filter_cons.
  destruct (decide (P y)) as [Hy|Hy].
  - intros [= -> _]. exists [], l. by split.
  - intros Hf. destruct (IH Hf) as (before & after & -> & Hbefore).
    exists (y :: before), after. split; [done|by constructor].
Qed.


Section main_template_facts.
Context {Protein Structure : Type} `{EqDecision Structure}.
Variable similarity : Protein → Z.
Variable matches : Protein → list Structure.
Variable pdb_code_index : Structure → string.
Variable preferred_chain : Structure → string.
Variable parent_sequence : Structure → string.

#[local] Abbreviation mkey := (table_key matches).
#[local] Abbreviation mentry := (table_entry matches).
#[local] Abbreviation mstep := (similarity_table_step matches).
#[local] Abbreviation select :=
  (select_main_template similarity matches pdb_code_index preferred_chain
     parent_sequence).

(** With a structure for every ranked protein, and different structures
    for different proteins, the table holds the entries of the proteins in
    ranked order. *)
Lemma similarity_table_entries (proteins : list Protein) :
  (∀ p, p ∈ drop 1 proteins → matches p ≠ []) →
  NoDup (mkey <$> drop 1 proteins) →
  create_ordered_similarity_table similarity matches proteins
  = Ok (omap mentry
          (PyList.sorted_reverse snd
             ((λ p, (p, similarity p)) <$> drop 1 proteins))).
Proof.
  intros Hmatch Hnd. unfold create_ordered_similarity_table.
  set (cand := drop 1 proteins) in *.
  set (order := PyList.sorted_reverse snd ((λ p, (p, similarity p)) <$> cand)).
  assert (Forall (λ i, is_Some (mentry i)) order) as Horder.
  { unfold order. rewrite sorted_reverse_perm. apply Forall_fmap, Forall_forall.
    intros p Hp. simpl. unfold table_entry, table_key. simpl.
    specialize (Hmatch p Hp). destruct (matches p); [done|]. simpl. eauto. }
  rewrite similarity_table_fold; [done|done|]. simpl.
  apply (NoDup_fmap_1 Some). rewrite omap_table_entry_keys by done.
  unfold order. rewrite sorted_reverse_perm.
  rewrite <-!list_fmap_compose. exact Hnd.
Qed.



Lemma main_chain_take (chain : string) :
  main_chain chain = Ok (PyStr.take 1 chain).
Proof.
  unfold main_chain, PyStr.take.
  destruct chain as [|c [|c' chain]]; try done.
Qed.

(** [select_main_template] chooses a structure of the highest score, and
    of the candidates with that score the one whose score was collected
    first: every candidate before its protein scores lower, every
    candidate after it scores no higher. *)
Theorem select_main_template_best (stats : CreateStatistics string)
    (proteins : list Protein) :
  drop 1 proteins ≠ [] →
  (∀ p, p ∈ drop 1 proteins → matches p ≠ []) →
  NoDup (mkey <$> drop 1 proteins) →
  ∃ main info before p after,
    select stats proteins = Ok (main, info)
    ∧ drop 1 proteins = (before ++ p :: after)%list
    ∧ head (matches p) = Some main
    ∧ (∀ q, q ∈ before → similarity q < similarity p)
    ∧ (∀ q, q ∈ after → similarity q ≤ similarity p).
Proof.
  intros Hne Hmatch Hnd. unfold select_main_template.
  rewrite similarity_table_entries by done. simpl.
  set (cand := drop 1 proteins) in *.
  set (tmp := (λ p, (p, similarity p)) <$> cand).
  pose proof (sorted_reverse_perm snd tmp) as Hperm.
  pose proof (sorted_reverse_sorted snd tmp) as Hsorted.
  pose proof (λ v, sorted_reverse_stable snd v tmp) as Hstable.
  destruct (PyList.sorted_reverse snd tmp) as [|[p v] order] eqn:Horder.
  { apply Permutation_nil_l in Hperm. unfold tmp in Hperm.
    symmetry in Hperm. by apply fmap_nil_inv in Hperm. }
  assert ((p, v) ∈ tmp) as Hp.
  { rewrite <-Hperm. apply elem_of_cons. by left. }
  unfold tmp in Hp. apply list_elem_of_fmap in Hp as (p' & [= <- ->] & Hp).
  specialize (Hstable (similarity p)). rewrite filter_cons in Hstable.
  simpl in Hstable. rewrite decide_True in Hstable by done.
  unfold tmp in Hstable. rewrite filter_scored in Hstable.
  destruct (filter (λ q, similarity q = similarity p) cand) as [|p0 tied]
    eqn:Hfilter; [done|].
  simpl in Hstable. injection Hstable as <- _.
  apply filter_head_split in Hfilter as (before & after & Hcand & Hbefore).
  assert (∀ q, q ∈ cand → similarity q ≤ similarity p) as Hmax.
  { intros q Hq. assert ((q, similarity q) ∈ (p, similarity p) :: order) as Hin.
    { rewrite Hperm. unfold tmp. apply list_elem_of_fmap. by exists q. }
    apply StronglySorted_inv in Hsorted as [_ Hall].
    apply elem_of_cons in Hin as [[= _ ->]|Hin]; [lia|].
    rewrite Forall_forall in Hall. by apply (Hall _ Hin). }
  csimpl. unfold table_entry at 1, table_key at 1. simpl.
  assert (p ∈ cand) as Hp'.
  { rewrite Hcand. apply elem_of_app. right. apply elem_of_cons. by left. }
  specialize (Hmatch p Hp').
  destruct (matches p) as [|main ms] eqn:Hmain; [done|].
  csimpl. rewrite main_chain_take. simpl.
  eexists main, _, before, p, after.
  split_and!; [reflexivity|done|by rewrite Hmain|..].
  - intros q Hq. rewrite Forall_forall in Hbefore.
    assert (similarity q ≤ similarity p); [|specialize (Hbefore q Hq); lia].
    apply Hmax. rewrite Hcand. apply elem_of_app. by left.
  - intros q Hq. apply Hmax. rewrite Hcand.
    apply elem_of_app. right. apply elem_of_cons. by right.
Qed.


End main_template_facts.

Lemma select_main_template_best_witness :
  ∃ main info before p after,
    select_main_template sample_similarity sample_matches sample_parent
      sample_chain sample_parent (new_statistics "gp139_human")
      [0; 1; 2; 3; 4]%nat = Ok (main, info)
    ∧ drop 1 [0; 1; 2; 3; 4]%nat = (before ++ p :: after)%list
    ∧ head (sample_matches p) = Some main
    ∧ (∀ q, q ∈ before → sample_similarity q < sample_similarity p)
    ∧ (∀ q, q ∈ after → sample_similarity q ≤ sample_similarity p).
Proof.
  apply (select_main_template_best sample_similarity sample_matches
           sample_parent sample_chain sample_parent).
  - done.
  - intros p Hp. simpl in Hp.
    repeat (apply elem_of_cons in Hp as [->|Hp]; [done|]).
    by apply elem_of_nil in Hp.
  - apply (bool_decide_unpack _). vm_compute. reflexivity.
Defined.



(** ** Bulges and constrictions *)

Section switcher_facts.
Variable files : string → option (list string).
Context {Structure Protein : Type} `{EqDecision Protein}.
Variable parent_protein : Structure → Protein.
Variable residue_proteins : string → list Protein.
Variable structure_str : Structure → string.
Variable preferred_chain_str : Structure → string.

#[local] Abbreviation sw_step :=
  (switcher_step files parent_protein residue_proteins structure_str
     preferred_chain_str).
#[local] Abbreviation sw_run :=
  (run_non_conserved_switcher files parent_protein residue_proteins
     structure_str preferred_chain_str).
#[local] Abbreviation sw_lists := (@switch_lists Structure).

Implicit Types (a : AlignedReferenceAndTemplate) (sb sc : bool)
  (table : list (Structure * Z)) (lists : sw_lists)
  (item : option string * option string * ascii).

Lemma switcher_fold_cons a sb sc table (acc : result sw_lists) item
    (items : list (option string * option string * ascii)) :
  foldl (sw_step a sb sc table) acc (item :: items)
  = foldl (sw_step a sb sc table) (sw_step a sb sc table acc item) items.
Proof. reflexivity. Qed.

Lemma switcher_fold_raise a sb sc table (e : exn)
    (items : list (option string * option string * ascii)) :
  foldl (sw_step a sb sc table) (Raise e) items = Raise e.
Proof. induction items as [|item items IH]; [done|apply IH]. Qed.

(** A position whose classification is no gap changes no list. *)
Lemma switcher_step_no_gap a sb sc table lists item :
  item.2 ≠ "-"%char → sw_step a sb sc table (Ok lists) item = Ok lists.
Proof.
  destruct item as [[rk tk] c]. simpl. intros Hc.
  apply Ascii.eqb_neq in Hc. unfold switcher_step. simpl. by rewrite Hc.
Qed.

Lemma switcher_fold_no_gap a sb sc table lists
    (items : list (option string * option string * ascii)) :
  Forall (λ item, item.2 ≠ "-"%char) items →
  foldl (sw_step a sb sc table) (Ok lists) items = Ok lists.
Proof.
  induction 1 as [|item items Hitem _ IH]; [done|].
  by rewrite switcher_fold_cons, switcher_step_no_gap.
Qed.

(** One position adds at most one record, and none when its
    classification is no gap. *)
Lemma switcher_step_total a sb sc table lists lists' item :
  sw_step a sb sc table (Ok lists) item = Ok lists' →
  (records_total lists'
   ≤ records_total lists + (if Ascii.eqb item.2 "-" then 1 else 0))%nat.
Proof.
  destruct item as [[rk tk] c]. unfold switcher_step, records_total.
  simpl. unfold mbind, result_bind.
  repeat case_match; intros [= <-]; simpl; rewrite ?length_app; simpl; lia.
Qed.

Lemma zip_gap_count {A : Type} (ks : list A) (s : string) :
  (length (filter (λ item : A * ascii, item.2 = "-"%char)
             (zip ks (list_ascii_of_string s))) ≤ gap_count s)%nat.
Proof.
  revert ks. induction s as [|c s IH]; intros [|k ks]; simpl;
    rewrite ?filter_nil; simpl; try lia.
  rewrite filter_cons. simpl. specialize (IH ks).
  destruct (Ascii.eqb_spec c "-") as [->|Hc].
  - rewrite decide_True by done. simpl. lia.
  - rewrite decide_False by done. lia.
Qed.

Lemma switcher_fold_total a sb sc table lists lists'
    (items : list (option string * option string * ascii)) :
  foldl (sw_step a sb sc table) (Ok lists) items = Ok lists' →
  (records_total lists'
   ≤ records_total lists
     + length (filter (λ item, item.2 = "-"%char) items))%nat.
Proof.
  revert lists. induction items as [|item items IH]; intros lists.
  { simpl. intros [= <-]. lia. }
  rewrite switcher_fold_cons.
  destruct (sw_step a sb sc table (Ok lists) item) as [lists1|e] eqn:Hstep;
    [|by rewrite switcher_fold_raise].
  intros Hfold. apply IH in Hfold. apply switcher_step_total in Hstep.
  rewrite filter_cons. destruct (Ascii.eqb_spec item.2 "-") as [Hc|Hc].
  - rewrite decide_True by done. simpl. lia.
  - rewrite decide_False by done. lia.
Qed.

(** When [run_non_conserved_switcher] ends without exception, its four
    lists hold together no more records than the classification string
    has gap characters; without gap characters they are empty. *)
Theorem run_non_conserved_switcher_bound a sb sc
    (table_call : result (list (Structure * Z))) lists (counts : nat * nat) :
  sw_run a sb sc table_call = Ok (lists, counts) →
  (records_total lists ≤ gap_count (aligned_string a))%nat.
Proof.
  unfold run_non_conserved_switcher.
  destruct (sb || sc).
  - destruct table_call as [table|e]; [|done]. simpl.
    destruct (foldl (sw_step a sb sc table) (Ok no_switches)
                (switcher_items a)) as [lists1|e] eqn:Hfold; [|done].
    simpl. intros Heq. injection Heq as <- _.
    apply switcher_fold_total in Hfold.
    unfold switcher_items in Hfold.
    pose proof (zip_gap_count
                  (zip (ODict.keys (aligned_reference_dict a))
                     (ODict.keys (aligned_template_dict a)))
                  (aligned_string a)) as Hzip.
    unfold records_total in *. simpl in *. lia.
  - simpl. intros Heq. injection Heq as <- _.
    unfold records_total. simpl. lia.
Qed.

Lemma gap_count_zip {A : Type} (ks : list A) (s : string) :
  gap_count s = 0%nat →
  Forall (λ item : A * ascii, item.2 ≠ "-"%char)
    (zip ks (list_ascii_of_string s)).
Proof.
  revert ks. induction s as [|c s IH]; intros [|k ks]; simpl; try by constructor.
  destruct (Ascii.eqb_spec c "-") as [->|Hc]; [done|].
  intros Hs. constructor; [done|by apply IH].
Qed.

(** Without a gap character in the classification string the first loop
    looks nothing up: whatever the keys and entries of the two mappings
    are, the function ends without exception and its four lists are
    empty. *)
Theorem run_non_conserved_switcher_no_gap a sb sc table :
  gap_count (aligned_string a) = 0%nat →
  ∃ counts, sw_run a sb sc (Ok table) = Ok (no_switches, counts).
Proof.
  intros Hgap. unfold run_non_conserved_switcher.
  destruct (sb || sc); simpl; [|eauto].
  rewrite switcher_fold_no_gap; [simpl; eauto|].
  by apply gap_count_zip.
Qed.

(** The first loop on triples with one gap after a gap-free start: the
    outcome is the outcome of the loop body at the gap, when the body
    raises or when the rest is gap-free. *)
Lemma switcher_fold_first_gap a sb sc table item
    (pre post : list (option string * option string * ascii)) :
  Forall (λ item, item.2 ≠ "-"%char) pre →
  (Forall (λ item, item.2 ≠ "-"%char) post
   ∨ is_ok (sw_step a sb sc table (Ok no_switches) item) = false) →
  foldl (sw_step a sb sc table) (Ok no_switches) (pre ++ item :: post)
  = sw_step a sb sc table (Ok no_switches) item.
Proof.
  intros Hpre Hpost.
  rewrite foldl_app, switcher_fold_no_gap, switcher_fold_cons by done.
  destruct (sw_step a sb sc table (Ok no_switches) item) as [lists|e];
    [|apply switcher_fold_raise].
  destruct Hpost as [Hpost|?]; [|done]. by apply switcher_fold_no_gap.
Qed.

Lemma switcher_run_first_gap a sb sc table item
    (pre post : list (option string * option string * ascii)) :
  sb || sc = true →
  switcher_items a = (pre ++ item :: post)%list →
  Forall (λ item, item.2 ≠ "-"%char) pre →
  (Forall (λ item, item.2 ≠ "-"%char) post
   ∨ is_ok (sw_step a sb sc table (Ok no_switches) item) = false) →
  sw_run a sb sc (Ok table)
  = (lists ← sw_step a sb sc table (Ok no_switches) item;
     Ok (lists, foldl count_step (0%nat, 0%nat) (pre ++ item :: post))).
Proof.
  intros Hsw Hitems Hpre Hpost. unfold run_non_conserved_switcher.
  rewrite Hsw, Hitems. simpl.
  by rewrite switcher_fold_first_gap.
Qed.

(** A gap in the template whose neighbour one step back is no key of the
    template mapping, as at the first column of a segment, ends
    [run_non_conserved_switcher] with [KeyError]; so does a gap in the
    reference whose neighbour one step back is no key of the reference
    mapping. *)
Theorem run_non_conserved_switcher_edge_gap a sb sc table gn tk
    (before : string)
    (pre post : list (option string * option string * ascii)) :
  sb || sc = true →
  switcher_items a = (pre ++ (gn, tk, "-"%char) :: post)%list →
  Forall (λ item, item.2 ≠ "-"%char) pre →
  key_indecer gn (-1) = Ok before →
  (ODict.get gn (aligned_reference_dict a) = Some "-"
   ∧ ODict.get (Some before) (aligned_reference_dict a) = None)
  ∨ ((∃ v, ODict.get gn (aligned_reference_dict a) = Some v ∧ v ≠ "-")
     ∧ ODict.get tk (aligned_template_dict a) = Some "-"
     ∧ ODict.get (Some before) (aligned_template_dict a) = None) →
  sw_run a sb sc (Ok table) = Raise KeyError.
Proof.
  intros Hsw Hitems Hpre Hbefore Hcase.
  assert (sw_step a sb sc table (Ok no_switches) (gn, tk, "-"%char)
          = Raise KeyError) as Hstep.
  { unfold switcher_step. simpl. unfold gap_between_residues, lookup.
    destruct Hcase as [[Hown Hmiss]|[(v & Hown & Hv) [Htown Hmiss]]].
    - rewrite Hown. simpl. rewrite Hbefore. simpl. by rewrite Hmiss.
    - rewrite Hown. simpl. rewrite bool_decide_false by done. simpl.
      rewrite Htown. simpl. rewrite Hbefore. simpl. by rewrite Hmiss. }
  rewrite (switcher_run_first_gap a sb sc table _ pre post Hsw Hitems Hpre).
  - by rewrite Hstep.
  - right. by rewrite Hstep.
Qed.

Lemma key_indecer_2digit (tm num dir : Z) :
  10 ≤ num ≤ 99 →
  key_indecer (Some (gn_of tm "x" num)) dir = Ok (gn_of tm "x" (num + dir)).
Proof. intros Hnum. simpl. by apply gn_indecer_2digit. Qed.

Lemma key_indecer_3digit_back (tm num : Z) :
  100 ≤ num ≤ 999 →
  key_indecer (Some (gn_of tm "x" num)) (-1)
  = Ok (gn_of tm "x" (num `div` 10)).
Proof.
  intros Hnum. simpl. unfold gn_indecer.
  rewrite gn_num_extract_gn_of, str_length_3 by done. simpl.
  rewrite take_2_str, int_str by done. simpl. by rewrite Z.add_0_r.
Qed.

Lemma key_indecer_3digit_forth (tm num : Z) :
  100 ≤ num ≤ 999 →
  key_indecer (Some (gn_of tm "x" num)) 1
  = Ok (gn_of tm "x" (num `div` 10 + 1)).
Proof.
  intros Hnum. simpl. unfold gn_indecer.
  rewrite gn_num_extract_gn_of, str_length_3 by done. simpl.
  by rewrite take_2_str, int_str by done.
Qed.

Lemma gap_between_residues_residue (d : list (option string * string))
    (own gn : option string) (v : string) :
  ODict.get own d = Some v → v ≠ "-" →
  gap_between_residues d own gn = Ok false.
Proof.
  intros Hown Hv. unfold gap_between_residues, lookup. rewrite Hown.
  cbn [mbind result_bind]. by rewrite bool_decide_false by done.
Qed.

Lemma gap_between_residues_flanked (d : list (option string * string))
    (own gn : option string) (before after vb va : string) :
  ODict.get own d = Some "-" →
  key_indecer gn (-1) = Ok before → ODict.get (Some before) d = Some vb →
  is_residue vb = true →
  key_indecer gn 1 = Ok after → ODict.get (Some after) d = Some va →
  is_residue va = true →
  gap_between_residues d own gn = Ok true.
Proof.
  intros Hown Hbefore Hb Hvb Hafter Ha Hva.
  unfold gap_between_residues, lookup. rewrite Hown.
  cbn [mbind result_bind]. rewrite bool_decide_true by done.
  rewrite Hbefore. cbn [mbind result_bind]. rewrite Hb.
  cbn [mbind result_bind]. rewrite Hvb, Hafter.
  cbn [mbind result_bind]. rewrite Ha. cbn [mbind result_bind].
  by rewrite Hva.
Qed.

Lemma constriction_record_flanked (d : list (option string * string))
    (gn : option string) (before after vb va : string) :
  key_indecer gn (-1) = Ok before → ODict.get (Some before) d = Some vb →
  key_indecer gn 1 = Ok after → ODict.get (Some after) d = Some va →
  constriction_record d gn
  = Ok (before +:+ "-" +:+ after, vb +:+ "-" +:+ va).
Proof.
  intros Hbefore Hb Hafter Ha. unfold constriction_record, lookup.
  rewrite Hbefore, Hafter. cbn [mbind result_bind]. rewrite Hb.
  cbn [mbind result_bind]. by rewrite Ha.
Qed.

Lemma bulge_position_2digit (tm num : Z) :
  10 ≤ num ≤ 99 → bulge_position (Some (gn_of tm "x" num)) = None.
Proof.
  intros Hnum. unfold bulge_position.
  by rewrite gn_num_extract_gn_of, str_length_2 by done.
Qed.

Lemma bulge_position_3digit (tm num : Z) :
  100 ≤ num ≤ 999 →
  bulge_position (Some (gn_of tm "x" num)) = Some (gn_of tm "x" num).
Proof.
  intros Hnum. unfold bulge_position.
  by rewrite gn_num_extract_gn_of, str_length_3 by done.
Qed.

(** The only gap of the alignment is in the template, at a position
    written with two digits whose neighbours hold residues in the
    template: with the constriction switch on, the function records one
    constriction in the template, the two neighbouring generic numbers
    joined by a dash with the two neighbouring residues joined by a dash,
    and nothing else. *)
Theorem run_non_conserved_switcher_template_constriction a sb table
    (tm num : Z) tk (rv vb va : string)
    (pre post : list (option string * option string * ascii)) :
  10 ≤ num ≤ 99 →
  switcher_items a
  = (pre ++ (Some (gn_of tm "x" num), tk, "-"%char) :: post)%list →
  Forall (λ item, item.2 ≠ "-"%char) pre →
  Forall (λ item, item.2 ≠ "-"%char) post →
  ODict.get (Some (gn_of tm "x" num)) (aligned_reference_dict a) = Some rv →
  rv ≠ "-" →
  ODict.get tk (aligned_template_dict a) = Some "-" →
  ODict.get (Some (gn_of tm "x" (num - 1))) (aligned_template_dict a)
  = Some vb →
  is_residue vb = true →
  ODict.get (Some (gn_of tm "x" (num + 1))) (aligned_template_dict a)
  = Some va →
  is_residue va = true →
  ∃ counts,
    sw_run a sb true (Ok table)
    = Ok (SwitchLists [] [] []
            [(gn_of tm "x" (num - 1) +:+ "-" +:+ gn_of tm "x" (num + 1),
              vb +:+ "-" +:+ va)],
          counts).
Proof.
  intros Hnum Hitems Hpre Hpost Hown Hrv Htown Hb Hvb Ha Hva.
  rewrite (switcher_run_first_gap a sb true table _ pre post)
    by (done || by rewrite ?orb_true_r || by left).
  pose proof (key_indecer_2digit tm num (-1) Hnum) as Hbefore.
  pose proof (key_indecer_2digit tm num 1 Hnum) as Hafter.
  change (num + -1) with (num - 1) in Hbefore.
  unfold switcher_step. cbn [mbind result_bind].
  change (Ascii.eqb "-" "-") with true. cbv iota.
  rewrite (gap_between_residues_residue (aligned_reference_dict a) _ _ rv)
    by done.
  cbn [mbind result_bind].
  rewrite (gap_between_residues_flanked (aligned_template_dict a)
             _ _ _ _ vb va) by done.
  cbn [mbind result_bind]. rewrite bulge_position_2digit by done.
  rewrite (constriction_record_flanked (aligned_template_dict a)
             _ _ _ vb va) by done.
  cbn [mbind result_bind]. eauto.
Qed.

(** The only gap of the alignment is in the reference, at a position
    written with three digits, and the positions of its first two digits
    and one further hold residues in the reference: with the bulge switch
    on, the function records one bulge in the template, the generic
    number with the template's residue there, and nothing else. *)
Theorem run_non_conserved_switcher_template_bulge a sc table
    (tm num : Z) tk (v vb va : string)
    (pre post : list (option string * option string * ascii)) :
  100 ≤ num ≤ 999 →
  switcher_items a
  = (pre ++ (Some (gn_of tm "x" num), tk, "-"%char) :: post)%list →
  Forall (λ item, item.2 ≠ "-"%char) pre →
  Forall (λ item, item.2 ≠ "-"%char) post →
  ODict.get (Some (gn_of tm "x" num)) (aligned_reference_dict a)
  = Some "-" →
  ODict.get (Some (gn_of tm "x" (num `div` 10))) (aligned_reference_dict a)
  = Some vb →
  is_residue vb = true →
  ODict.get (Some (gn_of tm "x" (num `div` 10 + 1)))
    (aligned_reference_dict a) = Some va →
  is_residue va = true →
  ODict.get tk (aligned_template_dict a) = Some v →
  ∃ counts,
    sw_run a true sc (Ok table)
    = Ok (SwitchLists [] [(gn_of tm "x" num, v)] [] [], counts).
Proof.
  intros Hnum Hitems Hpre Hpost Hown Hb Hvb Ha Hva Htown.
  rewrite (switcher_run_first_gap a true sc table _ pre post)
    by (done || by left).
  pose proof (key_indecer_3digit_back tm num Hnum) as Hbefore.
  pose proof (key_indecer_3digit_forth tm num Hnum) as Hafter.
  unfold switcher_step. cbn [mbind result_bind].
  change (Ascii.eqb "-" "-") with true. cbv iota.
  rewrite (gap_between_residues_flanked (aligned_reference_dict a)
             _ _ _ _ vb va) by done.
  cbn [mbind result_bind]. rewrite bulge_position_3digit by done.
  unfold lookup. rewrite Htown. cbn [mbind result_bind]. eauto.
Qed.

(** The only gap of the alignment is in the template, at a position
    written with three digits whose two flanking positions hold residues
    in the template: with the bulge switch on, the function records one
    bulge in the reference, the generic number with the first candidate
    in rank order whose window of coordinates can be fetched, and nothing
    else. *)
Theorem run_non_conserved_switcher_reference_bulge a sc table
    (tm num : Z) tk (rv vb va : string)
    (pre post : list (option string * option string * ascii))
    (before after : list Structure) (temp : Structure)
    (found : list (reskey * atom_block)) :
  100 ≤ num ≤ 999 →
  switcher_items a
  = (pre ++ (Some (gn_of tm "x" num), tk, "-"%char) :: post)%list →
  Forall (λ item, item.2 ≠ "-"%char) pre →
  Forall (λ item, item.2 ≠ "-"%char) post →
  ODict.get (Some (gn_of tm "x" num)) (aligned_reference_dict a) = Some rv →
  rv ≠ "-" →
  ODict.get tk (aligned_template_dict a) = Some "-" →
  ODict.get (Some (gn_of tm "x" (num `div` 10))) (aligned_template_dict a)
  = Some vb →
  is_residue vb = true →
  ODict.get (Some (gn_of tm "x" (num `div` 10 + 1)))
    (aligned_template_dict a) = Some va →
  is_residue va = true →
  bulge_templates parent_protein residue_proteins (gn_of tm "x" num) table
  = (before ++ temp :: after)%list →
  (∀ t, t ∈ before →
     is_ok (try_template files structure_str preferred_chain_str
              (gn_of tm "x" num) t) = false) →
  try_template files structure_str preferred_chain_str (gn_of tm "x" num)
    temp = Ok found →
  ∃ counts,
    sw_run a true sc (Ok table)
    = Ok (SwitchLists [(gn_of tm "x" num, Some temp)] [] [] [], counts).
Proof.
  intros Hnum Hitems Hpre Hpost Hown Hrv Htown Hb Hvb Ha Hva Hcand Hfail Hok.
  rewrite (switcher_run_first_gap a true sc table _ pre post)
    by (done || by left).
  pose proof (key_indecer_3digit_back tm num Hnum) as Hbefore.
  pose proof (key_indecer_3digit_forth tm num Hnum) as Hafter.
  unfold switcher_step. cbn [mbind result_bind].
  change (Ascii.eqb "-" "-") with true. cbv iota.
  rewrite (gap_between_residues_residue (aligned_reference_dict a) _ _ rv)
    by done.
  cbn [mbind result_bind].
  rewrite (gap_between_residues_flanked (aligned_template_dict a)
             _ _ _ _ vb va) by done.
  cbn [mbind result_bind]. rewrite bulge_position_3digit by done.
  unfold resolve_reference_bulge, bulge_in_reference.
  rewrite Hcand, (probe_first_success _ _ _ _ _ _ _ found) by done.
  destruct found; cbn [mbind result_bind]; eauto.
Qed.

Lemma count_fold (items : list (option string * option string * ascii))
    (n m : nat) :
  Forall (λ item, item.1.1 ≠ Some "-" ∧ item.1.1 ≠ Some "/") items →
  foldl count_step (n, m) items
  = ((n + length items)%nat,
     (m + length (filter (λ item, item.2 = "."%char) items))%nat).
Proof.
  intros Hkeys. revert n m.
  induction Hkeys as [|[[rk tk] c] items [H1 H2] _ IH]; intros n m.
  { simpl. f_equal; lia. }
  change (foldl count_step (n, m) ((rk, tk, c) :: items))
    with (foldl count_step (count_step (n, m) (rk, tk, c)) items).
  unfold count_step at 2. simpl in H1, H2.
  rewrite !bool_decide_true by done. cbn [andb fst snd].
  rewrite filter_cons. cbn [snd].
  destruct (Ascii.eqb_spec c ".") as [->|Hc].
  - rewrite decide_True by done. rewrite IH. simpl. f_equal; lia.
  - rewrite decide_False by done. rewrite IH. simpl. f_equal; lia.
Qed.

(** The second loop compares the keys of the reference mapping, not its
    entries, with the gap and boundary characters: when no key is one of
    these two, [ref_length] counts every triple of the loop, the
    boundaries and the gaps with the residues, and [non_cons_count]
    counts the dots of the classification string. *)
Theorem run_non_conserved_switcher_counts a sb sc
    (table_call : result (list (Structure * Z))) lists (counts : nat * nat) :
  (∀ k, k ∈ ODict.keys (aligned_reference_dict a) →
     k ≠ Some "-" ∧ k ≠ Some "/") →
  sw_run a sb sc table_call = Ok (lists, counts) →
  counts.1 = length (switcher_items a)
  ∧ counts.2 = length (filter (λ item, item.2 = "."%char) (switcher_items a)).
Proof.
  intros Hkeys. unfold run_non_conserved_switcher.
  rewrite count_fold.
  - destruct (if sb || sc then _ else _) as [lists'|e];
      cbn [mbind result_bind]; [|done].
    intros Heq. injection Heq as _ <-. done.
  - apply Forall_forall. intros [[rk tk] c] Hin. simpl.
    apply Hkeys. unfold switcher_items in Hin.
    apply elem_of_zip_l in Hin. by apply elem_of_zip_l in Hin.
Qed.
End switcher_facts.

Lemma run_non_conserved_switcher_bound_witness :
  (records_total (SwitchLists (Structure:=string) [] [] []
                    [("1x30-1x32", "A-I")])
   ≤ gap_count (aligned_string sample_inner_gap))%nat.
Proof.
  apply (run_non_conserved_switcher_bound sample_window_files sample_parent
           sample_residue_proteins sample_parent sample_chain
           sample_inner_gap true true (Ok sample_table) _ (4%nat, 1%nat)).
  vm_compute. reflexivity.
Defined.

Lemma run_non_conserved_switcher_no_gap_witness :
  ∃ counts,
    run_non_conserved_switcher sample_window_files sample_parent
      sample_residue_proteins sample_parent sample_chain sample_no_gap
      true true (Ok sample_table)
    = Ok (no_switches, counts).
Proof.
  apply run_non_conserved_switcher_no_gap. vm_compute. reflexivity.
Defined.

Lemma run_non_conserved_switcher_edge_gap_witness :
  run_non_conserved_switcher sample_window_files sample_parent
    sample_residue_proteins sample_parent sample_chain sample_edge_gap
    true true (Ok sample_table)
  = Raise KeyError.
Proof.
  apply (run_non_conserved_switcher_edge_gap sample_window_files
           sample_parent sample_residue_proteins sample_parent sample_chain
           sample_edge_gap true true sample_table (Some "1x30")
           (Some "1x30") "1x29" []
           [(Some "1x31", Some "1x31", "L"%char);
            (Some "TM1_end", Some "TM1_end", "/"%char)]).
  - reflexivity.
  - vm_compute. reflexivity.
  - constructor.
  - vm_compute. reflexivity.
  - right. split; [exists "A"; split; [vm_compute; reflexivity|discriminate]|].
    split; vm_compute; reflexivity.
Defined.

Lemma run_non_conserved_switcher_template_constriction_witness :
  ∃ counts,
    run_non_conserved_switcher sample_window_files sample_parent
      sample_residue_proteins sample_parent sample_chain sample_inner_gap
      false true (Ok sample_table)
    = Ok (SwitchLists [] [] [] [("1x30-1x32", "A-I")], counts).
Proof.
  apply (run_non_conserved_switcher_template_constriction
           sample_window_files sample_parent sample_residue_proteins
           sample_parent sample_chain sample_inner_gap false sample_table
           1 31 (Some "1x31") "L" "A" "I"
           [(Some "1x30", Some "1x30", "A"%char)]
           [(Some "1x32", Some "1x32", "."%char);
            (Some "TM1_end", Some "TM1_end", "/"%char)]).
  - lia.
  - vm_compute. reflexivity.
  - repeat constructor. discriminate.
  - repeat constructor; discriminate.
  - vm_compute. reflexivity.
  - discriminate.
  - vm_compute. reflexivity.
  - vm_compute. reflexivity.
  - reflexivity.
  - vm_compute. reflexivity.
  - reflexivity.
Defined.

Lemma run_non_conserved_switcher_template_bulge_witness :
  ∃ counts,
    run_non_conserved_switcher sample_window_files sample_parent
      sample_residue_proteins sample_parent sample_chain
      sample_template_bulge true false (Ok sample_table)
    = Ok (SwitchLists [] [("1x501", "G")] [] [], counts).
Proof.
  apply (run_non_conserved_switcher_template_bulge
           sample_window_files sample_parent sample_residue_proteins
           sample_parent sample_chain sample_template_bulge false
           sample_table 1 501 (Some "1x501") "G" "A" "V"
           [(Some "1x50", Some "1x50", "A"%char)]
           [(Some "1x51", Some "1x51", "."%char);
            (Some "TM1_end", Some "TM1_end", "/"%char)]).
  - lia.
  - vm_compute. reflexivity.
  - repeat constructor. discriminate.
  - repeat constructor; discriminate.
  - vm_compute. reflexivity.
  - vm_compute. reflexivity.
  - reflexivity.
  - vm_compute. reflexivity.
  - reflexivity.
  - vm_compute. reflexivity.
Defined.

Lemma run_non_conserved_switcher_reference_bulge_witness :
  ∃ counts,
    run_non_conserved_switcher sample_window_files sample_parent
      sample_residue_proteins sample_parent sample_chain
      sample_reference_bulge true false (Ok sample_table)
    = Ok (SwitchLists [("1x501", Some "4EIY")] [] [] [], counts).
Proof.
  eapply (run_non_conserved_switcher_reference_bulge
           sample_window_files sample_parent sample_residue_proteins
           sample_parent sample_chain sample_reference_bulge false
           sample_table 1 501 (Some "1x501") "G" "A" "I"
           [(Some "1x50", Some "1x50", "A"%char)]
           [(Some "1x51", Some "1x51", "."%char);
            (Some "TM1_end", Some "TM1_end", "/"%char)]
           ["2RH1"] [] "4EIY").
  - lia.
  - vm_compute. reflexivity.
  - repeat constructor. discriminate.
  - repeat constructor; discriminate.
  - vm_compute. reflexivity.
  - discriminate.
  - vm_compute. reflexivity.
  - vm_compute. reflexivity.
  - reflexivity.
  - vm_compute. reflexivity.
  - reflexivity.
  - vm_compute. reflexivity.
  - intros t Ht. apply elem_of_cons in Ht as [->|Ht];
      [vm_compute; reflexivity|by apply elem_of_nil in Ht].
  - vm_compute. reflexivity.
Defined.

Lemma run_non_conserved_switcher_counts_witness :
  (4%nat, 1%nat).1 = length (switcher_items sample_inner_gap)
  ∧ (4%nat, 1%nat).2
    = length (filter (λ item, item.2 = "."%char)
                (switcher_items sample_inner_gap)).
Proof.
  apply (run_non_conserved_switcher_counts sample_window_files sample_parent
           sample_residue_proteins sample_parent sample_chain
           sample_inner_gap true true (Ok sample_table)
           (SwitchLists [] [] [] [("1x30-1x32", "A-I")]) (4%nat, 1%nat)).
  - intros k Hk. vm_compute in Hk.
    repeat (apply elem_of_cons in Hk as [->|Hk]; [done|]).
    by apply elem_of_nil in Hk.
  - vm_compute. reflexivity.
Defined.

(** ** The second loop and the sub-template search at sample inputs *)

Lemma rekey_residues_unparsable_ca_witness :
  ODict.get (KInt 2)
    [(KStr "1.50",
      [("N", "ATOM      1  N   MET A   1      27.340  24.430   2.614  1.00  0.00           N");
       ("CA", "ATOM      2  CA  MET A   1      26.266  25.413   2.842  1.00  1.50           C")]);
     (KInt 2,
      [("N", "ATOM      4  N   LEU A   2      26.335  27.770   3.258  1.00  0.00           N");
       ("CA", "ATOM      5  CA  LEU A   2      26.850  29.021   3.898")])]
  = Some [("N", "ATOM      4  N   LEU A   2      26.335  27.770   3.258  1.00  0.00           N");
          ("CA", "ATOM      5  CA  LEU A   2      26.850  29.021   3.898")].
Proof.
  apply (rekey_residues_unparsable_ca sample_plain_ca_array _ 2 _
           "ATOM      5  CA  LEU A   2      26.850  29.021   3.898").
  - apply (bool_decide_unpack _). vm_compute. reflexivity.
  - apply elem_of_cons. right. apply elem_of_cons. by left.
  - reflexivity.
  - vm_compute. reflexivity.
  - vm_compute. reflexivity.
Defined.

Lemma rekey_residues_returns_witness :
  ∃ out, rekey_residues sample_plain_ca_array = Ok out.
Proof.
  apply rekey_residues_returns. intros entry Hentry.
  repeat (apply elem_of_cons in Hentry as [->|Hentry]; [by eexists|]).
  by apply elem_of_nil in Hentry.
Defined.

Lemma bulge_templates_rank_order_witness :
  bulge_templates sample_parent sample_residue_proteins "1x501" sample_table
  = filter (λ s, sample_parent s ∈ sample_residue_proteins "1x501")
      (ODict.keys sample_table).
Proof.
  apply (bulge_templates_rank_order sample_files sample_parent
           sample_residue_proteins sample_parent sample_chain).
  apply (bool_decide_unpack _). vm_compute. reflexivity.
Defined.

Lemma bulge_in_reference_first_success_witness :
  ∃ found,
    bulge_in_reference sample_window_files sample_parent
      sample_residue_proteins sample_parent sample_chain "1x501" sample_table
    = (Ok (Some found), SetTo (Some "4EIY")).
Proof.
  eexists.
  apply (bulge_in_reference_first_success sample_window_files sample_parent
           sample_residue_proteins sample_parent sample_chain "1x501"
           sample_table ["2RH1"] [] "4EIY").
  - reflexivity.
  - intros t Ht. apply elem_of_cons in Ht as [->|Ht];
      [vm_compute; reflexivity|by apply elem_of_nil in Ht].
  - vm_compute. reflexivity.
  - discriminate.
Defined.

(** ** Breaks in the residue numbering *)



